(** * kwuartboot: boot-pattern handshake and XMODEM sender

    A shallow embedding of [kwuartboot.c] and the properties of its
    boot-pattern handshake and of its XMODEM (checksum variant) sender.

    The program talks to the operating system only: [write], [read],
    [select], [tcdrain], [tcflush] and [time].  The embedding keeps these
    calls as an interface ([Os]) that a world type implements, threads the
    process state ([errno], the rotator position) through every function
    and records each call with its arguments and its result in a trace, so
    that what the program puts on the wire can be read back afterwards. *)

From stdpp Require Import base list strings.
From Stdlib Require Import ZArith Lia.

Local Open Scope Z_scope.

(** ** Constants of the source *)

Definition SOH : Z := 0x01.
Definition STX : Z := 0x02.
Definition EOT : Z := 0x04.
Definition ACK : Z := 0x06.
Definition NAK : Z := 0x15.
Definition CAN : Z := 0x18.
Definition CTRLZ : Z := 0x1A.

Definition PATTERN_SEND_INTERVAL : Z := 50000.
Definition PATTERN_SEND_TIMEOUT : Z := 20.
Definition ONE_SECOND_US : Z := 1000000.
Definition RECEIVE_TIMEOUT : Z := 60 * 1000000.
Definition MAX_RETRANS : Z := 10.

Definition boot_pattern : list Z :=
  [0xbb; 0x11; 0x22; 0x33; 0x44; 0x55; 0x66; 0x77].

(** [errno] value that [read_byte] synthesises for a timeout (Linux). *)
Definition ETIMEDOUT : Z := 110.

(** Conversion to [unsigned char]. *)
Definition uchar (x : Z) : Z := x mod 256.

(** ** The operating system *)

(** Result of a system call: a value, or a failure with its [errno]. *)
Inductive sysret : Type :=
| Sys (v : Z)
| Err (e : Z).

(** Result of [read]: the bytes delivered (none at end of file), or a
    failure with its [errno]. *)
Inductive readret : Type :=
| Got (data : list Z)
| RErr (e : Z).

Class Os (W : Type) : Type := {
  os_write : Z -> list Z -> W -> sysret * W;
  os_read : Z -> Z -> W -> readret * W;
  os_select : Z -> Z -> Z -> W -> sysret * W;
  os_tcdrain : Z -> W -> sysret * W;
  os_tcflush : Z -> W -> sysret * W;
  os_time : W -> Z * W
}.

(** What the process does that can be observed from outside.  Format
    strings are kept as they are written in the source, escapes included;
    of the arguments the integers are kept. *)
Inductive event : Type :=
| EvWrite (fd : Z) (buf : list Z) (ret : Z)
| EvRead (fd : Z) (count : Z) (ret : Z) (data : list Z)
| EvSelect (fd : Z) (tv_sec tv_usec : Z) (ret : Z)
| EvTcdrain (fd : Z) (ret : Z)
| EvTcflush (fd : Z) (ret : Z)
| EvTime (t : Z)
| EvPrintf (fmt : string) (args : list Z)
| EvStderr (fmt : string) (args : list Z)
| EvPuts (s : string)
| EvFflush.

(** ** The process *)

Record machine (W : Type) : Type := Machine {
  world : W;
  errno : Z;
  pos : Z;
  trace : list event
}.
Arguments Machine {W} _ _ _ _.
Arguments world {W} _.
Arguments errno {W} _.
Arguments pos {W} _.
Arguments trace {W} _.

Inductive outcome (W A : Type) : Type :=
| Done (a : A) (m : machine W)
| Aborted (m : machine W)
| Starved.
Arguments Done {W A} _ _.
Arguments Aborted {W A} _.
Arguments Starved {W A}.

Definition M (W A : Type) : Type := machine W -> outcome W A.

Definition ret {W A : Type} (a : A) : M W A := fun m => Done a m.

Definition bind {W A B : Type} (c : M W A) (k : A -> M W B) : M W B :=
  fun m =>
    match c m with
    | Done a m' => k a m'
    | Aborted m' => Aborted m'
    | Starved => Starved
    end.

Declare Scope proc_scope.
Delimit Scope proc_scope with proc.
Notation "x <- c1 ;; c2" := (bind c1 (fun x => c2))
  (at level 100, c1 at next level, right associativity) : proc_scope.
Notation "c1 ;; c2" := (bind c1 (fun _ => c2))
  (at level 100, right associativity) : proc_scope.
Local Open Scope proc_scope.

(** Control leaving a block of a loop body: [return v], [break], or on to
    the rest of the body. *)
Inductive ctl (A : Type) : Type :=
| Return (v : Z)
| Break
| Continue (a : A).
Arguments Return {A} _.
Arguments Break {A}.
Arguments Continue {A} _.

(** How a loop ends: the function returns from inside it, or control
    reaches the statement after it. *)
Inductive loop_end (A : Type) : Type :=
| Returned (v : Z)
| Left (a : A).
Arguments Returned {A} _.
Arguments Left {A} _.

Definition emit {W : Type} (e : event) (m : machine W) : machine W :=
  Machine (world m) (errno m) (pos m) (trace m ++ [e]).

Section Program.
Context {W : Type} {os : Os W}.

Definition starve {A : Type} : M W A := fun _ => Starved.

(** [assert(b)]: the process aborts when [b] is false. *)
Definition assert (b : bool) : M W unit :=
  fun m => if b then Done tt m else Aborted m.

Definition get_errno : M W Z := fun m => Done (errno m) m.

Definition set_errno (e : Z) : M W unit :=
  fun m => Done tt (Machine (world m) e (pos m) (trace m)).

(** A system call returning an [int]: -1 and [errno] on failure. *)
Definition syscall (call : W -> sysret * W) (ev : Z -> event) : M W Z :=
  fun m =>
    match call (world m) with
    | (Sys v, w) => Done v (Machine w (errno m) (pos m) (trace m ++ [ev v]))
    | (Err e, w) => Done (-1) (Machine w e (pos m) (trace m ++ [ev (-1)]))
    end.

Definition write (fd : Z) (buf : list Z) : M W Z :=
  syscall (os_write fd buf) (EvWrite fd buf).

Definition select (fd tv_sec tv_usec : Z) : M W Z :=
  syscall (os_select fd tv_sec tv_usec) (EvSelect fd tv_sec tv_usec).

Definition tcdrain (fd : Z) : M W Z :=
  syscall (os_tcdrain fd) (EvTcdrain fd).

Definition tcflush (fd : Z) : M W Z :=
  syscall (os_tcflush fd) (EvTcflush fd).

(** [read(fd, buf, count)]: the count and the bytes stored at [buf].  At
    most [count] bytes are delivered, each an [unsigned char]. *)
Definition read (fd count : Z) : M W (Z * list Z) :=
  fun m =>
    match os_read fd count (world m) with
    | (Got data, w) =>
        let data := uchar <$> take (Z.to_nat count) data in
        let got := Z.of_nat (length data) in
        Done (got, data)
             (Machine w (errno m) (pos m)
                      (trace m ++ [EvRead fd count got data]))
    | (RErr e, w) =>
        Done (-1, [])
             (Machine w e (pos m) (trace m ++ [EvRead fd count (-1) []]))
    end.

Definition time : M W Z :=
  fun m =>
    let '(t, w) := os_time (world m) in
    Done t (Machine w (errno m) (pos m) (trace m ++ [EvTime t])).

Definition printf (fmt : string) (args : list Z) : M W unit :=
  fun m => Done tt (emit (EvPrintf fmt args) m).

Definition fprintf_stderr (fmt : string) (args : list Z) : M W unit :=
  fun m => Done tt (emit (EvStderr fmt args) m).

Definition puts (s : string) : M W unit :=
  fun m => Done tt (emit (EvPuts s) m).

Definition fflush_stdout : M W unit :=
  fun m => Done tt (emit EvFflush m).

(** [memchr(s, c, n) != NULL] over the whole of [s]. *)
Definition memchr (s : list Z) (c : Z) : bool :=
  existsb (Z.eqb (uchar c)) s.

(** *** read_block (lines 62-86)

    Returns the C result and the bytes stored at [buf].  The loop
    (lines 69-79) hands back what it has stored so far and either the
    value it returns or [tot] and [rem] on leaving.  Every turn that
    goes on takes at least one byte off [rem], so [size] turns are
    enough. *)
Fixpoint read_block_loop (n : nat) (fd : Z) (buf : list Z) (tot rem : Z)
  : M W (list Z * loop_end (Z * Z)) :=
  if 0 <? rem then
    match n with
    | O => starve
    | S n' =>
        r <- read fd rem ;;
        let '(got, data) := r in
        if got =? 0 then ret (buf, Left (tot, rem))
        else if got <? 0 then ret (buf, Returned (-1))
        else read_block_loop n' fd (buf ++ data) (tot + got) (rem - got)
    end
  else ret (buf, Left (tot, rem)).

Definition read_block (fd size : Z) : M W (Z * list Z) :=
  r <- read_block_loop (Z.to_nat size) fd [] 0 size ;;
  match r with
  | (buf, Returned v) => ret (v, buf)
  | (buf, Left (tot, rem)) =>
      if 0 <? rem then ret (tot, buf ++ replicate (Z.to_nat rem) 0)
      else ret (tot, buf)
  end.

(** *** read_byte (lines 88-114) *)
Definition read_byte (fd timeout : Z) : M W Z :=
  retval <- select fd (timeout / ONE_SECOND_US) (timeout mod ONE_SECOND_US) ;;
  (if retval =? 0 then set_errno ETIMEDOUT else ret tt) ;;
  if retval <? 1 then ret (-1)
  else
    r <- read fd 1 ;;
    let '(got, data) := r in
    assert (negb (got =? 0)) ;;
    if got <? 0 then ret (-1)
    else ret (nth 0 data 0).

(** *** write_byte (lines 116-123) *)
Definition write_byte (fd c : Z) : M W Z :=
  write fd [uchar c].

(** *** rotator (lines 125-133) *)
Definition rotator_chars : list Z := [124; 47; 45; 92].

Definition rotator : M W unit :=
  fun m =>
    Done tt
      (Machine (world m) (errno m) ((pos m + 1) mod 4)
         (trace m ++
            [EvPrintf "%c\b" [nth (Z.to_nat (pos m)) rotator_chars 0];
             EvFflush])).

(** *** cancel_send (lines 135-143) *)
Definition cancel_send (fd : Z) : M W unit :=
  let cancel := [CAN; CAN; CAN] in
  n <- write fd cancel ;;
  if n =? Z.of_nat (length cancel) then
    d <- tcdrain fd ;;
    if d =? 0 then (tcflush fd ;; ret tt) else ret tt
  else ret tt.

(** *** send_boot_pattern (lines 145-206) *)

(** The inner [for (;;)] (lines 176-194): leaves with the value of
    [done], or returns -1. *)
Fixpoint read_replies (n : nat) (fd : Z) (done : bool)
  : M W (loop_end bool) :=
  match n with
  | O => starve
  | S n' =>
      c <- read_byte fd PATTERN_SEND_INTERVAL ;;
      if c =? -1 then
        e <- get_errno ;;
        if e =? ETIMEDOUT then ret (Left done) else ret (Returned (-1))
      else if c =? NAK then ret (Left true)
      else
        (if memchr boot_pattern c then ret tt
         else (printf "*." [] ;; fflush_stdout)) ;;
        read_replies n' fd done
  end.

(** The [while (!done)] (lines 163-202). *)
Fixpoint pattern_loop (n : nat) (fd timeout start : Z) (done : bool)
  : M W (loop_end unit) :=
  if done then ret (Left tt)
  else
    match n with
    | O => starve
    | S n' =>
        rotator ;;
        wrote <- write fd boot_pattern ;;
        if wrote =? -1 then ret (Returned (-1))
        else
          assert (wrote =? Z.of_nat (length boot_pattern)) ;;
          d <- tcdrain fd ;;
          if d <? 0 then ret (Returned (-1))
          else
            r <- read_replies n' fd done ;;
            match r with
            | Returned v => ret (Returned v)
            | Left done =>
                now <- time ;;
                if now - start >? timeout then
                  printf "timeout\n" [] ;; ret (Returned 1)
                else pattern_loop n' fd timeout start done
            end
    end.

Definition send_boot_pattern (fuel : nat) (fd timeout : Z) : M W Z :=
  start <- time ;;
  tcflush fd ;;
  printf "Sending boot pattern: power on or reset now..." [] ;;
  r <- pattern_loop fuel fd timeout start false ;;
  match r with
  | Returned v => ret v
  | Left _ => printf "done\n" [] ;; ret 0
  end.

(** *** wait_for_nak (lines 208-242) *)
Definition wait_for_nak (fd : Z) : M W Z :=
  c <- read_byte fd RECEIVE_TIMEOUT ;;
  if c =? -1 then
    e <- get_errno ;;
    fprintf_stderr "%s: error reading from serial port: %m\n" [e] ;;
    ret (-1)
  else
    assert ((0 <=? c) && (c <=? 255)) ;;
    if c =? 67 (* 'C' *) then
      printf "unexpected CRC-mode character\n" [] ;; ret (-1)
    else if c =? NAK then ret 0
    else if c =? CAN then
      c <- read_byte fd ONE_SECOND_US ;;
      if c =? CAN then
        write_byte fd ACK ;;
        printf "cancelled by remote\n" [] ;;
        ret (-1)
      else ret 0
    else
      printf "unexpected character %02x, cancelling send\n" [c] ;;
      cancel_send fd ;;
      ret (-1).

(** *** build_packet (lines 244-273)

    The array is updated in place; the function returns its C result
    together with the array as it leaves it.  The array of the caller
    has 134 elements and every index written here is below 132, so the
    updates never fall outside it. *)
Definition chksum_of (packet : list Z) (buflen : Z) : Z :=
  foldl (fun chksum i => uchar (chksum + nth i packet 0)) 0
        (seq 3 (Z.to_nat buflen)).

Definition build_packet (fd packetno : Z) (packet : list Z) (buflen : Z)
  : M W (Z * list Z) :=
  assert (0 <? buflen) ;;
  let packet := <[0%nat := SOH]> packet in
  let packet := <[1%nat := uchar packetno]> packet in
  let packet := <[2%nat := uchar (Z.lnot (uchar packetno))]> packet in
  r <- read_block fd buflen ;;
  let '(got, data) := r in
  let packet := list_inserts 3 data packet in
  if got =? -1 then
    e <- get_errno ;;
    fprintf_stderr "%s: error reading from file: %m\n" [e] ;;
    ret (-1, packet)
  else if got =? 0 then ret (1, packet)
  else
    let chksum := chksum_of packet buflen in
    let packet := <[Z.to_nat (buflen + 3) := chksum]> packet in
    ret (0, packet).

(** *** send_packet (lines 275-294) *)
Fixpoint send_bytes (fd : Z) (bytes : list Z) (i : Z) : M W (loop_end unit) :=
  match bytes with
  | [] => ret (Left tt)
  | b :: rest =>
      w <- write_byte fd b ;;
      if w =? -1 then ret (Returned (-1))
      else if i mod 8 =? 0 then
        d <- tcdrain fd ;;
        if d <? 0 then ret (Returned (-1))
        else send_bytes fd rest (i + 1)
      else send_bytes fd rest (i + 1)
  end.

Definition send_packet (fd : Z) (packet : list Z) (len : Z) : M W Z :=
  r <- send_bytes fd (take (Z.to_nat len) packet) 0 ;;
  match r with
  | Returned v => ret v
  | Left _ => read_byte fd RECEIVE_TIMEOUT
  end.

(** *** xmodem_send (lines 296-375) *)
Definition buflen : Z := 128.

(** Lines 317-324: build the next packet, or announce a repeat of the
    one in the array.  Goes on with the array and [lastpacket]. *)
Definition next_packet (in_fd packetno lastpacket retry : Z)
    (packet : list Z) : M W (ctl (list Z * Z)) :=
  if negb (packetno =? lastpacket) then
    r <- build_packet in_fd packetno packet buflen ;;
    let '(res, packet) := r in
    if res =? -1 then ret (Return (-1))
    else if res =? 1 then ret Break
    else ret (Continue (packet, packetno))
  else
    printf "*%d*." [retry] ;;
    ret (Continue (packet, lastpacket)).

(** The sending loop (lines 314-354): leaves with the value of [retry],
    or returns.  [packetno] is a C [int]; it stays in range for any
    source shorter than 2^31 packets and is not wrapped here. *)
Fixpoint send_loop (n : nat) (tty_fd in_fd : Z) (packet : list Z)
    (packetno lastpacket retry : Z) : M W (loop_end Z) :=
  if retry <? MAX_RETRANS then
    match n with
    | O => starve
    | S n' =>
        rotator ;;
        np <- next_packet in_fd packetno lastpacket retry packet ;;
        match np with
        | Return v => ret (Returned v)
        | Break => ret (Left retry)
        | Continue (packet, lastpacket) =>
            c <- send_packet tty_fd packet (buflen + 4) ;;
            if c =? -1 then
              e <- get_errno ;;
              if e =? ETIMEDOUT then
                send_loop n' tty_fd in_fd packet packetno lastpacket
                          (retry + 1)
              else
                fprintf_stderr "%s: error writing to serial port: %m\n" [e] ;;
                ret (Left retry)
            else if c =? ACK then
              send_loop n' tty_fd in_fd packet (packetno + 1) lastpacket
                        (0 + 1)
            else if c =? CAN then
              printf "cancelled by remote\n" [] ;;
              c <- read_byte tty_fd 1 ;;
              if c =? CAN then
                write_byte tty_fd ACK ;;
                tcdrain tty_fd ;;
                ret (Returned (-1))
              else
                send_loop n' tty_fd in_fd packet packetno lastpacket
                          (retry + 1)
            else if c =? NAK then
              send_loop n' tty_fd in_fd packet packetno lastpacket
                        (retry + 1)
            else
              printf "unexpected character %02x\n" [c] ;;
              send_loop n' tty_fd in_fd packet packetno lastpacket
                        (retry + 1)
        end
    end
  else ret (Left retry).

(** The closing loop (lines 362-367): leaves with the value of [c]. *)
Fixpoint eot_loop (n : nat) (tty_fd retry c : Z) : M W Z :=
  if retry <? MAX_RETRANS then
    match n with
    | O => starve
    | S n' =>
        write_byte tty_fd EOT ;;
        tcdrain tty_fd ;;
        c <- read_byte tty_fd 1 ;;
        if c =? ACK then ret c
        else eot_loop n' tty_fd (retry + 1) c
    end
  else ret c.

(** Lines 312-374: everything after the confirming NAK.  The array
    [packet] is not initialised in the source; [build_packet] fills it
    before [send_packet] first reads it, and it starts as zeroes here.
    Likewise [c] has no value yet when the closing loop starts and gets
    one in its first turn. *)
Definition transfer (fuel : nat) (tty_fd in_fd : Z) : M W Z :=
  let packet := replicate 134 0 in
  r <- send_loop fuel tty_fd in_fd packet 1 0 0 ;;
  match r with
  | Returned v => ret v
  | Left retry =>
      if retry =? MAX_RETRANS then
        fprintf_stderr "Too many retries, cancelling send\n" [] ;;
        cancel_send tty_fd ;;
        ret (-1)
      else
        printf "\nFinishing..." [] ;;
        c <- eot_loop (Z.to_nat MAX_RETRANS) tty_fd 0 0 ;;
        if negb (c =? ACK) then puts "failed\n" ;; ret (-1)
        else puts "done\n" ;; ret 0
  end.

Definition xmodem_send (fuel : nat) (tty_fd in_fd : Z) : M W Z :=
  printf "Sending file..." [] ;;
  r <- wait_for_nak tty_fd ;;
  if r =? -1 then ret (-1)
  else transfer fuel tty_fd in_fd.

End Program.

(** ** What went over the wire *)

(** The bytes a trace shows to have been accepted by [write] on [fd], in
    order. *)
Definition wire (fd : Z) (t : list event) : list Z :=
  flat_map (fun e =>
              match e with
              | EvWrite fd' buf r =>
                  if fd' =? fd then take (Z.to_nat r) buf else []
              | _ => []
              end) t.

(** The [write] calls of a trace on [fd], with the buffer of each. *)
Definition writes (fd : Z) (t : list event) : list (list Z) :=
  flat_map (fun e =>
              match e with
              | EvWrite fd' buf _ => if fd' =? fd then [buf] else []
              | _ => []
              end) t.

(** The timeouts, seconds and microseconds, of the [select] calls of a
    trace. *)
Definition timeouts (t : list event) : list (Z * Z) :=
  flat_map (fun e =>
              match e with
              | EvSelect _ s us _ => [(s, us)]
              | _ => []
              end) t.

(** The format strings printed on standard output. *)
Definition printed (t : list event) : list string :=
  flat_map (fun e =>
              match e with
              | EvPrintf fmt _ => [fmt]
              | EvPuts s => [s]
              | _ => []
              end) t.

(** What was printed on the error stream: format strings and integer
    arguments ([errno] for [%m]). *)
Definition reported (t : list event) : list (string * list Z) :=
  flat_map (fun e =>
              match e with
              | EvStderr fmt args => [(fmt, args)]
              | _ => []
              end) t.

(** The payload bytes of a packet of the wire format. *)
Definition payload (packet : list Z) : list Z :=
  take (Z.to_nat buflen) (drop 3 packet).

Definition sum_bytes (l : list Z) : Z := foldr Z.add 0 l.

(** The packet that the wire format (SOH, number, complement, 128 bytes,
    additive checksum) prescribes for a number and a payload. *)
Definition frame (packetno : Z) (data : list Z) : list Z :=
  [SOH; packetno mod 256; 255 - packetno mod 256] ++ data
    ++ [sum_bytes data mod 256].

(** A block of the source padded with zeroes to the payload size. *)
Definition pad (data : list Z) : list Z :=
  data ++ replicate (Z.to_nat buflen - length data) 0.

(** The packets of a source, numbered from [packetno]. *)
Fixpoint frames (n : nat) (packetno : Z) (data : list Z) : list (list Z) :=
  match n with
  | O => []
  | S n' =>
      match data with
      | [] => []
      | _ =>
          frame packetno (pad (take (Z.to_nat buflen) data))
            :: frames n' (packetno + 1) (drop (Z.to_nat buflen) data)
      end
  end.

(** ** A scripted remote

    A serial line whose far end answers from a script, and a source file
    held in memory.  Each timed wait on the line takes the next entry of
    the script; once the script is used up every wait meets [idle].
    Writes to the line and drains succeed.  Reads of the source may come
    back short, as [chunks] says. *)
Module Script.

Inductive reply : Type :=
| Byte (b : Z)
| Silence
| Fault (e : Z).

Record host : Type := Host {
  replies : list reply;
  idle : reply;
  pending : option Z;
  source : list Z;
  chunks : list nat
}.

Definition tty_fd : Z := 3.
Definition in_fd : Z := 4.
Definition EBADF : Z := 9.
Definition EAGAIN : Z := 11.
Definition EIO : Z := 5.

Definition answer (r : reply) (h : host) (rest : list reply) : sysret * host :=
  match r with
  | Byte b => (Sys 1, Host rest (idle h) (Some b) (source h) (chunks h))
  | Silence => (Sys 0, Host rest (idle h) None (source h) (chunks h))
  | Fault e => (Err e, Host rest (idle h) None (source h) (chunks h))
  end.

Definition host_select (fd tv_sec tv_usec : Z) (h : host) : sysret * host :=
  if fd =? tty_fd then
    match pending h with
    | Some _ => (Sys 1, h)
    | None =>
        match replies h with
        | r :: rest => answer r h rest
        | [] => answer (idle h) h []
        end
    end
  else if fd =? in_fd then (Sys 1, h)
  else (Err EBADF, h).

(** The number of bytes a read of the source delivers: all that is asked
    for, or less when [chunks] says so, but never none. *)
Definition portion (count : Z) (h : host) : nat :=
  match chunks h with
  | [] => Z.to_nat count
  | c :: _ => Nat.min (S c) (Z.to_nat count)
  end.

Definition host_read (fd count : Z) (h : host) : readret * host :=
  if fd =? tty_fd then
    match pending h with
    | Some b => (Got [b], Host (replies h) (idle h) None (source h) (chunks h))
    | None => (RErr EAGAIN, h)
    end
  else if fd =? in_fd then
    let k := portion count h in
    (Got (take k (source h)),
     Host (replies h) (idle h) (pending h) (drop k (source h))
          (tail (chunks h)))
  else (RErr EBADF, h).

Definition host_write (fd : Z) (buf : list Z) (h : host) : sysret * host :=
  if fd =? tty_fd then (Sys (Z.of_nat (length buf)), h)
  else (Err EBADF, h).

Definition host_tcdrain (fd : Z) (h : host) : sysret * host :=
  if fd =? tty_fd then (Sys 0, h) else (Err EBADF, h).

Definition host_tcflush (fd : Z) (h : host) : sysret * host :=
  if fd =? tty_fd then
    (Sys 0, Host (replies h) (idle h) None (source h) (chunks h))
  else (Err EBADF, h).

#[global] Instance host_os : Os host := {
  os_write := host_write;
  os_read := host_read;
  os_select := host_select;
  os_tcdrain := host_tcdrain;
  os_tcflush := host_tcflush;
  os_time := fun h => (0, h)
}.

(** The process as it enters [xmodem_send]. *)
Definition boot (script : list reply) (idle : reply) (data : list Z)
    (chunks : list nat) : machine host :=
  Machine (Host script idle None data chunks) 0 0 [].

(** The calls by which [send_packet] puts [bytes] on the line, the first
    of them at index [i]. *)
Fixpoint sending (bytes : list Z) (i : Z) : list event :=
  match bytes with
  | [] => []
  | b :: rest =>
      EvWrite tty_fd [uchar b] 1
        :: (if i mod 8 =? 0 then [EvTcdrain tty_fd 0] else [])
        ++ sending rest (i + 1)
  end.

End Script.

(** ** An echoing line

    A half-duplex line that hands every transmitted byte back to the
    sender; the remote answers the transmission number [nak_after] with a
    NAK.  A wait that meets no byte lasts for its whole timeout. *)
Module Echo.

Record link : Type := Link {
  inbound : list Z;
  sent : nat;
  nak_after : nat;
  clock : Z
}.

Definition tty_fd : Z := 3.

Definition link_write (fd : Z) (buf : list Z) (l : link) : sysret * link :=
  let n := S (sent l) in
  (Sys (Z.of_nat (length buf)),
   Link (inbound l ++ buf ++ (if Nat.eqb n (nak_after l) then [NAK] else []))
        n (nak_after l) (clock l)).

Definition link_select (fd tv_sec tv_usec : Z) (l : link) : sysret * link :=
  match inbound l with
  | [] =>
      (Sys 0,
       Link [] (sent l) (nak_after l)
            (clock l + tv_sec * ONE_SECOND_US + tv_usec))
  | _ => (Sys 1, l)
  end.

Definition link_read (fd count : Z) (l : link) : readret * link :=
  (Got (take (Z.to_nat count) (inbound l)),
   Link (drop (Z.to_nat count) (inbound l)) (sent l) (nak_after l) (clock l)).

Definition link_tcflush (fd : Z) (l : link) : sysret * link :=
  (Sys 0, Link [] (sent l) (nak_after l) (clock l)).

#[global] Instance link_os : Os link := {
  os_write := link_write;
  os_read := link_read;
  os_select := link_select;
  os_tcdrain := fun _ l => (Sys 0, l);
  os_tcflush := link_tcflush;
  os_time := fun l => (clock l / ONE_SECOND_US, l)
}.

(** The process as it enters [send_boot_pattern], the clock at [t0]
    microseconds. *)
Definition boot (nak_after : nat) (t0 : Z) : machine link :=
  Machine (Link [] 0 nak_after t0) 0 0 [].

(** A byte that the handshake passes over in silence. *)
Definition echoed (b : Z) : Prop :=
  memchr boot_pattern (uchar b) = true /\ uchar b <> NAK.

(** The calls by which the handshake takes the bytes [l] off the line. *)
Definition taking (fd : Z) (l : list Z) : list event :=
  flat_map (fun b => [EvSelect fd 0 50000 1; EvRead fd 1 1 [uchar b]]) l.

(** The clock after a wait of [PATTERN_SEND_INTERVAL] that met no byte. *)
Definition later (clk : Z) : Z :=
  clk + PATTERN_SEND_INTERVAL / ONE_SECOND_US * ONE_SECOND_US
    + PATTERN_SEND_INTERVAL mod ONE_SECOND_US.

(** What one turn of the outer loop does before it waits for an answer. *)
Definition probing (fd p : Z) : list event :=
  [EvPrintf "%c\b" [nth (Z.to_nat p) rotator_chars 0]; EvFflush;
   EvWrite fd boot_pattern 8; EvTcdrain fd 0].

End Echo.

(** ** Reading an outcome *)

Definition result_of {W A : Type} (o : outcome W A) : option A :=
  match o with
  | Done a _ => Some a
  | _ => None
  end.

Definition trace_of {W A : Type} (o : outcome W A) : list event :=
  match o with
  | Done _ m => trace m
  | Aborted m => trace m
  | Starved => []
  end.

Definition state_of {W A : Type} (o : outcome W A) (d : machine W) : machine W :=
  match o with
  | Done _ m => m
  | _ => d
  end.

(** Events that leave no byte on the wire drop out of it. *)
Ltac wire_quiet :=
  repeat match goal with
         | |- context [wire ?fd (?e :: ?t)] =>
             progress change (wire fd (e :: t)) with (@nil Z)
         | |- context [wire ?fd []] =>
             progress change (wire fd []) with (@nil Z)
         end.

Definition is_byte (b : Z) : Prop := 0 <= b < 256.

(** ** Sample runs *)




(** The wait for the confirming NAK meeting a CAN and then the letter A. *)
Definition lone_can : machine Script.host :=
  Script.boot [Script.Byte CAN; Script.Byte 65] Script.Silence [65] [].

Definition lone_can_1 : machine Script.host :=
  Eval vm_compute in
    state_of (read_byte Script.tty_fd RECEIVE_TIMEOUT
                (emit (EvPrintf "Sending file..." []) lone_can)) lone_can.

Definition lone_can_2 : machine Script.host :=
  Eval vm_compute in
    state_of (read_byte Script.tty_fd ONE_SECOND_US lone_can_1) lone_can_1.

(** The wait for the confirming NAK meeting the letter A. *)
Definition stray_byte : machine Script.host :=
  Script.boot [Script.Byte 65] Script.Silence [65] [].

Definition stray_byte_1 : machine Script.host :=
  Eval vm_compute in
    state_of (read_byte Script.tty_fd RECEIVE_TIMEOUT
                (emit (EvPrintf "Sending file..." []) stray_byte)) stray_byte.

(** A transfer of two packets whose first packet is acknowledged and whose
    second packet is answered by CAN twice: the process as it enters
    [xmodem_send], after the confirming NAK, after the first turn of the
    sending loop, and through the second turn. *)
Definition late_can : machine Script.host :=
  Script.boot
    [Script.Byte NAK; Script.Byte ACK; Script.Byte CAN; Script.Byte CAN]
    Script.Silence (replicate 129 65) [].

Definition late_can_s : machine Script.host :=
  Eval vm_compute in
    state_of (wait_for_nak Script.tty_fd
                (emit (EvPrintf "Sending file..." []) late_can)) late_can.

Definition late_can_packet : list Z :=
  Eval vm_compute in
    match next_packet Script.in_fd 1 0 0 (replicate 134 0)
            (state_of (rotator late_can_s) late_can_s) with
    | Done (Continue (p, _)) _ => p
    | _ => []
    end.

Definition late_can_t : machine Script.host :=
  Eval vm_compute in
    let r := state_of (rotator late_can_s) late_can_s in
    let n := state_of (next_packet Script.in_fd 1 0 0 (replicate 134 0) r) r in
    state_of (send_packet Script.tty_fd late_can_packet (buflen + 4) n) n.

Definition late_can_r : machine Script.host :=
  Eval vm_compute in state_of (rotator late_can_t) late_can_t.

Definition late_can_packet2 : list Z :=
  Eval vm_compute in
    match next_packet Script.in_fd 2 1 1 late_can_packet late_can_r with
    | Done (Continue (p, _)) _ => p
    | _ => []
    end.

Definition late_can_0 : machine Script.host :=
  Eval vm_compute in
    state_of (next_packet Script.in_fd 2 1 1 late_can_packet late_can_r)
             late_can_r.

Definition late_can_1 : machine Script.host :=
  Eval vm_compute in
    state_of (send_packet Script.tty_fd late_can_packet2 (buflen + 4)
                late_can_0) late_can_0.

Definition late_can_2 : machine Script.host :=
  Eval vm_compute in
    state_of (read_byte Script.tty_fd 1
                (emit (EvPrintf "cancelled by remote\n" []) late_can_1))
             late_can_1.

(** ** Further sample runs *)

Definition value_of {W A : Type} (o : outcome W A) (d : A) : A :=
  match o with
  | Done a _ => a
  | _ => d
  end.

(** A source of three bytes handed out one byte at a time, and what
    [read_block] makes of it. *)
Definition short_source : machine Script.host :=
  Script.boot [] Script.Silence [7; 8; 9] [0%nat; 0%nat; 0%nat].

Definition short_block : Z * list Z :=
  Eval vm_compute in
    value_of (read_block Script.in_fd buflen short_source) (0, []).

Definition short_source_read : machine Script.host :=
  Eval vm_compute in
    state_of (read_block Script.in_fd buflen short_source) short_source.

(** [read_block] on a descriptor that is not open. *)
Definition closed_block : Z * list Z :=
  Eval vm_compute in value_of (read_block 7 buflen short_source) (0, []).

Definition closed_read : machine Script.host :=
  Eval vm_compute in state_of (read_block 7 buflen short_source) short_source.

(** A line with the letter A waiting, and the process after [read_byte]
    has taken it. *)
Definition waiting_byte : machine Script.host :=
  Script.boot [Script.Byte 65] Script.Silence [] [].

Definition waiting_byte_read : machine Script.host :=
  Eval vm_compute in
    state_of (read_byte Script.tty_fd RECEIVE_TIMEOUT waiting_byte)
             waiting_byte.

(** A source at its end, on which [select] reports data and [read]
    delivers none. *)
Definition ended_source : machine Script.host :=
  Script.boot [] Script.Silence [] [].

(** ** Kinds of events *)

(** Waiting for the line and reading from a descriptor. *)
Definition is_input (e : event) : Prop :=
  match e with
  | EvSelect _ _ _ _ | EvRead _ _ _ _ => True
  | _ => False
  end.

(** The characters that [rotator] printed. *)
Definition ticks (t : list event) : list Z :=
  flat_map (fun e =>
              match e with
              | EvPrintf "%c\b" args => args
              | _ => []
              end) t.

Section Spin.
Context {W : Type} {os : Os W}.

(** [rotator] called [n] times in a row. *)
Fixpoint spin (n : nat) : M W unit :=
  match n with
  | O => ret tt
  | S n' => rotator ;; spin n'
  end.

End Spin.

(** The wait for the confirming NAK meeting CAN twice. *)
Definition two_cans : machine Script.host :=
  Script.boot [Script.Byte CAN; Script.Byte CAN] Script.Silence [65] [].

Definition two_cans_1 : machine Script.host :=
  Eval vm_compute in
    state_of (read_byte Script.tty_fd RECEIVE_TIMEOUT two_cans) two_cans.

Definition two_cans_2 : machine Script.host :=
  Eval vm_compute in
    state_of (read_byte Script.tty_fd ONE_SECOND_US two_cans_1) two_cans_1.

(** The process after the wait for the confirming NAK has met a NAK. *)
Definition confirmed : machine Script.host :=
  Eval vm_compute in
    state_of (wait_for_nak Script.tty_fd
                (Script.boot [Script.Byte NAK] Script.Silence [65] []))
             waiting_byte.

(** The array as [build_packet] leaves it for the packet number 300 on a
    source of three bytes, and for any number on a source at its end. *)
Definition wrapped_packet : Z * list Z :=
  Eval vm_compute in
    value_of (build_packet Script.in_fd 300 (replicate 134 0) buflen
                short_source) (0, []).

Definition wrapped_built : machine Script.host :=
  Eval vm_compute in
    state_of (build_packet Script.in_fd 300 (replicate 134 0) buflen
                short_source) short_source.

(** A transfer of one byte to a remote that acknowledges everything. *)
Definition one_byte : machine Script.host :=
  Script.boot [Script.Byte NAK] (Script.Byte ACK) [65] [].

Definition one_byte_sent : machine Script.host :=
  Eval vm_compute in
    state_of (xmodem_send 2 Script.tty_fd Script.in_fd one_byte) one_byte.

(** The first packet of that transfer sent on its own. *)
Definition one_packet_sent : machine Script.host :=
  Eval vm_compute in
    state_of (send_packet Script.tty_fd (frame 1 (pad [65])) (buflen + 4)
                one_byte) one_byte.

(** ** A receiver's check

    What a receiver of the checksum variant verifies on a packet it
    expects to carry the number [expected]: 132 bytes, SOH first, the
    number, a complement that adds up with it to 255, and a last byte
    equal to the sum of the 128 bytes before it modulo 256. *)
Definition accepts (expected : Z) (p : list Z) : bool :=
  match p with
  | soh :: seq :: cmp :: rest =>
      (soh =? SOH) && (seq =? expected mod 256) && (seq + cmp =? 255)
      && Nat.eqb (length rest) 129
      && (sum_bytes (take 128 rest) mod 256 =? nth 128 rest 0)
  | _ => false
  end.

(** The number of packets of a source of [len] bytes. *)
Definition packet_count (len : nat) : nat := (len + 127) / 128.

(** ** The whole program

    [main] opens the device and the file and sets the line up before it
    calls the functions above.  These calls are the operating system's as
    well; they leave no [event], and show in the world they hand on. *)

(** The fields of [struct termios] that [main] sets. *)
Record termios : Type := Termios {
  c_iflag : Z;
  c_oflag : Z;
  c_cflag : Z;
  c_lflag : Z;
  c_cc_VMIN : Z;
  c_cc_VTIME : Z;
  c_ospeed : Z;
  c_ispeed : Z
}.

(** Constants of the system headers, with their values on Linux. *)
Definition O_RDONLY : Z := 0.
Definition O_RDWR : Z := 2.
Definition O_NONBLOCK : Z := 2048.
Definition CS8 : Z := 48.
Definition CREAD : Z := 128.
Definition CLOCAL : Z := 2048.
Definition B115200 : Z := 4098.
Definition TCSANOW : Z := 0.

Class Files (W : Type) : Type := {
  os_open : string -> Z -> W -> sysret * W;
  os_tcsetattr : Z -> Z -> termios -> W -> sysret * W;
  os_close : Z -> W -> sysret * W
}.

Section Process.
Context {W : Type} {os : Os W} {fs : Files W}.

(** A system call that leaves no event: -1 and [errno] on failure. *)
Definition quiet_call (call : W -> sysret * W) : M W Z :=
  fun m =>
    match call (world m) with
    | (Sys v, w) => Done v (Machine w (errno m) (pos m) (trace m))
    | (Err e, w) => Done (-1) (Machine w e (pos m) (trace m))
    end.

Definition open (path : string) (flags : Z) : M W Z :=
  quiet_call (os_open path flags).

Definition tcsetattr (fd actions : Z) (tio : termios) : M W Z :=
  quiet_call (os_tcsetattr fd actions tio).

Definition close (fd : Z) : M W Z :=
  quiet_call (os_close fd).

Definition cfsetospeed (tio : termios) (speed : Z) : termios :=
  Termios (c_iflag tio) (c_oflag tio) (c_cflag tio) (c_lflag tio)
          (c_cc_VMIN tio) (c_cc_VTIME tio) speed (c_ispeed tio).

Definition cfsetispeed (tio : termios) (speed : Z) : termios :=
  Termios (c_iflag tio) (c_oflag tio) (c_cflag tio) (c_lflag tio)
          (c_cc_VMIN tio) (c_cc_VTIME tio) (c_ospeed tio) speed.

(** *** usage (lines 54-60)

    [exit(1)] ends the process: nothing that would follow is run, and the
    status is what the embedding returns. *)
Definition usage : M W Z :=
  fprintf_stderr "Usage: %s <serial device> <filename>\n" [] ;;
  ret 1.

(** *** main (lines 377-433)

    Returns the exit status of the process.  [fuel] bounds the turns of
    each loop of the handshake and of the transfer. *)
Definition main (fuel : nat) (argv : list string) : M W Z :=
  if negb (Z.of_nat (length argv) =? 3) then usage
  else
    let dev := nth 1 argv EmptyString in
    let fname := nth 2 argv EmptyString in
    let tio :=
      Termios 0 0 (Z.lor (Z.lor CS8 CREAD) CLOCAL) 0 1 5 0 0 in
    tty_fd <- open dev (Z.lor O_RDWR O_NONBLOCK) ;;
    if tty_fd <? 0 then
      e <- get_errno ;;
      fprintf_stderr "%s: unable to open '%s': %m\n" [e] ;;
      ret 1
    else
      let tio := cfsetospeed tio B115200 in
      let tio := cfsetispeed tio B115200 in
      tcsetattr tty_fd TCSANOW tio ;;
      file_fd <- open fname O_RDONLY ;;
      if file_fd <? 0 then
        e <- get_errno ;;
        fprintf_stderr "%s: unable to open '%s': %m\n" [e] ;;
        ret 1
      else
        res <- send_boot_pattern fuel tty_fd PATTERN_SEND_TIMEOUT ;;
        (if res =? 0 then xmodem_send fuel tty_fd file_fd ;; ret tt
         else if res =? -1 then
           e <- get_errno ;;
           fprintf_stderr "%s: failed to send boot pattern: %m\n" [e]
         else ret tt) ;;
        close tty_fd ;;
        close file_fd ;;
        ret 0.

End Process.

(** The messages with which [main] ends the process early. *)
Definition early_exit (fmt : string) : Prop :=
  fmt = "Usage: %s <serial device> <filename>\n"%string \/
  fmt = "%s: unable to open '%s': %m\n"%string.

(** On the scripted host every path but the empty one opens: with
    [O_RDONLY] as the descriptor of the source, otherwise as that of the
    line. *)
Module ScriptFiles.

Definition ENOENT : Z := 2.
Definition ENOTTY : Z := 25.

Definition host_open (path : string) (flags : Z) (h : Script.host)
  : sysret * Script.host :=
  match path with
  | EmptyString => (Err ENOENT, h)
  | _ =>
      if flags =? O_RDONLY then (Sys Script.in_fd, h)
      else (Sys Script.tty_fd, h)
  end.

Definition host_tcsetattr (fd actions : Z) (tio : termios) (h : Script.host)
  : sysret * Script.host :=
  if fd =? Script.tty_fd then (Sys 0, h) else (Err ENOTTY, h).

Definition host_close (fd : Z) (h : Script.host) : sysret * Script.host :=
  if (fd =? Script.tty_fd) || (fd =? Script.in_fd) then (Sys 0, h)
  else (Err Script.EBADF, h).

#[global] Instance host_files : Files Script.host := {
  os_open := host_open;
  os_tcsetattr := host_tcsetattr;
  os_close := host_close
}.

End ScriptFiles.

(** On the echoing line the device opens as descriptor 3 and any file as
    descriptor 4. *)
Module EchoFiles.



End EchoFiles.

(** A command line whose file cannot be opened, and the process after
    [main] has run on it. *)
Definition no_file_line : list string :=
  ["kwuartboot"; "/dev/ttyUSB0"; ""]%string.

Definition no_file_run : machine Script.host :=
  Eval vm_compute in
    state_of (main 3 no_file_line one_byte) one_byte.

(** ** What the reads delivered *)

(** A [read] on [fd]. *)
Definition is_read (fd : Z) (e : event) : Prop :=
  match e with
  | EvRead fd' _ _ _ => fd' = fd
  | _ => False
  end.

(** The bytes that the [read] calls of a trace delivered, in order. *)
Definition delivered (t : list event) : list Z :=
  flat_map (fun e =>
              match e with
              | EvRead _ _ _ data => data
              | _ => []
              end) t.

(** * Properties *)


(** ** Running a sequence of steps *)

Lemma bind_done {W A B : Type} (c : M W A) (k : A -> M W B) m a m' :
  c m = Done a m' -> bind c k m = k a m'.
Proof. intros H. unfold bind. rewrite H. reflexivity. Qed.

Lemma bind_inv {W A B : Type} (c : M W A) (k : A -> M W B) m b m'' :
  bind c k m = Done b m'' ->
  exists a m', c m = Done a m' /\ k a m' = Done b m''.
Proof.
  unfold bind. destruct (c m) as [a m'| |]; intros H; try discriminate.
  exists a, m'. split; [reflexivity | exact H].
Qed.

(** ** Fuel of [read_block]

    On any operating system the loop of [read_block] ends within the
    turns that [read_block] grants it. *)
Lemma read_block_loop_runs {W : Type} {os : Os W} (n : nat) :
  forall (fd : Z) (buf : list Z) (tot rem : Z) (m : machine W),
    (Z.to_nat rem <= n)%nat ->
    read_block_loop n fd buf tot rem m <> Starved.
Proof.
  induction n as [|n IH]; intros fd buf tot rem m Hn; cbn [read_block_loop];
    destruct (Z.ltb_spec 0 rem) as [Hpos|Hle]; try discriminate; [lia |].
  unfold bind, read.
  destruct (os_read fd rem (world m)) as [[data|e] w].
  - set (d := uchar <$> take (Z.to_nat rem) data).
    assert (Hd : (length d <= Z.to_nat rem)%nat)
      by (unfold d; rewrite length_fmap, length_take; lia).
    destruct (Z.eqb_spec (Z.of_nat (length d)) 0); [discriminate |].
    destruct (Z.ltb_spec (Z.of_nat (length d)) 0); [discriminate |].
    apply IH. lia.
  - discriminate.
Qed.

Lemma read_block_runs {W : Type} {os : Os W} (fd size : Z) (m : machine W) :
  read_block fd size m <> Starved.
Proof.
  unfold read_block, bind.
  pose proof (read_block_loop_runs (Z.to_nat size) fd [] 0 size m
                (Nat.le_refl _)) as H.
  destruct (read_block_loop (Z.to_nat size) fd [] 0 size m)
    as [[buf [v|[tot rem]]] m'| |]; try discriminate; [| contradiction].
  destruct (0 <? rem); discriminate.
Qed.

(** ** The checksum *)

Lemma chksum_fold (p : list Z) (k a : nat) (c0 : Z) :
  (a + k <= length p)%nat ->
  foldl (fun chksum i => uchar (chksum + nth i p 0)) (c0 mod 256) (seq a k)
  = (c0 + sum_bytes (take k (drop a p))) mod 256.
Proof.
  revert a c0. induction k as [|k IH]; intros a c0 Hlen.
  - simpl. unfold sum_bytes. simpl. f_equal. lia.
  - assert (Ha : (a < length p)%nat) by lia.
    destruct (lookup_lt_is_Some_2 p a Ha) as [x Hx].
    rewrite (drop_S p x a Hx). simpl seq. simpl foldl. simpl take.
    unfold uchar at 2. rewrite (nth_lookup_Some p a 0 x Hx).
    rewrite IH by lia. unfold sum_bytes. simpl foldr.
    rewrite <- Z.add_assoc, Z.add_mod_idemp_l by lia. reflexivity.
Qed.

Lemma chksum_of_sum (p : list Z) :
  (131 <= length p)%nat ->
  chksum_of p buflen = sum_bytes (take 128 (drop 3 p)) mod 256.
Proof.
  intros Hlen. unfold chksum_of.
  change (Z.to_nat buflen) with 128%nat.
  assert (H : (3 + 128 <= length p)%nat) by lia.
  exact (chksum_fold p 128 3 0 H).
Qed.

Lemma complement_byte (n : Z) :
  uchar (Z.lnot (uchar n)) = 255 - n mod 256.
Proof.
  unfold uchar. unfold Z.lnot. 
  assert (0 <= n mod 256 < 256) by (apply Z.mod_pos_bound; lia).
  replace (Z.pred (- (n mod 256))) with (255 - n mod 256 + (-1) * 256) by lia.
  rewrite Z.mod_add by lia. apply Z.mod_small. lia.
Qed.

(** ** Packets *)



(** ** What [read_byte] returns *)

Lemma read_byte_range {W : Type} {os : Os W} (fd timeout c : Z)
    (m m' : machine W) :
  read_byte fd timeout m = Done c m' -> c = -1 \/ 0 <= c <= 255.
Proof.
  unfold read_byte. intros H.
  apply bind_inv in H as (retval & m1 & _ & H).
  apply bind_inv in H as (u & m2 & _ & H).
  destruct (retval <? 1); [inversion H; auto |].
  apply bind_inv in H as ([got data] & m3 & Hr & H).
  apply bind_inv in H as (u' & m4 & Ha & H).
  destruct (got <? 0); [inversion H; auto |].
  inversion H; subst. right.
  unfold read in Hr. destruct (os_read fd 1 (world m2)) as [[d|e] w].
  - inversion Hr; subst. destruct d as [|x d]; simpl.
    + lia.
    + unfold uchar. assert (0 <= x mod 256 < 256) by (apply Z.mod_pos_bound; lia).
      lia.
  - inversion Hr; subst. simpl. lia.
Qed.

(** ** The wait for the confirming NAK *)

(** C10: when the wait for the confirming NAK meets a CAN and the read
    that follows, made with the timeout of one second, returns anything
    but CAN (another byte, or -1 for a timeout or a failure),
    [wait_for_nak] returns 0 without writing or printing anything, and
    [xmodem_send] goes on with the transfer from the state the second read
    left: the value that read returned is not used again. *)
Theorem wait_for_nak_single_can {W : Type} {os : Os W} (fuel : nat)
    (tty_fd in_fd c : Z) (m m1 m2 : machine W) :
  read_byte tty_fd RECEIVE_TIMEOUT (emit (EvPrintf "Sending file..." []) m)
    = Done CAN m1 ->
  read_byte tty_fd ONE_SECOND_US m1 = Done c m2 ->
  c <> CAN ->
  wait_for_nak tty_fd (emit (EvPrintf "Sending file..." []) m) = Done 0 m2 /\
  xmodem_send fuel tty_fd in_fd m = transfer fuel tty_fd in_fd m2.
Proof.
  intros H1 H2 Hc.
  assert (Hw : wait_for_nak tty_fd (emit (EvPrintf "Sending file..." []) m)
               = Done 0 m2).
  { unfold wait_for_nak. rewrite (bind_done _ _ _ _ _ H1).
    change (CAN =? -1) with false. cbv iota.
    change ((0 <=? CAN) && (CAN <=? 255)) with true.
    unfold assert at 1. unfold bind at 1.
    change (CAN =? 67) with false. change (CAN =? NAK) with false.
    change (CAN =? CAN) with true. cbv iota.
    rewrite (bind_done _ _ _ _ _ H2).
    destruct (Z.eqb_spec c CAN) as [E|E]; [contradiction | reflexivity]. }
  split; [exact Hw |].
  unfold xmodem_send. unfold bind at 1. unfold printf at 1.
  rewrite (bind_done _ _ _ _ _ Hw). reflexivity.
Qed.

(** C5, as the code has it: while waiting for the confirming NAK, every
    received byte other than NAK, CAN and the letter C (0x43) makes the
    sender print the unexpected byte, write the three CAN bytes of the
    cancel signal in one [write] and nothing more, and return -1, which
    [xmodem_send] hands on. *)
Theorem wait_for_nak_unexpected_byte {W : Type} {os : Os W} (fuel : nat)
    (tty_fd in_fd c : Z) (m m1 : machine W) :
  read_byte tty_fd RECEIVE_TIMEOUT (emit (EvPrintf "Sending file..." []) m)
    = Done c m1 ->
  c <> -1 -> c <> NAK -> c <> CAN -> c <> 67 ->
  exists (m2 : machine W) (r : Z) (rest : list event),
    xmodem_send fuel tty_fd in_fd m = Done (-1) m2 /\
    trace m2 =
      trace m1
        ++ [EvPrintf "unexpected character %02x, cancelling send\n" [c];
            EvWrite tty_fd [CAN; CAN; CAN] r]
        ++ rest /\
    writes tty_fd rest = [] /\
    wire tty_fd rest = [].
Proof.
  intros H1 Hm Hn Hc HC.
  destruct (read_byte_range _ _ _ _ _ H1) as [?|Hr]; [contradiction |].
  unfold xmodem_send. unfold bind at 1. unfold printf at 1.
  unfold wait_for_nak. unfold bind at 1. unfold bind at 1. rewrite H1.
  destruct (Z.eqb_spec c (-1)); [contradiction |].
  assert (Hb : (0 <=? c) && (c <=? 255) = true).
  { apply andb_true_intro. split; apply Z.leb_le; lia. }
  rewrite Hb. unfold assert at 1. unfold bind at 1.
  destruct (Z.eqb_spec c 67); [contradiction |].
  destruct (Z.eqb_spec c NAK); [contradiction |].
  destruct (Z.eqb_spec c CAN); [contradiction |].
  unfold bind at 1. unfold printf at 1.
  unfold cancel_send. cbv zeta.
  unfold bind at 1. unfold bind at 1. unfold write at 1. unfold syscall at 1.
  cbn [world errno pos trace emit].
  destruct (os_write tty_fd [CAN; CAN; CAN] (world m1)) as [[v|e] w].
  - destruct (v =? Z.of_nat (length [CAN; CAN; CAN])).
    + unfold bind at 1. unfold tcdrain at 1. unfold syscall at 1.
      cbn [world errno pos trace].
      destruct (os_tcdrain tty_fd w) as [[v1|e1] w1].
      * destruct (v1 =? 0).
        -- unfold bind at 1. unfold tcflush at 1. unfold syscall at 1.
           cbn [world errno pos trace].
           destruct (os_tcflush tty_fd w1) as [[v2|e2] w2];
             cbn; eexists _, v, _; (split; [reflexivity |]);
             cbn [trace]; rewrite <- !app_assoc; (split; [reflexivity |]);
             split; reflexivity.
        -- cbn; eexists _, v, _; (split; [reflexivity |]);
             cbn [trace]; rewrite <- !app_assoc; (split; [reflexivity |]);
             split; reflexivity.
      * cbn; eexists _, v, _; (split; [reflexivity |]);
          cbn [trace]; rewrite <- !app_assoc; (split; [reflexivity |]);
          split; reflexivity.
    + cbn; eexists _, v, []; (split; [reflexivity |]);
        cbn [trace]; rewrite <- !app_assoc; (split; [reflexivity |]);
        split; reflexivity.
  - cbn; eexists _, (-1), []; (split; [reflexivity |]);
      cbn [trace]; rewrite <- !app_assoc; (split; [reflexivity |]);
      split; reflexivity.
Qed.

(** ** The sending loop *)

(** A turn of the sending loop whose acknowledgment read returns CAN and
    whose next read returns CAN again: one ACK, a drain, and the loop
    returns -1. *)
Lemma double_can_turn {W : Type} {os : Os W} (fuel : nat)
    (tty_fd in_fd : Z) (packet packet1 : list Z)
    (packetno lastpacket lastpacket1 retry : Z)
    (m mr m0 m1 m2 : machine W) :
  retry < MAX_RETRANS ->
  rotator m = Done tt mr ->
  next_packet in_fd packetno lastpacket retry packet mr
    = Done (Continue (packet1, lastpacket1)) m0 ->
  send_packet tty_fd packet1 (buflen + 4) m0 = Done CAN m1 ->
  read_byte tty_fd 1 (emit (EvPrintf "cancelled by remote\n" []) m1)
    = Done CAN m2 ->
  exists (m3 : machine W) (r d : Z),
    send_loop (S fuel) tty_fd in_fd packet packetno lastpacket retry m
      = Done (Returned (-1)) m3 /\
    trace m3 = trace m2 ++ [EvWrite tty_fd [ACK] r; EvTcdrain tty_fd d].
Proof.
  intros Hretry Hrot Hnp Hsp Hrb.
  cbn [send_loop].
  destruct (Z.ltb_spec retry MAX_RETRANS) as [_|?]; [| lia].
  rewrite (bind_done _ _ _ _ _ Hrot).
  rewrite (bind_done _ _ _ _ _ Hnp).
  rewrite (bind_done _ _ _ _ _ Hsp).
  change (CAN =? -1) with false. change (CAN =? ACK) with false.
  change (CAN =? CAN) with true. cbv iota.
  unfold bind at 1. unfold printf at 1.
  rewrite (bind_done _ _ _ _ _ Hrb).
  change (CAN =? CAN) with true. cbv iota.
  unfold write_byte, write, tcdrain, syscall, bind.
  change (uchar ACK) with ACK.
  destruct (os_write tty_fd [ACK] (world m2)) as [[v|e] w];
    cbn [world errno pos trace];
    destruct (os_tcdrain tty_fd w) as [[v1|e1] w1];
    eexists _, _, _; (split; [reflexivity |]);
    cbn [trace]; rewrite <- app_assoc; reflexivity.
Qed.

(** C6: in any turn of the sending loop of [xmodem_send] whose
    acknowledgment read returns CAN and whose next read returns CAN again,
    the sender writes one ACK byte, drains, and [xmodem_send] returns -1;
    the ACK and the drain are the last things it does: no packet byte
    follows, and the closing exchange is not entered.  The turn is any turn
    that the loop, run from its start after the confirming NAK, comes to:
    the first one, or a later one with its own array, packet numbers,
    retry count and state. *)
Theorem send_loop_double_can {W : Type} {os : Os W} (fuel0 fuel : nat)
    (tty_fd in_fd : Z) (packet packet1 : list Z)
    (packetno lastpacket lastpacket1 retry : Z)
    (mb ms m mr m0 m1 m2 : machine W) :
  wait_for_nak tty_fd (emit (EvPrintf "Sending file..." []) mb) = Done 0 ms ->
  send_loop fuel0 tty_fd in_fd (replicate 134 0) 1 0 0 ms
    = send_loop (S fuel) tty_fd in_fd packet packetno lastpacket retry m ->
  retry < MAX_RETRANS ->
  rotator m = Done tt mr ->
  next_packet in_fd packetno lastpacket retry packet mr
    = Done (Continue (packet1, lastpacket1)) m0 ->
  send_packet tty_fd packet1 (buflen + 4) m0 = Done CAN m1 ->
  read_byte tty_fd 1 (emit (EvPrintf "cancelled by remote\n" []) m1)
    = Done CAN m2 ->
  exists (m3 : machine W) (r d : Z),
    xmodem_send fuel0 tty_fd in_fd mb = Done (-1) m3 /\
    transfer fuel0 tty_fd in_fd ms = Done (-1) m3 /\
    send_loop (S fuel) tty_fd in_fd packet packetno lastpacket retry m
      = Done (Returned (-1)) m3 /\
    trace m3 = trace m2 ++ [EvWrite tty_fd [ACK] r; EvTcdrain tty_fd d].
Proof.
  intros Hnak Hreach Hretry Hrot Hnp Hsp Hrb.
  destruct (double_can_turn fuel tty_fd in_fd packet packet1 packetno
              lastpacket lastpacket1 retry m mr m0 m1 m2
              Hretry Hrot Hnp Hsp Hrb) as (m3 & r & d & Hl & Ht).
  assert (Htr : transfer fuel0 tty_fd in_fd ms = Done (-1) m3).
  { unfold transfer. cbv zeta. unfold bind at 1.
    rewrite Hreach, Hl. reflexivity. }
  exists m3, r, d. split; [| auto].
  unfold xmodem_send. unfold bind at 1. unfold printf at 1.
  rewrite (bind_done _ _ _ _ _ Hnak).
  change (0 =? -1) with false. cbv iota. exact Htr.
Qed.

(** ** Transfers against the scripted remote *)

Lemma wire_app (fd : Z) (t1 t2 : list event) :
  wire fd (t1 ++ t2) = wire fd t1 ++ wire fd t2.
Proof. unfold wire. apply flat_map_app. Qed.

Lemma uchar_bytes (l : list Z) : Forall is_byte l -> uchar <$> l = l.
Proof.
  induction 1 as [|b l Hb _ IH]; [reflexivity |].
  rewrite fmap_cons, IH. unfold uchar. rewrite Z.mod_small by exact Hb.
  reflexivity.
Qed.

Lemma uchar_is_byte (x : Z) : is_byte (uchar x).
Proof. unfold is_byte, uchar. apply Z.mod_pos_bound. lia. Qed.

Lemma fmap_uchar_bytes (l : list Z) : Forall is_byte (uchar <$> l).
Proof.
  induction l as [|x l IH]; [constructor |].
  rewrite fmap_cons. constructor; auto using uchar_is_byte.
Qed.

Module ScriptFacts.
Import Script.

Lemma wire_sending (bytes : list Z) (i : Z) :
  wire tty_fd (sending bytes i) = uchar <$> bytes.
Proof.
  revert i. induction bytes as [|b rest IH]; intros i; [reflexivity |].
  simpl sending. change (wire tty_fd (?e :: ?t)) with (wire tty_fd ([e] ++ t)).
  rewrite !wire_app, IH. destruct (i mod 8 =? 0); reflexivity.
Qed.

Lemma send_bytes_script (bytes : list Z) (i : Z) (h : host) (e p : Z)
    (t : list event) :
  send_bytes tty_fd bytes i (Machine h e p t)
  = Done (Left tt) (Machine h e p (t ++ sending bytes i)).
Proof.
  revert i t. induction bytes as [|b rest IH]; intros i t.
  - simpl. unfold ret. rewrite app_nil_r. reflexivity.
  - cbn [send_bytes sending].
    unfold write_byte, write, syscall, bind at 1. cbn.
    change (Z.of_nat 1) with 1. cbn.
    destruct (i mod 8 =? 0).
    + unfold tcdrain, syscall, bind at 1. cbn.
      rewrite IH. rewrite <- !app_assoc. reflexivity.
    + rewrite IH. rewrite <- !app_assoc. reflexivity.
Qed.

(** A wait on the line that meets silence. *)
Lemma read_byte_silence (timeout : Z) (src : list Z) (ch : list nat)
    (e p : Z) (t : list event) :
  read_byte tty_fd timeout (Machine (Host [] Silence None src ch) e p t)
  = Done (-1)
      (Machine (Host [] Silence None src ch) ETIMEDOUT p
         (t ++ [EvSelect tty_fd (timeout / ONE_SECOND_US)
                         (timeout mod ONE_SECOND_US) 0])).
Proof. reflexivity. Qed.

(** A wait on the line that meets the idle byte. *)
Lemma read_byte_idle (timeout b : Z) (src : list Z) (ch : list nat)
    (e p : Z) (t : list event) :
  read_byte tty_fd timeout (Machine (Host [] (Byte b) None src ch) e p t)
  = Done (uchar b)
      (Machine (Host [] (Byte b) None src ch) e p
         (t ++ [EvSelect tty_fd (timeout / ONE_SECOND_US)
                         (timeout mod ONE_SECOND_US) 1;
                EvRead tty_fd 1 1 [uchar b]])).
Proof.
  unfold read_byte, select, read, syscall, bind. cbn.
  rewrite <- app_assoc. reflexivity.
Qed.

(** A wait on the line that meets the next byte of the script. *)
Lemma read_byte_scripted (timeout b : Z) (rest : list reply) (idl : reply)
    (src : list Z) (ch : list nat) (e p : Z) (t : list event) :
  read_byte tty_fd timeout
    (Machine (Host (Byte b :: rest) idl None src ch) e p t)
  = Done (uchar b)
      (Machine (Host rest idl None src ch) e p
         (t ++ [EvSelect tty_fd (timeout / ONE_SECOND_US)
                         (timeout mod ONE_SECOND_US) 1;
                EvRead tty_fd 1 1 [uchar b]])).
Proof.
  unfold read_byte, select, read, syscall, bind. cbn.
  rewrite <- app_assoc. reflexivity.
Qed.

(** *** Reading the source *)

Lemma portion_bounds (count : Z) (h : host) :
  0 < count ->
  (1 <= portion count h <= Z.to_nat count)%nat.
Proof.
  intros Hc. unfold portion. destruct (chunks h); lia.
Qed.

Lemma host_read_source (count : Z) (h : host) :
  host_read in_fd count h
  = (Got (take (portion count h) (source h)),
     Host (replies h) (idle h) (pending h)
          (drop (portion count h) (source h)) (tail (chunks h))).
Proof. reflexivity. Qed.

(** Whatever the sizes in which the source hands out its bytes, the loop
    of [read_block] stores the next [rem] bytes of the source, or all
    that is left of it, and counts them. *)
Lemma read_block_loop_script (n : nat) :
  forall (buf : list Z) (tot rem : Z) (rp : list reply) (idl : reply)
         (pnd : option Z) (src : list Z) (ch : list nat) (e p : Z)
         (t : list event),
    0 <= rem -> (Z.to_nat rem <= n)%nat ->
    exists (ch' : list nat) (evs : list event),
      read_block_loop n in_fd buf tot rem
        (Machine (Host rp idl pnd src ch) e p t)
      = Done (buf ++ (uchar <$> take (Z.to_nat rem) src),
              Left (tot + Z.of_nat (Nat.min (Z.to_nat rem) (length src)),
                    rem - Z.of_nat (Nat.min (Z.to_nat rem) (length src))))
          (Machine (Host rp idl pnd (drop (Z.to_nat rem) src) ch') e p
                   (t ++ evs))
      /\ wire tty_fd evs = [].
Proof.
  induction n as [|n IH]; intros buf tot rem rp idl pnd src ch e p t Hr Hn.
  - assert (rem = 0) by lia. subst rem. exists ch, [].
    cbn. rewrite !app_nil_r, Z.add_0_r. split; reflexivity.
  - cbn [read_block_loop].
    destruct (Z.ltb_spec 0 rem) as [Hpos|Hle].
    + unfold bind at 1, read at 1.
      cbn [world errno pos trace os_read host_os].
      rewrite host_read_source.
      set (h := Host rp idl pnd src ch).
      pose proof (portion_bounds rem h Hpos) as Hk.
      set (k := portion rem h) in *.
      cbn [source replies idle pending chunks h].
      rewrite take_take, (Nat.min_r _ k) by lia.
      rewrite length_fmap, length_take.
      destruct src as [|x src'].
      * rewrite !take_nil, !drop_nil.
        change (length (@nil Z)) with 0%nat. rewrite !Nat.min_0_r.
        change (Z.of_nat 0) with 0. change (0 =? 0) with true. cbv iota.
        rewrite fmap_nil, app_nil_r, Z.add_0_r, Z.sub_0_r.
        exists (tail ch), [EvRead in_fd rem 0 []]. split; reflexivity.
      * set (src := x :: src') in *.
        assert (Hlen : (1 <= length src)%nat) by (unfold src; simpl; lia).
        set (got := Nat.min k (length src)).
        assert (Hgot : (1 <= got <= Z.to_nat rem)%nat) by (unfold got; lia).
        destruct (Z.eqb_spec (Z.of_nat got) 0) as [?|_]; [lia |].
        destruct (Z.ltb_spec (Z.of_nat got) 0) as [?|_]; [lia |].
        destruct (IH (buf ++ (uchar <$> take k src)) (tot + Z.of_nat got)
                     (rem - Z.of_nat got) rp idl pnd (drop k src) (tail ch)
                     e p
                     (t ++ [EvRead in_fd rem (Z.of_nat got)
                                   (uchar <$> take k src)]))
          as (ch' & evs & Heq & Hw); [lia | lia |].
        rewrite Heq.
        exists ch', (EvRead in_fd rem (Z.of_nat got) (uchar <$> take k src)
                       :: evs).
        split; [| exact Hw].
        rewrite length_drop, drop_drop.
        replace (Z.to_nat (rem - Z.of_nat got))
          with (Z.to_nat rem - got)%nat by lia.
        f_equal.
        -- f_equal.
           ++ rewrite <- app_assoc, <- fmap_app. f_equal. f_equal.
              destruct (Nat.le_gt_cases k (length src)) as [Hle|Hgt].
              ** unfold got. rewrite Nat.min_l by exact Hle.
                 rewrite take_take_drop. f_equal. lia.
              ** rewrite (drop_ge src k) by lia.
                 rewrite take_nil, app_nil_r.
                 rewrite !take_ge by lia. reflexivity.
           ++ f_equal. f_equal; unfold got; lia.
        -- f_equal.
           ++ f_equal. destruct (Nat.le_gt_cases k (length src)) as [Hle|Hgt].
              ** f_equal. unfold got. lia.
              ** rewrite !drop_ge by (unfold got; lia). reflexivity.
           ++ rewrite <- app_assoc. reflexivity.
    + assert (rem = 0) by lia. subst rem. exists ch, [].
      cbn. rewrite !app_nil_r, Z.add_0_r. split; reflexivity.
Qed.

Lemma length_block (src : list Z) :
  length (uchar <$> take (Z.to_nat buflen) src)
  = Nat.min 128 (length src).
Proof. rewrite length_fmap, length_take. reflexivity. Qed.

(** [read_block] on the source: the next 128 bytes, or what is left of
    the source padded with zeroes, and the number of source bytes. *)
Lemma read_block_script (rp : list reply) (idl : reply) (pnd : option Z)
    (src : list Z) (ch : list nat) (e p : Z) (t : list event) :
  exists (ch' : list nat) (evs : list event),
    read_block in_fd buflen (Machine (Host rp idl pnd src ch) e p t)
    = Done (Z.of_nat (Nat.min 128 (length src)),
            pad (uchar <$> take (Z.to_nat buflen) src))
        (Machine (Host rp idl pnd (drop (Z.to_nat buflen) src) ch') e p
                 (t ++ evs))
    /\ wire tty_fd evs = [].
Proof.
  destruct (read_block_loop_script (Z.to_nat buflen) [] 0 buflen rp idl pnd
              src ch e p t) as (ch' & evs & Heq & Hw);
    [unfold buflen; lia | lia |].
  exists ch', evs. split; [| exact Hw].
  unfold read_block. rewrite (bind_done _ _ _ _ _ Heq).
  unfold pad. rewrite length_block.
  change (Z.to_nat buflen) with 128%nat. cbn [app].
  rewrite Z.add_0_l.
  destruct (Z.ltb_spec 0 (buflen - Z.of_nat (Nat.min 128 (length src))))
    as [Hlt|Hge]; unfold ret; f_equal; f_equal.
  - f_equal. f_equal. unfold buflen. lia.
  - unfold buflen in Hge.
    replace (128 - Nat.min 128 (length src))%nat with 0%nat by lia.
    cbn [replicate]. rewrite app_nil_r. reflexivity.
Qed.

Lemma length_pad (data : list Z) :
  (length data <= 128)%nat -> length (pad data) = 128%nat.
Proof.
  intros H. unfold pad. rewrite length_app, length_replicate.
  change (Z.to_nat buflen) with 128%nat. lia.
Qed.

Lemma length_pad_block (src : list Z) :
  length (pad (uchar <$> take (Z.to_nat buflen) src)) = 128%nat.
Proof. apply length_pad. rewrite length_block. lia. Qed.

Lemma insert_head (x a : Z) (l : list Z) : <[0%nat := x]> (a :: l) = x :: l.
Proof. reflexivity. Qed.

Lemma insert_tail (i : nat) (x a : Z) (l : list Z) :
  <[S i := x]> (a :: l) = a :: <[i := x]> l.
Proof. reflexivity. Qed.

Lemma header_stored (packetno x0 x1 x2 : Z) (data rest : list Z) :
  length data = 128%nat ->
  length rest = 131%nat ->
  list_inserts 3 data
    (<[2%nat := uchar (Z.lnot (uchar packetno))]>
       (<[1%nat := uchar packetno]>
          (<[0%nat := SOH]> (x0 :: x1 :: x2 :: rest))))
  = SOH :: packetno mod 256 :: 255 - packetno mod 256
      :: data ++ drop 128 rest.
Proof.
  intros Hd Hr.
  repeat (rewrite insert_head || rewrite insert_tail).
  rewrite !list_inserts_cons.
  rewrite <- (take_drop 128 rest) at 1.
  rewrite list_inserts_0_r by (rewrite length_take; lia).
  rewrite complement_byte. reflexivity.
Qed.

(** The first 132 bytes of the array, once [build_packet] has stored a
    block [data] of 128 bytes in it, are the packet of the wire format. *)
Lemma built_frame (packetno : Z) (data packet : list Z) :
  length data = 128%nat ->
  length packet = 134%nat ->
  let q := list_inserts 3 data
             (<[2%nat := uchar (Z.lnot (uchar packetno))]>
                (<[1%nat := uchar packetno]> (<[0%nat := SOH]> packet))) in
  take 132 (<[131%nat := chksum_of q buflen]> q) = frame packetno data.
Proof.
  intros Hd Hp q.
  assert (Hq : length q = 134%nat)
    by (unfold q; rewrite length_inserts, !length_insert; exact Hp).
  destruct packet as [|x0 [|x1 [|x2 rest]]]; try discriminate.
  assert (Hr : length rest = 131%nat) by (simpl in Hp; lia).
  assert (Hq' : q = SOH :: packetno mod 256 :: 255 - packetno mod 256
                      :: data ++ drop 128 rest)
    by (apply header_stored; assumption).
  assert (Hsum : chksum_of q buflen = sum_bytes data mod 256).
  { rewrite chksum_of_sum by lia. rewrite Hq'. f_equal. f_equal.
    change (drop 3 (?a :: ?b :: ?c :: ?l)) with l.
    rewrite take_app_length' by lia. reflexivity. }
  rewrite Hsum, Hq'.
  assert (Hr3 : length (drop 128 rest) = 3%nat) by (rewrite length_drop; lia).
  destruct (drop 128 rest) as [|y0 [|y1 [|y2 [|]]]]; try discriminate.
  rewrite !insert_tail.
  rewrite insert_app_r_alt by lia.
  rewrite Hd, Nat.sub_diag, insert_head.
  unfold frame.
  change (take 132 (?a :: ?b :: ?c :: ?l)) with (a :: b :: c :: take 129 l).
  replace 129%nat with (length data + 1)%nat by lia.
  rewrite take_app_add. reflexivity.
Qed.

(** *** Building and sending a packet *)

Lemma build_packet_script (packetno : Z) (packet : list Z)
    (rp : list reply) (idl : reply) (pnd : option Z) (src : list Z)
    (ch : list nat) (e p : Z) (t : list event) :
  src <> [] ->
  length packet = 134%nat ->
  exists (packet' : list Z) (ch' : list nat) (evs : list event),
    build_packet in_fd packetno packet buflen
      (Machine (Host rp idl pnd src ch) e p t)
    = Done (0, packet')
        (Machine (Host rp idl pnd (drop (Z.to_nat buflen) src) ch') e p
                 (t ++ evs))
    /\ wire tty_fd evs = []
    /\ take 132 packet'
       = frame packetno (pad (uchar <$> take (Z.to_nat buflen) src))
    /\ length packet' = 134%nat.
Proof.
  intros Hsrc Hp.
  destruct (read_block_script rp idl pnd src ch e p t)
    as (ch' & evs & Heq & Hw).
  unfold build_packet. cbv zeta.
  change (0 <? buflen) with true. unfold assert at 1. unfold bind at 1.
  rewrite (bind_done _ _ _ _ _ Heq).
  assert (Hl : (1 <= Nat.min 128 (length src))%nat).
  { destruct src; [contradiction | simpl; lia]. }
  destruct (Z.eqb_spec (Z.of_nat (Nat.min 128 (length src))) (-1)); [lia |].
  destruct (Z.eqb_spec (Z.of_nat (Nat.min 128 (length src))) 0); [lia |].
  eexists _, ch', evs. split; [reflexivity |]. split; [exact Hw |].
  change (Z.to_nat (buflen + 3)) with 131%nat. split.
  - apply built_frame; [apply length_pad_block | exact Hp].
  - rewrite length_insert, length_inserts, !length_insert. exact Hp.
Qed.

Lemma build_packet_script_eof (packetno : Z) (packet : list Z)
    (rp : list reply) (idl : reply) (pnd : option Z)
    (ch : list nat) (e p : Z) (t : list event) :
  exists (packet' : list Z) (ch' : list nat) (evs : list event),
    build_packet in_fd packetno packet buflen
      (Machine (Host rp idl pnd [] ch) e p t)
    = Done (1, packet') (Machine (Host rp idl pnd [] ch') e p (t ++ evs))
    /\ wire tty_fd evs = [].
Proof.
  destruct (read_block_script rp idl pnd [] ch e p t)
    as (ch' & evs & Heq & Hw).
  unfold build_packet. cbv zeta.
  change (0 <? buflen) with true. unfold assert at 1. unfold bind at 1.
  rewrite (bind_done _ _ _ _ _ Heq).
  change (Z.of_nat (Nat.min 128 (length (@nil Z)))) with 0.
  change (0 =? -1) with false. change (0 =? 0) with true. cbv iota.
  eexists _, ch', evs. split; [reflexivity | exact Hw].
Qed.

(** A packet sent to a remote that stays silent. *)
Lemma send_packet_silence (packet src : list Z) (ch : list nat) (e p : Z)
    (t : list event) :
  send_packet tty_fd packet (buflen + 4)
    (Machine (Host [] Silence None src ch) e p t)
  = Done (-1)
      (Machine (Host [] Silence None src ch) ETIMEDOUT p
         (t ++ sending (take 132 packet) 0 ++ [EvSelect tty_fd 60 0 0])).
Proof.
  unfold send_packet. change (Z.to_nat (buflen + 4)) with 132%nat.
  rewrite (bind_done _ _ _ _ _ (send_bytes_script _ _ _ _ _ _)).
  rewrite read_byte_silence, <- app_assoc. reflexivity.
Qed.

(** A packet sent to a remote that answers every wait with [b]. *)
Lemma send_packet_idle (b : Z) (packet src : list Z) (ch : list nat)
    (e p : Z) (t : list event) :
  send_packet tty_fd packet (buflen + 4)
    (Machine (Host [] (Byte b) None src ch) e p t)
  = Done (uchar b)
      (Machine (Host [] (Byte b) None src ch) e p
         (t ++ sending (take 132 packet) 0
            ++ [EvSelect tty_fd 60 0 1; EvRead tty_fd 1 1 [uchar b]])).
Proof.
  unfold send_packet. change (Z.to_nat (buflen + 4)) with 132%nat.
  rewrite (bind_done _ _ _ _ _ (send_bytes_script _ _ _ _ _ _)).
  rewrite read_byte_idle, <- app_assoc. reflexivity.
Qed.

Lemma frame_bytes (packetno : Z) (data : list Z) :
  Forall is_byte data -> Forall is_byte (frame packetno data).
Proof.
  intros Hd. unfold frame.
  assert (0 <= packetno mod 256 < 256) by (apply Z.mod_pos_bound; lia).
  assert (0 <= sum_bytes data mod 256 < 256) by (apply Z.mod_pos_bound; lia).
  cbn [app].
  apply Forall_cons; split; [unfold is_byte, SOH; lia |].
  apply Forall_cons; split; [unfold is_byte; lia |].
  apply Forall_cons; split; [unfold is_byte; lia |].
  apply Forall_app; split; [exact Hd |].
  apply Forall_cons; split; [unfold is_byte; lia | constructor].
Qed.

Lemma pad_bytes (data : list Z) :
  Forall is_byte data -> Forall is_byte (pad data).
Proof.
  intros Hd. unfold pad. apply Forall_app. split; [exact Hd |].
  apply Forall_replicate. unfold is_byte. lia.
Qed.

Lemma next_packet_script (packetno lastpacket retry : Z) (packet : list Z)
    (rp : list reply) (idl : reply) (pnd : option Z) (src : list Z)
    (ch : list nat) (e p : Z) (t : list event) :
  packetno <> lastpacket ->
  src <> [] ->
  length packet = 134%nat ->
  exists (packet' : list Z) (ch' : list nat) (evs : list event),
    next_packet in_fd packetno lastpacket retry packet
      (Machine (Host rp idl pnd src ch) e p t)
    = Done (Continue (packet', packetno))
        (Machine (Host rp idl pnd (drop (Z.to_nat buflen) src) ch') e p
                 (t ++ evs))
    /\ wire tty_fd evs = []
    /\ take 132 packet'
       = frame packetno (pad (uchar <$> take (Z.to_nat buflen) src))
    /\ length packet' = 134%nat.
Proof.
  intros Hne Hsrc Hp.
  destruct (build_packet_script packetno packet rp idl pnd src ch e p t
              Hsrc Hp) as (packet' & ch' & evs & Hb & Hw & Hf & Hl).
  exists packet', ch', evs. split; [| auto].
  unfold next_packet.
  destruct (Z.eqb_spec packetno lastpacket) as [?|_]; [contradiction |].
  cbn [negb]. rewrite (bind_done _ _ _ _ _ Hb). reflexivity.
Qed.

Lemma next_packet_script_eof (packetno lastpacket retry : Z)
    (packet : list Z) (rp : list reply) (idl : reply) (pnd : option Z)
    (ch : list nat) (e p : Z) (t : list event) :
  packetno <> lastpacket ->
  exists (ch' : list nat) (evs : list event),
    next_packet in_fd packetno lastpacket retry packet
      (Machine (Host rp idl pnd [] ch) e p t)
    = Done Break (Machine (Host rp idl pnd [] ch') e p (t ++ evs))
    /\ wire tty_fd evs = [].
Proof.
  intros Hne.
  destruct (build_packet_script_eof packetno packet rp idl pnd ch e p t)
    as (packet' & ch' & evs & Hb & Hw).
  exists ch', evs. split; [| exact Hw].
  unfold next_packet.
  destruct (Z.eqb_spec packetno lastpacket) as [?|_]; [contradiction |].
  cbn [negb]. rewrite (bind_done _ _ _ _ _ Hb). reflexivity.
Qed.

(** *** The loop against a silent remote *)

Lemma rotator_done {W : Type} (m : machine W) :
  rotator m
  = Done tt
      (Machine (world m) (errno m) ((pos m + 1) mod 4)
         (trace m ++
            [EvPrintf "%c\b" [nth (Z.to_nat (pos m)) rotator_chars 0];
             EvFflush])).
Proof. reflexivity. Qed.

(** With the packet in the array already built and the remote silent,
    each of the turns left up to [MAX_RETRANS] sends the same 132 bytes
    again, and the loop ends with [retry] at [MAX_RETRANS]. *)
Lemma resend_until_exhausted (k : nat) :
  forall (fuel : nat) (retry packetno : Z) (packet src : list Z)
         (ch : list nat) (e p : Z) (t : list event),
    retry + Z.of_nat k = MAX_RETRANS ->
    (k <= fuel)%nat ->
    exists (e' p' : Z) (evs : list event),
      send_loop fuel tty_fd in_fd packet packetno packetno retry
        (Machine (Host [] Silence None src ch) e p t)
      = Done (Left MAX_RETRANS)
          (Machine (Host [] Silence None src ch) e' p' (t ++ evs))
      /\ wire tty_fd evs
         = concat (replicate k (uchar <$> take 132 packet)).
Proof.
  induction k as [|k IH]; intros fuel retry packetno packet src ch e p t Hk Hf.
  - assert (retry = MAX_RETRANS) by lia. subst retry.
    exists e, p, []. rewrite app_nil_r.
    split; [| reflexivity].
    destruct fuel; reflexivity.
  - destruct fuel as [|fuel]; [lia |].
    cbn [send_loop].
    destruct (Z.ltb_spec retry MAX_RETRANS) as [_|?]; [| lia].
    rewrite (bind_done _ _ _ _ _ (rotator_done _)).
    cbn [world errno pos trace].
    unfold next_packet. rewrite Z.eqb_refl. cbn [negb].
    unfold bind at 2. unfold printf at 1. unfold bind at 1. unfold ret at 1.
    unfold emit. cbn [world errno pos trace].
    rewrite (bind_done _ _ _ _ _ (send_packet_silence _ _ _ _ _ _)).
    change (-1 =? -1) with true. cbv iota.
    unfold bind at 1. unfold get_errno at 1. cbn [errno].
    change (ETIMEDOUT =? ETIMEDOUT) with true. cbv iota.
    destruct (IH fuel (retry + 1) packetno packet src ch ETIMEDOUT
                 ((p + 1) mod 4)
                 (((t ++ [EvPrintf "%c\b" [nth (Z.to_nat p) rotator_chars 0];
                          EvFflush])
                     ++ [EvPrintf "*%d*." [retry]])
                    ++ sending (take 132 packet) 0
                    ++ [EvSelect tty_fd 60 0 0]))
      as (e' & p' & evs & Heq & Hw); [lia | lia |].
    rewrite Heq. eexists e', p', _. split.
    + rewrite <- !app_assoc. reflexivity.
    + rewrite !wire_app, wire_sending, Hw. reflexivity.
Qed.

Lemma wait_for_nak_script (rest : list reply) (idl : reply) (src : list Z)
    (ch : list nat) (e p : Z) (t : list event) :
  wait_for_nak tty_fd (Machine (Host (Byte NAK :: rest) idl None src ch) e p t)
  = Done 0
      (Machine (Host rest idl None src ch) e p
         (t ++ [EvSelect tty_fd 60 0 1; EvRead tty_fd 1 1 [NAK]])).
Proof.
  unfold wait_for_nak.
  rewrite (bind_done _ _ _ _ _ (read_byte_scripted _ _ _ _ _ _ _ _ _)).
  reflexivity.
Qed.

Lemma cancel_send_script (h : host) (e p : Z) (t : list event) :
  cancel_send tty_fd (Machine h e p t)
  = Done tt
      (Machine (Host (replies h) (idle h) None (source h) (chunks h)) e p
         (t ++ [EvWrite tty_fd [CAN; CAN; CAN] 3; EvTcdrain tty_fd 0;
                EvTcflush tty_fd 0])).
Proof.
  unfold cancel_send, write, tcdrain, tcflush, syscall, bind. cbn.
  change (Z.of_nat 3) with 3. cbn.
  rewrite <- !app_assoc. reflexivity.
Qed.

(** *** The loop against a remote that acknowledges everything *)

Lemma frames_nil (n : nat) (packetno : Z) : frames n packetno [] = [].
Proof. destruct n; reflexivity. Qed.

Lemma frames_cons (n : nat) (packetno : Z) (data : list Z) :
  data <> [] ->
  frames (S n) packetno data
  = frame packetno (pad (take (Z.to_nat buflen) data))
      :: frames n (packetno + 1) (drop (Z.to_nat buflen) data).
Proof. destruct data; [contradiction | reflexivity]. Qed.

(** Each turn builds the next packet of the source, sends it once and is
    acknowledged, until the source is used up; the loop is then left by
    its [break], with [retry] below [MAX_RETRANS]. *)
Lemma ack_loop (n : nat) :
  forall (fuel : nat) (src : list Z) (ch : list nat) (packet : list Z)
         (packetno lastpacket retry e p : Z) (t : list event),
    (length src <= 128 * n)%nat ->
    packetno <> lastpacket ->
    retry < MAX_RETRANS ->
    length packet = 134%nat ->
    (n < fuel)%nat ->
    exists (retry' e' p' : Z) (ch' : list nat) (evs : list event),
      send_loop fuel tty_fd in_fd packet packetno lastpacket retry
        (Machine (Host [] (Byte ACK) None src ch) e p t)
      = Done (Left retry')
          (Machine (Host [] (Byte ACK) None [] ch') e' p' (t ++ evs))
      /\ retry' < MAX_RETRANS
      /\ wire tty_fd evs = concat (frames n packetno (uchar <$> src)).
Proof.
  induction n as [|n IH];
    intros fuel src ch packet packetno lastpacket retry e p t
           Hlen Hne Hretry Hp Hfuel;
    (destruct fuel as [|fuel]; [lia |]);
    cbn [send_loop];
    (destruct (Z.ltb_spec retry MAX_RETRANS) as [_|?]; [| lia]);
    rewrite (bind_done _ _ _ _ _ (rotator_done _));
    cbn [world errno pos trace].
  - destruct src; [| simpl in Hlen; lia].
    match goal with
    | |- context [bind (next_packet _ _ _ _ _) _ (Machine _ ?e ?p ?t)] =>
        destruct (next_packet_script_eof packetno lastpacket retry packet []
                    (Byte ACK) None ch e p t Hne) as (ch' & evs & Hnp & Hw)
    end.
    rewrite (bind_done _ _ _ _ _ Hnp). unfold ret.
    eexists retry, _, _, ch', _. split.
    + rewrite <- app_assoc. reflexivity.
    + split; [exact Hretry |]. rewrite wire_app, Hw. reflexivity.
  - destruct (decide (src = [])) as [->|Hsrc].
    + match goal with
      | |- context [bind (next_packet _ _ _ _ _) _ (Machine _ ?e ?p ?t)] =>
          destruct (next_packet_script_eof packetno lastpacket retry packet
                      [] (Byte ACK) None ch e p t Hne)
            as (ch' & evs & Hnp & Hw)
      end.
      rewrite (bind_done _ _ _ _ _ Hnp). unfold ret.
      eexists retry, _, _, ch', _. split.
      * rewrite <- app_assoc. reflexivity.
      * split; [exact Hretry |]. rewrite wire_app, Hw. reflexivity.
    + match goal with
      | |- context [bind (next_packet _ _ _ _ _) _ (Machine _ ?e ?p ?t)] =>
          destruct (next_packet_script packetno lastpacket retry packet []
                      (Byte ACK) None src ch e p t Hne Hsrc Hp)
            as (packet' & ch' & evs0 & Hnp & Hw0 & Hframe & Hlen')
      end.
      rewrite (bind_done _ _ _ _ _ Hnp).
      rewrite (bind_done _ _ _ _ _ (send_packet_idle _ _ _ _ _ _ _)).
      change (uchar ACK) with ACK.
      change (ACK =? -1) with false. change (ACK =? ACK) with true.
      cbv iota.
      match goal with
      | |- context [send_loop fuel _ _ _ _ _ _ (Machine _ ?e ?p ?t)] =>
          destruct (IH fuel (drop (Z.to_nat buflen) src) ch' packet'
                       (packetno + 1) packetno (0 + 1) e p t)
            as (retry' & e' & p' & ch'' & evs & Hl & Hr' & Hw);
            [ rewrite length_drop; change (Z.to_nat buflen) with 128%nat; lia
            | lia | unfold MAX_RETRANS; lia | exact Hlen' | lia |]
      end.
      rewrite Hl. eexists retry', e', p', ch'', _. split.
      * rewrite <- !app_assoc. reflexivity.
      * split; [exact Hr' |].
        rewrite !wire_app, Hw0, Hw, wire_sending, Hframe.
        wire_quiet. rewrite ?app_nil_r. cbn [app].
        rewrite uchar_bytes
          by (apply frame_bytes, pad_bytes, fmap_uchar_bytes).
        rewrite frames_cons by (destruct src; [contradiction | discriminate]).
        rewrite fmap_take, fmap_drop. reflexivity.
Qed.

(** The closing exchange with a remote that acknowledges. *)
Lemma eot_loop_ack (n : nat) (c : Z) (src : list Z) (ch : list nat)
    (e p : Z) (t : list event) :
  eot_loop (S n) tty_fd 0 c (Machine (Host [] (Byte ACK) None src ch) e p t)
  = Done ACK
      (Machine (Host [] (Byte ACK) None src ch) e p
         (t ++ [EvWrite tty_fd [EOT] 1; EvTcdrain tty_fd 0;
                EvSelect tty_fd 0 1 1; EvRead tty_fd 1 1 [ACK]])).
Proof.
  cbn [eot_loop]. change (0 <? MAX_RETRANS) with true. cbv iota.
  unfold write_byte, write, tcdrain, syscall. unfold bind at 1 2.
  cbn [world errno pos trace os_write os_tcdrain host_os].
  change (host_write tty_fd [uchar EOT] ?h) with (Sys 1, h).
  cbv iota beta. cbn [world errno pos trace].
  change (host_tcdrain tty_fd ?h) with (Sys 0, h).
  cbv iota beta.
  rewrite (bind_done _ _ _ _ _ (read_byte_idle _ _ _ _ _ _ _)).
  change (uchar ACK =? ACK) with true. cbv iota. unfold ret.
  rewrite <- !app_assoc. reflexivity.
Qed.

End ScriptFacts.

(** C2: against a remote that sends the confirming NAK and then stays
    silent, so that every acknowledgment read times out, the sender puts
    the same packet, unchanged, on the line [MAX_RETRANS] = 10 times in
    all (the first transmission and its repeats, one for each turn of the
    loop), then reports too many retries, writes the three CAN bytes of
    the cancel signal and returns -1.  The source is any non-empty file,
    read in pieces of any size. *)
Theorem silent_remote_exhausts_retries (data : list Z) (chunks : list nat)
    (fuel : nat) :
  data <> [] ->
  (Z.to_nat MAX_RETRANS <= fuel)%nat ->
  exists (m' : machine Script.host) (evs : list event),
    xmodem_send fuel Script.tty_fd Script.in_fd
      (Script.boot [Script.Byte NAK] Script.Silence data chunks)
    = Done (-1) m' /\
    trace m'
    = evs ++ [EvStderr "Too many retries, cancelling send\n" [];
              EvWrite Script.tty_fd [CAN; CAN; CAN] 3;
              EvTcdrain Script.tty_fd 0; EvTcflush Script.tty_fd 0] /\
    wire Script.tty_fd evs
    = concat (replicate (Z.to_nat MAX_RETRANS)
                (frame 1 (pad (uchar <$> take 128 data)))) /\
    wire Script.tty_fd (trace m')
    = concat (replicate (Z.to_nat MAX_RETRANS)
                (frame 1 (pad (uchar <$> take 128 data))))
        ++ [CAN; CAN; CAN].
Proof.
  intros Hdata Hfuel.
  change (Z.to_nat MAX_RETRANS) with 10%nat in *.
  destruct fuel as [|fuel]; [lia |].
  unfold xmodem_send, Script.boot.
  unfold bind at 1. unfold printf at 1. unfold emit. cbn [world errno pos trace].
  rewrite (bind_done _ _ _ _ _ (ScriptFacts.wait_for_nak_script _ _ _ _ _ _ _)).
  change (0 =? -1) with false. cbv iota.
  unfold transfer. cbv zeta. cbn [send_loop].
  change (0 <? MAX_RETRANS) with true. cbv iota.
  unfold bind at 1. rewrite (bind_done _ _ _ _ _ (ScriptFacts.rotator_done _)).
  cbn [world errno pos trace].
  match goal with
  | |- context [bind (next_packet _ _ _ _ _) _ (Machine _ ?e ?p ?t)] =>
      destruct (ScriptFacts.next_packet_script 1 0 0 (replicate 134 0) []
                  Script.Silence None data chunks e p t)
        as (packet' & ch' & evs0 & Hb & Hw0 & Hframe & Hlen);
        [lia | exact Hdata | reflexivity |]
  end.
  rewrite (bind_done _ _ _ _ _ Hb).
  rewrite (bind_done _ _ _ _ _ (ScriptFacts.send_packet_silence _ _ _ _ _ _)).
  change (-1 =? -1) with true. cbv iota.
  unfold bind at 1. unfold get_errno at 1. cbn [errno].
  change (ETIMEDOUT =? ETIMEDOUT) with true. cbv iota.
  match goal with
  | |- context [send_loop fuel _ _ _ _ _ _ (Machine _ ?e ?p ?t)] =>
      destruct (ScriptFacts.resend_until_exhausted 9 fuel (0 + 1) 1 packet'
                  (drop (Z.to_nat buflen) data) ch' e p t)
        as (e' & p' & evs & Hl & Hw); [reflexivity | lia |]
  end.
  rewrite Hl.
  change (MAX_RETRANS =? MAX_RETRANS) with true. cbv iota.
  unfold bind at 1. unfold fprintf_stderr at 1. unfold emit.
  cbn [world errno pos trace].
  rewrite (bind_done _ _ _ _ _ (ScriptFacts.cancel_send_script _ _ _ _)).
  unfold ret.
  assert (Hx : uchar <$> take 132 packet'
               = frame 1 (pad (uchar <$> take 128 data))).
  { rewrite Hframe. apply uchar_bytes. apply ScriptFacts.frame_bytes.
    apply ScriptFacts.pad_bytes. apply fmap_uchar_bytes. }
  eexists _, _. split; [reflexivity |]. cbn [trace].
  lazymatch goal with
  | |- (?X ++ [?s]) ++ ?w = _ /\ _ =>
      split; [exact (eq_sym (app_assoc X [s] w)) |]
  end.
  rewrite !wire_app, Hw0, Hw, ScriptFacts.wire_sending, Hx.
  wire_quiet.
  change (wire Script.tty_fd [EvWrite Script.tty_fd [CAN; CAN; CAN] 3; _; _])
    with [CAN; CAN; CAN].
  rewrite !app_nil_r. cbn [app].
  split; reflexivity.
Qed.

(** ** Payloads and the source *)

Lemma payload_frame (packetno : Z) (data : list Z) :
  length data = 128%nat -> payload (frame packetno data) = data.
Proof.
  intros H. unfold payload, frame.
  change (drop 3 ([?a; ?b; ?c] ++ ?l)) with l.
  change (Z.to_nat buflen) with 128%nat.
  rewrite take_app_length' by lia. reflexivity.
Qed.

Lemma pad_short (data : list Z) :
  (length data <= 128)%nat ->
  pad (take 128 data) = data ++ replicate (128 - length data) 0.
Proof.
  intros H. unfold pad. rewrite take_ge by lia. reflexivity.
Qed.

Lemma pad_full (data : list Z) :
  (128 <= length data)%nat -> pad (take 128 data) = take 128 data.
Proof.
  intros H. unfold pad. rewrite length_take.
  change (Z.to_nat buflen) with 128%nat.
  replace (128 - Nat.min 128 (length data))%nat with 0%nat by lia.
  apply app_nil_r.
Qed.

(** Putting the payloads of the packets of a source one after the other
    and cutting the result to the length of the source gives the source
    back. *)
Lemma frames_round_trip (n : nat) :
  forall (packetno : Z) (data : list Z),
    (length data <= 128 * n)%nat ->
    take (length data) (concat (payload <$> frames n packetno data)) = data.
Proof.
  induction n as [|n IH]; intros packetno data Hlen.
  - destruct data; [reflexivity | simpl in Hlen; lia].
  - destruct (decide (data = [])) as [->|Hne]; [reflexivity |].
    rewrite ScriptFacts.frames_cons by exact Hne.
    change (Z.to_nat buflen) with 128%nat.
    rewrite fmap_cons, concat_cons.
    rewrite payload_frame by (apply ScriptFacts.length_pad; rewrite length_take; lia).
    destruct (Nat.le_gt_cases 128 (length data)) as [Hge|Hlt].
    + rewrite pad_full by exact Hge.
      rewrite take_app, length_take, Nat.min_l by exact Hge.
      rewrite take_take, Nat.min_r by lia.
      rewrite <- (length_drop data 128), IH
        by (rewrite length_drop; lia).
      apply take_drop.
    + rewrite pad_short by lia.
      rewrite <- app_assoc. apply take_app_length.
Qed.

(** The payload of the last packet of a source whose length is not a
    multiple of 128: what is left of the source after the full blocks,
    then zeroes up to 128 bytes. *)
Lemma frames_last (n : nat) :
  forall (packetno : Z) (data : list Z),
    (length data <= 128 * n)%nat ->
    (length data mod 128 <> 0)%nat ->
    payload <$> last (frames n packetno data)
    = Some (drop (128 * (length data / 128)) data
              ++ replicate (128 - length data mod 128) 0).
Proof.
  induction n as [|n IH]; intros packetno data Hlen Hmod.
  - destruct data; [exfalso; apply Hmod; reflexivity | simpl in Hlen; lia].
  - destruct (decide (data = [])) as [->|Hne];
      [exfalso; apply Hmod; reflexivity |].
    rewrite ScriptFacts.frames_cons by exact Hne.
    change (Z.to_nat buflen) with 128%nat.
    destruct (Nat.le_gt_cases 128 (length data)) as [Hge|Hlt].
    + assert (Hd : length (drop 128 data) = (length data - 128)%nat)
        by apply length_drop.
      assert (Hq : (length (drop 128 data) / 128
                    = length data / 128 - 1)%nat).
      { rewrite Hd.
        replace (length data) with ((length data - 128) + 1 * 128)%nat at 2
          by lia.
        rewrite Nat.div_add by lia. lia. }
      assert (Hr : (length (drop 128 data) mod 128 = length data mod 128)%nat).
      { rewrite Hd.
        replace (length data) with ((length data - 128) + 1 * 128)%nat at 2
          by lia.
        rewrite Nat.Div0.mod_add. reflexivity. }
      assert (Hq1 : (1 <= length data / 128)%nat).
      { apply Nat.div_le_lower_bound; lia. }
      specialize (IH (packetno + 1) (drop 128 data)).
      rewrite Hq, Hr, drop_drop in IH.
      replace (128 + 128 * (length data / 128 - 1))%nat
        with (128 * (length data / 128))%nat in IH by lia.
      rewrite <- IH by (rewrite ?Hd; lia).
      destruct (frames n (packetno + 1) (drop 128 data)) as [|f fs] eqn:Ef.
      * exfalso. destruct n.
        -- rewrite Hd in *. simpl in Hlen. 
           assert (length data = 128%nat) by lia.
           apply Hmod. replace (length data) with 128%nat. reflexivity.
        -- destruct (drop 128 data) eqn:Edrop; [| discriminate Ef].
           simpl in Hd. assert (length data = 128%nat) by lia.
           apply Hmod. replace (length data) with 128%nat. reflexivity.
      * reflexivity.
    + rewrite (drop_ge data 128) by lia. rewrite ScriptFacts.frames_nil.
      cbn [last fmap option_fmap option_map].
      rewrite payload_frame
        by (apply ScriptFacts.length_pad; rewrite length_take; lia).
      rewrite pad_short by lia.
      rewrite Nat.div_small, Nat.mod_small by lia.
      rewrite Nat.mul_0_r, drop_0. reflexivity.
Qed.

(** C8: a source whose length is not a multiple of 128, read in pieces of
    any size and sent to a remote that acknowledges every packet, goes
    over the line as the packets numbered from 1 followed by EOT; the
    payload of the last packet is what is left of the source after the
    full blocks followed by zeroes up to 128 bytes, and the payloads put
    one after the other and cut to the length of the source are the
    source. *)
Theorem transfer_round_trip (data : list Z) (chunks : list nat) (fuel : nat) :
  Forall is_byte data ->
  (length data mod 128 <> 0)%nat ->
  (length data / 128 + 2 <= fuel)%nat ->
  let packets := frames (length data / 128 + 1) 1 data in
  exists m' : machine Script.host,
    xmodem_send fuel Script.tty_fd Script.in_fd
      (Script.boot [Script.Byte NAK] (Script.Byte ACK) data chunks)
    = Done 0 m' /\
    wire Script.tty_fd (trace m') = concat packets ++ [EOT] /\
    payload <$> last packets
    = Some (drop (128 * (length data / 128)) data
              ++ replicate (128 - length data mod 128) 0) /\
    take (length data) (concat (payload <$> packets)) = data.
Proof.
  intros Hbytes Hmod Hfuel packets.
  assert (Hbound : (length data <= 128 * (length data / 128 + 1))%nat).
  { pose proof (Nat.div_mod_eq (length data) 128).
    pose proof (Nat.mod_upper_bound (length data) 128). lia. }
  unfold xmodem_send, Script.boot.
  unfold bind at 1. unfold printf at 1. unfold emit. cbn [world errno pos trace].
  rewrite (bind_done _ _ _ _ _ (ScriptFacts.wait_for_nak_script _ _ _ _ _ _ _)).
  change (0 =? -1) with false. cbv iota.
  unfold transfer. cbv zeta.
  match goal with
  | |- context [bind (send_loop _ _ _ _ _ _ _) _ (Machine _ ?e ?p ?t)] =>
      destruct (ScriptFacts.ack_loop (length data / 128 + 1) fuel data chunks
                  (replicate 134 0) 1 0 0 e p t)
        as (retry' & e' & p' & ch' & evs & Hl & Hr & Hw);
        [exact Hbound | lia | unfold MAX_RETRANS; lia | reflexivity | lia |]
  end.
  rewrite (bind_done _ _ _ _ _ Hl).
  destruct (Z.eqb_spec retry' MAX_RETRANS) as [?|_]; [lia |].
  unfold bind at 1. unfold printf at 1. unfold emit. cbn [world errno pos trace].
  change (Z.to_nat MAX_RETRANS) with 10%nat.
  rewrite (bind_done _ _ _ _ _ (ScriptFacts.eot_loop_ack _ _ _ _ _ _ _)).
  change (negb (ACK =? ACK)) with false. cbv iota.
  unfold bind at 1. unfold puts at 1. unfold emit, ret.
  cbn [world errno pos trace].
  eexists. split; [reflexivity |]. cbn [trace].
  split; [| split].
  - rewrite !wire_app, Hw, (uchar_bytes data Hbytes).
    wire_quiet. rewrite ?app_nil_r. cbn [app]. reflexivity.
  - apply frames_last; assumption.
  - apply frames_round_trip. exact Hbound.
Qed.

(** ** The handshake on the echoing line *)

Module EchoFacts.
Import Echo.

Lemma read_byte_echo (fd b : Z) (l : list Z) (s N : nat) (clk e p : Z)
    (t : list event) :
  read_byte fd PATTERN_SEND_INTERVAL (Machine (Link (b :: l) s N clk) e p t)
  = Done (uchar b)
      (Machine (Link l s N clk) e p
         (t ++ [EvSelect fd 0 50000 1; EvRead fd 1 1 [uchar b]])).
Proof.
  unfold read_byte, select, read, syscall, bind. cbn.
  rewrite <- app_assoc. reflexivity.
Qed.

Lemma read_byte_quiet (fd : Z) (s N : nat) (clk e p : Z) (t : list event) :
  read_byte fd PATTERN_SEND_INTERVAL (Machine (Link [] s N clk) e p t)
  = Done (-1)
      (Machine (Link [] s N (later clk)) ETIMEDOUT p
         (t ++ [EvSelect fd 0 50000 0])).
Proof. reflexivity. Qed.

Lemma uchar_range (b : Z) : 0 <= uchar b < 256.
Proof. unfold uchar. apply Z.mod_pos_bound. lia. Qed.

(** Echoed bytes are read and passed over, one after the other, until
    the line falls silent. *)
Lemma read_replies_silence (l : list Z) :
  forall (n : nat) (fd : Z) (done : bool) (s N : nat) (clk e p : Z)
         (t : list event),
    Forall echoed l ->
    (length l < n)%nat ->
    read_replies n fd done (Machine (Link l s N clk) e p t)
    = Done (Left done)
        (Machine (Link [] s N (later clk)) ETIMEDOUT p
           (t ++ taking fd l ++ [EvSelect fd 0 50000 0])).
Proof.
  induction l as [|b l IH]; intros n fd done s N clk e p t Hl Hn;
    (destruct n as [|n]; [simpl in Hn; lia |]); cbn [read_replies].
  - rewrite (bind_done _ _ _ _ _ (read_byte_quiet _ _ _ _ _ _ _)).
    reflexivity.
  - inversion Hl as [|? ? [Hm Hk] Hl']; subst.
    rewrite (bind_done _ _ _ _ _ (read_byte_echo _ _ _ _ _ _ _ _ _)).
    pose proof (uchar_range b).
    destruct (Z.eqb_spec (uchar b) (-1)) as [?|_]; [lia |].
    destruct (Z.eqb_spec (uchar b) NAK) as [?|_]; [contradiction |].
    rewrite Hm. unfold ret at 1. unfold bind at 1.
    rewrite IH by (auto; simpl in Hn; lia).
    cbn [taking flat_map]. rewrite <- !app_assoc. reflexivity.
Qed.

(** Echoed bytes are read and passed over until the NAK behind them is
    met. *)
Lemma read_replies_nak (l : list Z) :
  forall (n : nat) (fd : Z) (done : bool) (s N : nat) (clk e p : Z)
         (t : list event),
    Forall echoed l ->
    (length l < n)%nat ->
    read_replies n fd done (Machine (Link (l ++ [NAK]) s N clk) e p t)
    = Done (Left true)
        (Machine (Link [] s N clk) e p
           (t ++ taking fd l ++ [EvSelect fd 0 50000 1; EvRead fd 1 1 [NAK]])).
Proof.
  induction l as [|b l IH]; intros n fd done s N clk e p t Hl Hn;
    (destruct n as [|n]; [simpl in Hn; lia |]); cbn [read_replies app].
  - rewrite (bind_done _ _ _ _ _ (read_byte_echo _ _ _ _ _ _ _ _ _)).
    reflexivity.
  - inversion Hl as [|? ? [Hm Hk] Hl']; subst.
    rewrite (bind_done _ _ _ _ _ (read_byte_echo _ _ _ _ _ _ _ _ _)).
    pose proof (uchar_range b).
    destruct (Z.eqb_spec (uchar b) (-1)) as [?|_]; [lia |].
    destruct (Z.eqb_spec (uchar b) NAK) as [?|_]; [contradiction |].
    rewrite Hm. unfold ret at 1. unfold bind at 1.
    rewrite IH by (auto; simpl in Hn; lia).
    cbn [taking flat_map]. rewrite <- !app_assoc. reflexivity.
Qed.

(** Every byte of the boot pattern is one that the handshake passes
    over. *)
Lemma boot_pattern_echoed : Forall echoed boot_pattern.
Proof.
  unfold boot_pattern.
  repeat (apply Forall_cons; split;
          [split; [reflexivity | discriminate] |]).
  constructor.
Qed.

(** A turn of the outer loop that is not yet answered: the pattern goes
    out, its echo is read and passed over, the line falls silent, and
    the loop goes on unless the time is up. *)
Lemma pattern_round_silent (n : nat) (fd timeout start : Z) (s N : nat)
    (clk e p : Z) (t : list event) :
  S s <> N ->
  (8 < n)%nat ->
  pattern_loop (S n) fd timeout start false
    (Machine (Link [] s N clk) e p t)
  = let m' :=
      Machine (Link [] (S s) N (later clk)) ETIMEDOUT ((p + 1) mod 4)
        (t ++ probing fd p ++ taking fd boot_pattern
           ++ [EvSelect fd 0 50000 0; EvTime (later clk / ONE_SECOND_US)]) in
    if later clk / ONE_SECOND_US - start >? timeout
    then Done (Returned 1) (emit (EvPrintf "timeout\n" []) m')
    else pattern_loop n fd timeout start false m'.
Proof.
  intros Hs Hn. cbn [pattern_loop].
  rewrite (bind_done _ _ _ _ _ (ScriptFacts.rotator_done _)).
  cbn [world errno pos trace].
  unfold write, tcdrain, syscall. unfold bind at 1.
  cbn [world errno pos trace os_write os_tcdrain link_os link_write
       inbound sent nak_after clock app].
  destruct (Nat.eqb_spec (S s) N) as [?|_]; [contradiction |].
  change (Z.of_nat (length boot_pattern)) with 8.
  change (8 =? -1) with false. change (8 =? 8) with true.
  cbv iota. unfold assert at 1. unfold bind at 1 2.
  cbn [world errno pos trace]. change (0 <? 0) with false. cbv iota.
  rewrite app_nil_r.
  rewrite (bind_done _ _ _ _ _
             (read_replies_silence boot_pattern n fd false (S s) N clk _ _ _
                boot_pattern_echoed ltac:(simpl; lia))).
  unfold bind at 1. unfold time at 1.
  cbn [world errno pos trace os_time link_os clock].
  cbv zeta. unfold probing.
  destruct (later clk / ONE_SECOND_US - start >? timeout).
  - unfold bind, printf, ret, emit. cbn [world errno pos trace].
    rewrite <- !app_assoc. reflexivity.
  - rewrite <- !app_assoc. reflexivity.
Qed.

(** The turn that is answered: the pattern goes out, its echo is read
    and passed over, the NAK behind it is met, and the loop is left
    unless the time is up. *)
Lemma pattern_round_nak (n : nat) (fd timeout start : Z) (s N : nat)
    (clk e p : Z) (t : list event) :
  S s = N ->
  (8 < n)%nat ->
  pattern_loop (S n) fd timeout start false
    (Machine (Link [] s N clk) e p t)
  = let m' :=
      Machine (Link [] (S s) N clk) e ((p + 1) mod 4)
        (t ++ probing fd p ++ taking fd boot_pattern
           ++ [EvSelect fd 0 50000 1; EvRead fd 1 1 [NAK];
               EvTime (clk / ONE_SECOND_US)]) in
    if clk / ONE_SECOND_US - start >? timeout
    then Done (Returned 1) (emit (EvPrintf "timeout\n" []) m')
    else Done (Left tt) m'.
Proof.
  intros Hs Hn. cbn [pattern_loop].
  rewrite (bind_done _ _ _ _ _ (ScriptFacts.rotator_done _)).
  cbn [world errno pos trace].
  unfold write, tcdrain, syscall. unfold bind at 1.
  cbn [world errno pos trace os_write os_tcdrain link_os link_write
       inbound sent nak_after clock app].
  destruct (Nat.eqb_spec (S s) N) as [_|?]; [| contradiction].
  change (Z.of_nat (length boot_pattern)) with 8.
  change (8 =? -1) with false. change (8 =? 8) with true.
  cbv iota. unfold assert at 1. unfold bind at 1 2.
  cbn [world errno pos trace]. change (0 <? 0) with false. cbv iota.
  rewrite (bind_done _ _ _ _ _
             (read_replies_nak boot_pattern n fd false (S s) N clk _ _ _
                boot_pattern_echoed ltac:(simpl; lia))).
  unfold bind at 1. unfold time at 1.
  cbn [world errno pos trace os_time link_os clock].
  cbv zeta. unfold probing.
  destruct (clk / ONE_SECOND_US - start >? timeout).
  - unfold bind, printf, ret, emit. cbn [world errno pos trace].
    rewrite <- !app_assoc. reflexivity.
  - destruct n; cbn [pattern_loop]; unfold ret;
      rewrite <- !app_assoc; reflexivity.
Qed.

(** Within a second of the start the time is not up. *)
Lemma no_timeout_yet (t0 t1 timeout : Z) :
  t0 <= t1 <= t0 + ONE_SECOND_US ->
  1 <= timeout ->
  (t1 / ONE_SECOND_US - t0 / ONE_SECOND_US >? timeout) = false.
Proof.
  intros Hd Ht. unfold ONE_SECOND_US in *.
  rewrite Z.gtb_ltb. apply Z.ltb_ge.
  assert (t1 / 1000000 <= t0 / 1000000 + 1).
  { replace (t0 / 1000000 + 1) with ((t0 + 1 * 1000000) / 1000000)
      by (rewrite Z.div_add by lia; reflexivity).
    apply Z.div_le_mono; lia. }
  lia.
Qed.

End EchoFacts.

(** C7: on a line that echoes every transmitted byte and whose remote
    answers the third transmission of the boot pattern with a NAK,
    [send_boot_pattern] returns 0 (ready), has written the pattern exactly
    three times, and has printed nothing but its opening message, one
    rotator tick for each transmission and "done": no echoed byte is
    reported as unexpected, every byte of the pattern being one that
    [memchr] finds in it.  The clock may start anywhere; the timeout is
    any whole number of seconds from 1 up. *)
Theorem echo_handshake_ready (t0 timeout : Z) (fuel : nat) :
  1 <= timeout ->
  (12 <= fuel)%nat ->
  exists m' : machine Echo.link,
    send_boot_pattern fuel Echo.tty_fd timeout (Echo.boot 3 t0) = Done 0 m' /\
    writes Echo.tty_fd (trace m')
    = [boot_pattern; boot_pattern; boot_pattern] /\
    printed (trace m')
    = ["Sending boot pattern: power on or reset now..."; "%c\b"; "%c\b";
       "%c\b"; "done\n"] /\
    Forall (fun c => memchr boot_pattern c = true) boot_pattern.
Proof.
  intros Ht Hf.
  do 3 (destruct fuel as [|fuel]; [lia |]).
  unfold send_boot_pattern, Echo.boot.
  unfold bind at 1. unfold time at 1.
  cbn [world errno pos trace os_time Echo.link_os Echo.clock].
  unfold bind at 1. unfold tcflush at 1. unfold syscall.
  cbn [world errno pos trace os_tcflush Echo.link_os Echo.link_tcflush
       Echo.sent Echo.nak_after Echo.clock].
  unfold bind at 1. unfold printf at 1. unfold emit.
  cbn [world errno pos trace].
  unfold bind at 1.
  rewrite EchoFacts.pattern_round_silent by lia. cbv zeta.
  rewrite EchoFacts.no_timeout_yet
    by (unfold Echo.later; change (PATTERN_SEND_INTERVAL / ONE_SECOND_US) with 0;
        change (PATTERN_SEND_INTERVAL mod ONE_SECOND_US) with 50000;
        unfold ONE_SECOND_US; lia).
  rewrite EchoFacts.pattern_round_silent by lia. cbv zeta.
  rewrite EchoFacts.no_timeout_yet
    by (unfold Echo.later; change (PATTERN_SEND_INTERVAL / ONE_SECOND_US) with 0;
        change (PATTERN_SEND_INTERVAL mod ONE_SECOND_US) with 50000;
        unfold ONE_SECOND_US; lia).
  rewrite EchoFacts.pattern_round_nak by lia. cbv zeta.
  rewrite EchoFacts.no_timeout_yet
    by (unfold Echo.later; change (PATTERN_SEND_INTERVAL / ONE_SECOND_US) with 0;
        change (PATTERN_SEND_INTERVAL mod ONE_SECOND_US) with 50000;
        unfold ONE_SECOND_US; lia).
  unfold bind, printf, ret, emit. cbn [world errno pos trace].
  eexists. split; [reflexivity |]. cbn [trace].
  split; [reflexivity |]. split; [reflexivity |].
  repeat (apply Forall_cons; split; [reflexivity |]). constructor.
Qed.

(** ** Failures of the line *)

(** Whatever fails inside [send_packet], a write, a drain or the
    acknowledgment read, with an [errno] other than [ETIMEDOUT], the
    sending loop reports it and is left by [break], [retry] unchanged:
    control reaches the test after the loop, not a [return]. *)
Lemma send_loop_io_error_breaks {W : Type} {os : Os W} (fuel : nat)
    (tty_fd in_fd : Z) (packet packet1 : list Z)
    (packetno lastpacket lastpacket1 retry : Z) (m mr m0 m1 : machine W) :
  retry < MAX_RETRANS ->
  rotator m = Done tt mr ->
  next_packet in_fd packetno lastpacket retry packet mr
    = Done (Continue (packet1, lastpacket1)) m0 ->
  send_packet tty_fd packet1 (buflen + 4) m0 = Done (-1) m1 ->
  errno m1 <> ETIMEDOUT ->
  send_loop (S fuel) tty_fd in_fd packet packetno lastpacket retry m
  = Done (Left retry)
      (emit (EvStderr "%s: error writing to serial port: %m\n" [errno m1]) m1).
Proof.
  intros Hretry Hrot Hnp Hsp He.
  cbn [send_loop].
  destruct (Z.ltb_spec retry MAX_RETRANS) as [_|?]; [| lia].
  rewrite (bind_done _ _ _ _ _ Hrot).
  rewrite (bind_done _ _ _ _ _ Hnp).
  rewrite (bind_done _ _ _ _ _ Hsp).
  change (-1 =? -1) with true. cbv iota.
  unfold bind at 1. unfold get_errno at 1.
  destruct (Z.eqb_spec (errno m1) ETIMEDOUT) as [?|_]; [contradiction |].
  reflexivity.
Qed.

(** C1, at a failing input: the remote sends the confirming NAK, the
    acknowledgment read of the first packet fails with EIO, and the remote
    then answers ACK.  The sender reports the error, goes on to the
    closing exchange, sends EOT and, the EOT acknowledged, prints "done"
    and returns 0. *)
Theorem io_error_then_finishing :
  let o := xmodem_send 2 Script.tty_fd Script.in_fd
             (Script.boot [Script.Byte NAK; Script.Fault Script.EIO;
                           Script.Byte ACK] Script.Silence [65] []) in
  result_of o = Some 0 /\
  reported (trace_of o)
  = [("%s: error writing to serial port: %m\n", [Script.EIO])] /\
  printed (trace_of o)
  = ["Sending file..."; "%c\b"; "\nFinishing..."; "done\n"] /\
  wire Script.tty_fd (trace_of o) = frame 1 (pad [65]) ++ [EOT].
Proof.
  vm_compute. repeat split; reflexivity.
Qed.

(** C4, at a failing input: a source of one block; the remote sends the
    confirming NAK, answers the packet with CAN and then with a byte that
    is not CAN, acknowledges the repeated packet and acknowledges the EOT.
    The waits of the run, in seconds and microseconds: 60 seconds for the
    confirming NAK and for each acknowledgment, but 0 seconds and 1
    microsecond for the byte after the CAN and for the answer to the EOT,
    where [wait_for_nak] passes [ONE_SECOND_US] for its second byte. *)
Theorem one_microsecond_waits :
  let o := xmodem_send 3 Script.tty_fd Script.in_fd
             (Script.boot [Script.Byte NAK; Script.Byte CAN; Script.Byte 0;
                           Script.Byte ACK] (Script.Byte ACK) [65] []) in
  result_of o = Some 0 /\
  timeouts (trace_of o) = [(60, 0); (60, 0); (0, 1); (60, 0); (0, 1)] /\
  wire Script.tty_fd (trace_of o)
  = frame 1 (pad [65]) ++ frame 1 (pad [65]) ++ [EOT] /\
  (ONE_SECOND_US / ONE_SECOND_US, ONE_SECOND_US mod ONE_SECOND_US) = (1, 0).
Proof.
  vm_compute. repeat split; reflexivity.
Qed.

(** C9, at a failing input: a source of two blocks; the remote sends the
    confirming NAK, acknowledges the first packet and then stays silent.
    The second packet goes over the line 9 times, not [MAX_RETRANS] = 10
    times as the first packet does against a remote silent from the
    start, before the sender gives up: the turn that follows an ACK starts
    with [retry] at 1. *)
Theorem budget_after_ack_is_nine :
  let data := replicate 129 65 in
  let o := xmodem_send 12 Script.tty_fd Script.in_fd
             (Script.boot [Script.Byte NAK; Script.Byte ACK] Script.Silence
                data []) in
  result_of o = Some (-1) /\
  reported (trace_of o) = [("Too many retries, cancelling send\n", [])] /\
  wire Script.tty_fd (trace_of o)
  = frame 1 (pad (take 128 data))
      ++ concat (replicate 9 (frame 2 (pad (drop 128 data))))
      ++ [CAN; CAN; CAN].
Proof.
  vm_compute. repeat split; reflexivity.
Qed.

(** C5 as stated fails for the letter C (0x43): it is a received byte
    other than NAK and CAN, and [xmodem_send] returns -1 on it without
    writing anything to the line. *)
Lemma crc_request_is_not_cancelled :
  let o := xmodem_send 1 Script.tty_fd Script.in_fd
             (Script.boot [Script.Byte 67] Script.Silence [65] []) in
  67 <> NAK /\ 67 <> CAN /\
  result_of o = Some (-1) /\
  printed (trace_of o)
  = ["Sending file..."; "unexpected CRC-mode character\n"] /\
  writes Script.tty_fd (trace_of o) = [] /\
  wire Script.tty_fd (trace_of o) = [].
Proof.
  vm_compute. repeat split; try reflexivity; discriminate.
Qed.

(** ** Instances *)

Lemma silent_remote_exhausts_retries_witness :
  exists (m' : machine Script.host) (evs : list event),
    xmodem_send 10 Script.tty_fd Script.in_fd
      (Script.boot [Script.Byte NAK] Script.Silence [65] [])
    = Done (-1) m' /\
    trace m'
    = evs ++ [EvStderr "Too many retries, cancelling send\n" [];
              EvWrite Script.tty_fd [CAN; CAN; CAN] 3;
              EvTcdrain Script.tty_fd 0; EvTcflush Script.tty_fd 0] /\
    wire Script.tty_fd evs
    = concat (replicate (Z.to_nat MAX_RETRANS)
                (frame 1 (pad (uchar <$> take 128 [65])))) /\
    wire Script.tty_fd (trace m')
    = concat (replicate (Z.to_nat MAX_RETRANS)
                (frame 1 (pad (uchar <$> take 128 [65]))))
        ++ [CAN; CAN; CAN].
Proof.
  apply (silent_remote_exhausts_retries [65] [] 10).
  - discriminate.
  - vm_compute. lia.
Defined.


Lemma echo_handshake_ready_witness :
  exists m' : machine Echo.link,
    send_boot_pattern 12 Echo.tty_fd PATTERN_SEND_TIMEOUT (Echo.boot 3 0)
    = Done 0 m' /\
    writes Echo.tty_fd (trace m')
    = [boot_pattern; boot_pattern; boot_pattern] /\
    printed (trace m')
    = ["Sending boot pattern: power on or reset now..."; "%c\b"; "%c\b";
       "%c\b"; "done\n"] /\
    Forall (fun c => memchr boot_pattern c = true) boot_pattern.
Proof.
  apply (echo_handshake_ready 0 PATTERN_SEND_TIMEOUT 12).
  - vm_compute. discriminate.
  - lia.
Defined.

Lemma transfer_round_trip_witness :
  let data := [1; 2; 3] in
  let packets := frames (length data / 128 + 1) 1 data in
  exists m' : machine Script.host,
    xmodem_send 2 Script.tty_fd Script.in_fd
      (Script.boot [Script.Byte NAK] (Script.Byte ACK) data [0%nat])
    = Done 0 m' /\
    wire Script.tty_fd (trace m') = concat packets ++ [EOT] /\
    payload <$> last packets
    = Some (drop (128 * (length data / 128)) data
              ++ replicate (128 - length data mod 128) 0) /\
    take (length data) (concat (payload <$> packets)) = data.
Proof.
  apply (transfer_round_trip [1; 2; 3] [0%nat] 2).
  - repeat constructor; vm_compute; discriminate.
  - vm_compute. discriminate.
  - vm_compute. lia.
Defined.

Lemma wait_for_nak_single_can_witness :
  wait_for_nak Script.tty_fd (emit (EvPrintf "Sending file..." []) lone_can)
  = Done 0 lone_can_2 /\
  xmodem_send 5 Script.tty_fd Script.in_fd lone_can
  = transfer 5 Script.tty_fd Script.in_fd lone_can_2.
Proof.
  apply (wait_for_nak_single_can 5 Script.tty_fd Script.in_fd 65
           lone_can lone_can_1 lone_can_2).
  - vm_compute. reflexivity.
  - vm_compute. reflexivity.
  - discriminate.
Defined.

Lemma wait_for_nak_unexpected_byte_witness :
  exists (m2 : machine Script.host) (r : Z) (rest : list event),
    xmodem_send 1 Script.tty_fd Script.in_fd stray_byte = Done (-1) m2 /\
    trace m2 =
      trace stray_byte_1
        ++ [EvPrintf "unexpected character %02x, cancelling send\n" [65];
            EvWrite Script.tty_fd [CAN; CAN; CAN] r]
        ++ rest /\
    writes Script.tty_fd rest = [] /\
    wire Script.tty_fd rest = [].
Proof.
  apply (wait_for_nak_unexpected_byte 1 Script.tty_fd Script.in_fd 65
           stray_byte stray_byte_1).
  - vm_compute. reflexivity.
  - discriminate.
  - discriminate.
  - discriminate.
  - discriminate.
Defined.

Lemma send_loop_double_can_witness :
  exists (m3 : machine Script.host) (r d : Z),
    xmodem_send 2 Script.tty_fd Script.in_fd late_can = Done (-1) m3 /\
    transfer 2 Script.tty_fd Script.in_fd late_can_s = Done (-1) m3 /\
    send_loop 1 Script.tty_fd Script.in_fd late_can_packet 2 1 1 late_can_t
    = Done (Returned (-1)) m3 /\
    trace m3
    = trace late_can_2
        ++ [EvWrite Script.tty_fd [ACK] r; EvTcdrain Script.tty_fd d].
Proof.
  apply (send_loop_double_can 2 0 Script.tty_fd Script.in_fd late_can_packet
           late_can_packet2 2 1 2 1
           late_can late_can_s late_can_t late_can_r late_can_0 late_can_1
           late_can_2).
  - vm_compute. reflexivity.
  - vm_compute. reflexivity.
  - vm_compute. reflexivity.
  - vm_compute. reflexivity.
  - vm_compute. reflexivity.
  - vm_compute. reflexivity.
  - vm_compute. reflexivity.
Defined.

(** * Further properties *)

(** ** [read_block] on any operating system *)

Lemma read_block_loop_inv {W : Type} {os : Os W} (n : nat) :
  forall (fd : Z) (buf : list Z) (tot rem : Z) (m m' : machine W)
         (buf' : list Z) (e : loop_end (Z * Z)),
    0 <= rem ->
    Z.of_nat (length buf) = tot ->
    Forall is_byte buf ->
    read_block_loop n fd buf tot rem m = Done (buf', e) m' ->
    Forall is_byte buf' /\
    match e with
    | Left (tot', rem') =>
        Z.of_nat (length buf') = tot' /\ tot' + rem' = tot + rem /\ 0 <= rem'
    | Returned v =>
        v = -1 /\
        exists (t : list event) (count : Z),
          trace m' = t ++ [EvRead fd count (-1) []]
    end.
Proof.
  induction n as [|n IH]; intros fd buf tot rem m m' buf' e Hrem Hlen Hb H;
    cbn [read_block_loop] in H;
    destruct (Z.ltb_spec 0 rem) as [Hpos|Hle];
    try (inversion H; subst; split; [assumption | lia]);
    try discriminate.
  unfold bind, read in H.
  destruct (os_read fd rem (world m)) as [[data|err] w].
  - set (d := uchar <$> take (Z.to_nat rem) data) in *.
    assert (Hd : (length d <= Z.to_nat rem)%nat)
      by (unfold d; rewrite length_fmap, length_take; lia).
    destruct (Z.eqb_spec (Z.of_nat (length d)) 0) as [?|Hne].
    { inversion H; subst. split; [assumption | lia]. }
    destruct (Z.ltb_spec (Z.of_nat (length d)) 0) as [?|_]; [lia |].
    apply IH in H.
    + destruct H as [Hb' He]. split; [exact Hb' |].
      destruct e as [v|[tot' rem']]; [exact He | lia].
    + lia.
    + rewrite length_app. lia.
    + apply Forall_app. split; [exact Hb | apply fmap_uchar_bytes].
  - change (-1 =? 0) with false in H. change (-1 <? 0) with true in H.
    cbv iota in H. inversion H; subst. split; [assumption |].
    split; [reflexivity |]. eexists _, _. reflexivity.
Qed.

(** What [read_block] has stored when it has not failed. *)
Lemma read_block_stored {W : Type} {os : Os W} (fd size tot : Z)
    (data : list Z) (m m' : machine W) :
  0 <= size ->
  read_block fd size m = Done (tot, data) m' ->
  tot = -1 \/
  (0 <= tot <= size /\
   length data = Z.to_nat size /\
   drop (Z.to_nat tot) data = replicate (Z.to_nat (size - tot)) 0 /\
   Forall is_byte data).
Proof.
  intros Hsize H.
  destruct (Z.eq_dec tot (-1)) as [Htot|Htot]; [left; exact Htot | right].
  unfold read_block in H.
  apply bind_inv in H as ([buf e] & m1 & Hl & H).
  apply read_block_loop_inv in Hl as [Hb He];
    [| exact Hsize | reflexivity | constructor].
  destruct e as [v|[tot' rem']].
  - destruct He as [-> _]. inversion H; subst. contradiction.
  - destruct He as (Hlen & Hsum & Hrem').
    destruct (Z.ltb_spec 0 rem') as [Hpos|Hle]; inversion H; subst.
    + repeat split; try lia.
      * rewrite length_app, length_replicate. lia.
      * rewrite Nat2Z.id, drop_app_length. f_equal. lia.
      * apply Forall_app. split; [exact Hb |].
        apply Forall_replicate. unfold is_byte. lia.
    + assert (rem' = 0) by lia. subst rem'.
      repeat split; try lia.
      * rewrite Nat2Z.id, drop_all.
        replace (size - Z.of_nat (length data)) with 0 by lia. reflexivity.
      * exact Hb.
Qed.

(** The loop of [read_block] makes nothing but reads on [fd], and what it
    has stored is what they delivered, in order. *)
Lemma read_block_loop_reads {W : Type} {os : Os W} (n : nat) :
  forall (fd : Z) (buf : list Z) (tot rem : Z) (m m' : machine W)
         (buf' : list Z) (e : loop_end (Z * Z)),
    read_block_loop n fd buf tot rem m = Done (buf', e) m' ->
    exists evs : list event,
      trace m' = trace m ++ evs /\
      Forall (is_read fd) evs /\
      buf' = buf ++ delivered evs.
Proof.
  induction n as [|n IH]; intros fd buf tot rem m m' buf' e H;
    cbn [read_block_loop] in H;
    (destruct (0 <? rem);
     [| inversion H; subst; exists [];
        rewrite !app_nil_r; repeat split; constructor]);
    [discriminate |].
  unfold bind, read in H.
  destruct (os_read fd rem (world m)) as [[data|err] w].
  - set (d := uchar <$> take (Z.to_nat rem) data) in *.
    destruct (Z.eqb_spec (Z.of_nat (length d)) 0) as [Hz|Hne].
    { inversion H; subst. cbn [trace].
      assert (Hd : d = []) by (destruct d; [reflexivity | discriminate]).
      eexists. split; [reflexivity |].
      split; [repeat constructor |].
      unfold delivered. cbn [flat_map]. rewrite Hd, !app_nil_r.
      reflexivity. }
    destruct (Z.ltb_spec (Z.of_nat (length d)) 0) as [?|_]; [lia |].
    apply IH in H as (evs & Ht & Hr & Hb). cbn [trace] in Ht.
    exists (EvRead fd rem (Z.of_nat (length d)) d :: evs).
    split; [rewrite Ht, <- app_assoc; reflexivity |].
    split; [constructor; [reflexivity | exact Hr] |].
    rewrite Hb, <- app_assoc. reflexivity.
  - change (-1 =? 0) with false in H. change (-1 <? 0) with true in H.
    cbv iota in H. inversion H; subst. cbn [trace].
    eexists. split; [reflexivity |].
    split; [repeat constructor |].
    unfold delivered. cbn [flat_map]. rewrite !app_nil_r. reflexivity.
Qed.

(** X1: whenever [read_block] does not return -1, everything it did was
    to read from [fd]; it returns the number of bytes those reads
    delivered, between 0 and [size], and has stored exactly [size] bytes:
    the bytes delivered first, in order, and zeroes from there to the
    end. *)
Theorem read_block_fills {W : Type} {os : Os W} (fd size tot : Z)
    (data : list Z) (m m' : machine W) :
  0 <= size ->
  read_block fd size m = Done (tot, data) m' ->
  tot <> -1 ->
  0 <= tot <= size /\
  length data = Z.to_nat size /\
  drop (Z.to_nat tot) data = replicate (Z.to_nat (size - tot)) 0 /\
  Forall is_byte data /\
  exists evs : list event,
    trace m' = trace m ++ evs /\
    Forall (is_read fd) evs /\
    tot = Z.of_nat (length (delivered evs)) /\
    data = delivered evs ++ replicate (Z.to_nat (size - tot)) 0.
Proof.
  intros Hsize H Htot.
  destruct (read_block_stored fd size tot data m m' Hsize H)
    as [?|(Hr & Hl & Hz & Hb)]; [contradiction |].
  do 4 (split; [assumption |]).
  unfold read_block in H.
  apply bind_inv in H as ([buf e] & m1 & Hloop & H).
  pose proof (read_block_loop_reads _ _ _ _ _ _ _ _ _ Hloop)
    as (evs & Ht & Hreads & Hbuf).
  apply read_block_loop_inv in Hloop as [_ He];
    [| exact Hsize | reflexivity | constructor].
  cbn [app] in Hbuf. subst buf.
  destruct e as [v|[tot' rem']].
  - destruct He as [-> _]. inversion H; subst. contradiction.
  - destruct He as (Hlen & Hsum & Hrem').
    exists evs.
    destruct (Z.ltb_spec 0 rem') as [Hpos|Hle]; inversion H; subst;
      (split; [exact Ht |]); (split; [exact Hreads |]);
      (split; [reflexivity |]).
    + f_equal. f_equal. f_equal. lia.
    + replace (size - Z.of_nat (length (delivered evs))) with 0 by lia.
      rewrite app_nil_r. reflexivity.
Qed.

(** X2: [read_block] returns -1 only when the last thing it did was a
    [read] that failed. *)
Theorem read_block_failure {W : Type} {os : Os W} (fd size : Z)
    (data : list Z) (m m' : machine W) :
  0 <= size ->
  read_block fd size m = Done (-1, data) m' ->
  exists (t : list event) (count : Z),
    trace m' = t ++ [EvRead fd count (-1) []].
Proof.
  intros Hsize H. unfold read_block in H.
  apply bind_inv in H as ([buf e] & m1 & Hl & H).
  apply read_block_loop_inv in Hl as [Hb He];
    [| exact Hsize | reflexivity | constructor].
  destruct e as [v|[tot' rem']].
  - destruct He as [-> Ht]. inversion H; subst. exact Ht.
  - destruct He as (Hlen & Hsum & Hrem').
    destruct (0 <? rem'); inversion H; subst; lia.
Qed.

Lemma read_block_fills_witness :
  0 <= fst short_block <= buflen /\
  length (snd short_block) = Z.to_nat buflen /\
  drop (Z.to_nat (fst short_block)) (snd short_block)
  = replicate (Z.to_nat (buflen - fst short_block)) 0 /\
  Forall is_byte (snd short_block) /\
  exists evs : list event,
    trace short_source_read = trace short_source ++ evs /\
    Forall (is_read Script.in_fd) evs /\
    fst short_block = Z.of_nat (length (delivered evs)) /\
    snd short_block
    = delivered evs ++ replicate (Z.to_nat (buflen - fst short_block)) 0.
Proof.
  apply (read_block_fills Script.in_fd buflen (fst short_block)
           (snd short_block) short_source short_source_read).
  - vm_compute. discriminate.
  - vm_compute. reflexivity.
  - vm_compute. discriminate.
Defined.

Lemma read_block_failure_witness :
  exists (t : list event) (count : Z),
    trace closed_read = t ++ [EvRead 7 count (-1) []].
Proof.
  apply (read_block_failure 7 buflen (snd closed_block) short_source
           closed_read).
  - vm_compute. discriminate.
  - vm_compute. reflexivity.
Defined.

(** ** [read_byte] on any operating system *)

(** The calls [read_byte] makes, and what it leaves of [errno] and of the
    rotator. *)
Lemma read_byte_calls {W : Type} {os : Os W} (fd timeout c : Z)
    (m m' : machine W) :
  0 <= timeout ->
  read_byte fd timeout m = Done c m' ->
  (c <> -1 -> errno m' = errno m) /\
  pos m' = pos m /\
  exists (tv_sec tv_usec r : Z) (rest : list event),
    trace m' = trace m ++ EvSelect fd tv_sec tv_usec r :: rest /\
    tv_sec * ONE_SECOND_US + tv_usec = timeout /\
    0 <= tv_usec < ONE_SECOND_US /\
    (rest = [] \/ exists g d, rest = [EvRead fd 1 g d]) /\
    (c <> -1 -> rest = [EvRead fd 1 1 [c]]).
Proof.
  intros Ht H.
  assert (Hdiv : timeout / ONE_SECOND_US * ONE_SECOND_US
                   + timeout mod ONE_SECOND_US = timeout)
    by (unfold ONE_SECOND_US; rewrite Z.mul_comm, <- Z.div_mod; lia).
  assert (Hmod : 0 <= timeout mod ONE_SECOND_US < ONE_SECOND_US)
    by (apply Z.mod_pos_bound; unfold ONE_SECOND_US; lia).
  unfold read_byte, select, syscall, read, bind in H.
  destruct (os_select fd (timeout / ONE_SECOND_US)
              (timeout mod ONE_SECOND_US) (world m)) as [[v|e] w].
  - destruct (Z.ltb_spec v 1) as [Hlt|Hge].
    + destruct (v =? 0); cbn [set_errno ret world errno pos trace] in H;
        inversion H; subst; cbn [errno pos trace];
        (split; [intros Hc; contradiction Hc; reflexivity |]);
        (split; [reflexivity |]);
        exists (timeout / ONE_SECOND_US), (timeout mod ONE_SECOND_US), v, [];
        repeat split; try assumption; try lia; auto;
        intros Hc; contradiction Hc; reflexivity.
    + destruct (Z.eqb_spec v 0) as [?|_]; [lia |].
      cbn [set_errno ret world errno pos trace] in H.
      destruct (os_read fd 1 w) as [[data|e] w'];
        cbn [world errno pos trace] in H.
      * unfold assert in H.
        destruct (negb (Z.of_nat (length (uchar <$> take (Z.to_nat 1) data))
                        =? 0)) eqn:Hz; [| discriminate].
        destruct (Z.ltb_spec
                    (Z.of_nat (length (uchar <$> take (Z.to_nat 1) data))) 0)
          as [?|_]; [lia |].
        inversion H; subst; cbn [errno pos trace].
        split; [reflexivity |]. split; [reflexivity |].
        exists (timeout / ONE_SECOND_US), (timeout mod ONE_SECOND_US), v.
        eexists. split; [rewrite <- app_assoc; reflexivity |].
        split; [exact Hdiv |]. split; [exact Hmod |].
        split; [right; eexists _, _; reflexivity |].
        intros _. destruct data as [|x data]; [discriminate Hz | reflexivity].
      * change (negb (-1 =? 0)) with true in H. unfold assert in H.
        change (-1 <? 0) with true in H. cbv iota in H.
        inversion H; subst; cbn [errno pos trace].
        split; [intros Hc; contradiction Hc; reflexivity |].
        split; [reflexivity |].
        exists (timeout / ONE_SECOND_US), (timeout mod ONE_SECOND_US), v.
        eexists. split; [rewrite <- app_assoc; reflexivity |].
        split; [exact Hdiv |]. split; [exact Hmod |].
        split; [right; eexists _, _; reflexivity |].
        intros Hc; contradiction Hc; reflexivity.
  - change (-1 =? 0) with false in H. change (-1 <? 1) with true in H.
    cbn [ret world errno pos trace] in H. inversion H; subst.
    cbn [errno pos trace].
    split; [intros Hc; contradiction Hc; reflexivity |].
    split; [reflexivity |].
    exists (timeout / ONE_SECOND_US), (timeout mod ONE_SECOND_US), (-1), [].
    repeat split; try assumption; try lia; auto;
      intros Hc; contradiction Hc; reflexivity.
Qed.

(** X3: [read_byte] returns -1 or a byte value; it makes exactly one
    [select], whose timeout is [timeout] microseconds split into whole
    seconds and a rest below one second, then at most one [read] of one
    byte, and nothing else; when it returns a byte, [errno] is as it was. *)
Theorem read_byte_outcome {W : Type} {os : Os W} (fd timeout c : Z)
    (m m' : machine W) :
  0 <= timeout ->
  read_byte fd timeout m = Done c m' ->
  (c = -1 \/ 0 <= c <= 255) /\
  (c <> -1 -> errno m' = errno m) /\
  pos m' = pos m /\
  exists (tv_sec tv_usec r : Z) (rest : list event),
    trace m' = trace m ++ EvSelect fd tv_sec tv_usec r :: rest /\
    tv_sec * ONE_SECOND_US + tv_usec = timeout /\
    0 <= tv_usec < ONE_SECOND_US /\
    (rest = [] \/ exists g d, rest = [EvRead fd 1 g d]) /\
    (c <> -1 -> rest = [EvRead fd 1 1 [c]]).
Proof.
  intros Ht H.
  split; [exact (read_byte_range _ _ _ _ _ H) |].
  exact (read_byte_calls fd timeout c m m' Ht H).
Qed.

Lemma read_byte_outcome_witness :
  (65 = -1 \/ 0 <= 65 <= 255) /\
  (65 <> -1 -> errno waiting_byte_read = errno waiting_byte) /\
  pos waiting_byte_read = pos waiting_byte /\
  exists (tv_sec tv_usec r : Z) (rest : list event),
    trace waiting_byte_read
    = trace waiting_byte ++ EvSelect Script.tty_fd tv_sec tv_usec r :: rest /\
    tv_sec * ONE_SECOND_US + tv_usec = RECEIVE_TIMEOUT /\
    0 <= tv_usec < ONE_SECOND_US /\
    (rest = [] \/ exists g d, rest = [EvRead Script.tty_fd 1 g d]) /\
    (65 <> -1 -> rest = [EvRead Script.tty_fd 1 1 [65]]).
Proof.
  apply (read_byte_outcome Script.tty_fd RECEIVE_TIMEOUT 65 waiting_byte
           waiting_byte_read).
  - vm_compute. discriminate.
  - vm_compute. reflexivity.
Defined.

(** X4: when [select] reports the descriptor readable and [read] then
    delivers no byte (end of file, a line hung up), the assertion in
    [read_byte] fails: the process aborts, nothing is returned. *)
Theorem read_byte_end_of_file_aborts {W : Type} {os : Os W}
    (fd timeout v : Z) (m : machine W) (w1 w2 : W) :
  os_select fd (timeout / ONE_SECOND_US) (timeout mod ONE_SECOND_US) (world m)
    = (Sys v, w1) ->
  1 <= v ->
  os_read fd 1 w1 = (Got [], w2) ->
  read_byte fd timeout m
  = Aborted
      (Machine w2 (errno m) (pos m)
         (trace m
            ++ [EvSelect fd (timeout / ONE_SECOND_US)
                         (timeout mod ONE_SECOND_US) v;
                EvRead fd 1 0 []])).
Proof.
  intros Hs Hv Hr. unfold read_byte, select, syscall, read, bind.
  rewrite Hs.
  destruct (Z.eqb_spec v 0) as [?|_]; [lia |].
  cbn [ret world errno pos trace].
  destruct (Z.ltb_spec v 1) as [?|_]; [lia |].
  cbn [world errno pos trace]. rewrite Hr. cbn.
  rewrite <- app_assoc. reflexivity.
Qed.

Lemma read_byte_end_of_file_aborts_witness :
  read_byte Script.in_fd RECEIVE_TIMEOUT ended_source
  = Aborted
      (Machine (world ended_source) (errno ended_source) (pos ended_source)
         (trace ended_source
            ++ [EvSelect Script.in_fd (RECEIVE_TIMEOUT / ONE_SECOND_US)
                         (RECEIVE_TIMEOUT mod ONE_SECOND_US) 1;
                EvRead Script.in_fd 1 0 []])).
Proof.
  apply (read_byte_end_of_file_aborts Script.in_fd RECEIVE_TIMEOUT 1
           ended_source (world ended_source) (world ended_source)).
  - reflexivity.
  - lia.
  - reflexivity.
Defined.

(** ** [cancel_send] and [rotator] on any operating system *)

(** X5: [cancel_send] always comes back; it makes one [write] of the three
    CAN bytes and never reads or prints.  A write that did not take all
    three bytes ends it there.  A write that took them is followed by a
    drain, always; a drain that did not return 0 ends it there, and a
    drain that returned 0 is followed by a flush, always.  Nothing else is
    done. *)
Theorem cancel_send_one_write {W : Type} {os : Os W} (fd : Z)
    (m : machine W) :
  exists (m' : machine W) (v : Z) (rest : list event),
    cancel_send fd m = Done tt m' /\
    pos m' = pos m /\
    trace m' = trace m ++ EvWrite fd [CAN; CAN; CAN] v :: rest /\
    (v <> 3 -> rest = []) /\
    (v = 3 ->
     (exists d, d <> 0 /\ rest = [EvTcdrain fd d]) \/
     (exists f, rest = [EvTcdrain fd 0; EvTcflush fd f])) /\
    (rest = [] \/
     (exists d, d <> 0 /\ rest = [EvTcdrain fd d]) \/
     (exists f, rest = [EvTcdrain fd 0; EvTcflush fd f])).
Proof.
  unfold cancel_send, write, tcdrain, tcflush, syscall, bind. cbv zeta.
  change (Z.of_nat (length [CAN; CAN; CAN])) with 3.
  destruct (os_write fd [CAN; CAN; CAN] (world m)) as [[v|e] w].
  - destruct (Z.eqb_spec v 3) as [->|Hv]; cbn [world errno pos trace].
    + destruct (os_tcdrain fd w) as [[d|e] w1]; cbn [world errno pos trace].
      * destruct (Z.eqb_spec d 0) as [->|Hd]; cbn [world errno pos trace].
        -- destruct (os_tcflush fd w1) as [[f|e] w2];
             eexists _, 3, _; (split; [reflexivity |]);
             cbn [pos trace]; (split; [reflexivity |]);
             (split; [rewrite <- !app_assoc; reflexivity |]);
             (split; [intros Hc; contradiction |]);
             (split; [intros _ |]);
             right; try right; eexists; reflexivity.
        -- eexists _, 3, _; (split; [reflexivity |]);
             cbn [pos trace]; (split; [reflexivity |]);
             (split; [rewrite <- !app_assoc; reflexivity |]);
             (split; [intros Hc; contradiction |]).
           split; [intros _; left | right; left];
             exists d; (split; [exact Hd | reflexivity]).
      * change (-1 =? 0) with false. cbv iota.
        eexists _, 3, _. split; [reflexivity |]. cbn [pos trace].
        split; [reflexivity |].
        split; [rewrite <- !app_assoc; reflexivity |].
        split; [intros Hc; contradiction |].
        split; [intros _; left | right; left];
          exists (-1); (split; [discriminate | reflexivity]).
    + eexists _, v, []. split; [reflexivity |]. cbn [pos trace].
      split; [reflexivity |]. split; [reflexivity |].
      split; [auto |]. split; [intros Hc; contradiction | auto].
  - change (-1 =? 3) with false. cbv iota.
    eexists _, (-1), []. split; [reflexivity |]. cbn [pos trace].
    split; [reflexivity |]. split; [reflexivity |].
    split; [auto |]. split; [discriminate | auto].
Qed.

Lemma ticks_app (t1 t2 : list event) : ticks (t1 ++ t2) = ticks t1 ++ ticks t2.
Proof. unfold ticks. apply flat_map_app. Qed.

(** X6: started with its position inside the table, [rotator] called [n]
    times leaves the position at [(pos + n) mod 4], touches neither the
    operating system nor [errno], and has printed the characters of the
    table in turn, going round: the position never leaves the table. *)
Theorem rotator_goes_round {W : Type} {os : Os W} (n : nat) :
  forall m : machine W,
    0 <= pos m < 4 ->
    exists evs : list event,
      spin n m
      = Done tt
          (Machine (world m) (errno m) ((pos m + Z.of_nat n) mod 4)
                   (trace m ++ evs)) /\
      ticks evs
      = (fun k : nat =>
           nth (Z.to_nat ((pos m + Z.of_nat k) mod 4)) rotator_chars 0)
          <$> seq 0 n /\
      Forall (fun ch => In ch rotator_chars) (ticks evs).
Proof.
  induction n as [|n IH]; intros m Hp.
  - exists []. cbn [spin]. unfold ret. rewrite app_nil_r, Z.add_0_r.
    rewrite Z.mod_small by lia. destruct m. repeat split. constructor.
  - cbn [spin]. unfold bind at 1. unfold rotator at 1.
    assert (Hq : 0 <= (pos m + 1) mod 4 < 4) by (apply Z.mod_pos_bound; lia).
    destruct (IH (Machine (world m) (errno m) ((pos m + 1) mod 4)
                    (trace m ++
                       [EvPrintf "%c\b" [nth (Z.to_nat (pos m)) rotator_chars 0];
                        EvFflush])) Hq) as (evs & Heq & Ht & Hin).
    rewrite Heq. cbn [world errno pos trace].
    exists ([EvPrintf "%c\b" [nth (Z.to_nat (pos m)) rotator_chars 0]; EvFflush]
              ++ evs).
    assert (Hstep : forall k : Z,
               ((pos m + 1) mod 4 + k) mod 4 = (pos m + (1 + k)) mod 4).
    { intros k. rewrite Z.add_mod_idemp_l by lia. f_equal. lia. }
    split; [| split].
    + rewrite <- app_assoc. f_equal. f_equal.
      rewrite Hstep. f_equal. lia.
    + rewrite ticks_app, Ht. cbn [ticks flat_map app seq fmap list_fmap pos].
      change (Z.of_nat 0) with 0.
      rewrite Z.add_0_r, (Z.mod_small (pos m)) by lia. f_equal.
      rewrite <- fmap_S_seq, <- list_fmap_compose.
      apply list_fmap_ext. intros i k _. cbn [compose].
      rewrite Hstep. do 3 f_equal. lia.
    + rewrite ticks_app. apply Forall_app. split; [| exact Hin].
      cbn [ticks flat_map app]. constructor; [| constructor].
      assert (Hc : pos m = 0 \/ pos m = 1 \/ pos m = 2 \/ pos m = 3) by lia.
      destruct Hc as [-> | [-> | [-> | ->]]]; cbn; auto.
Qed.

Lemma rotator_goes_round_witness :
  exists evs : list event,
    spin 6 waiting_byte
    = Done tt
        (Machine (world waiting_byte) (errno waiting_byte)
                 ((pos waiting_byte + Z.of_nat 6) mod 4)
                 (trace waiting_byte ++ evs)) /\
    ticks evs
    = (fun k : nat =>
         nth (Z.to_nat ((pos waiting_byte + Z.of_nat k) mod 4))
             rotator_chars 0)
        <$> seq 0 6 /\
    Forall (fun ch => In ch rotator_chars) (ticks evs).
Proof.
  apply (rotator_goes_round 6 waiting_byte).
  vm_compute. split; [discriminate | reflexivity].
Defined.

(** ** [wait_for_nak] on any operating system *)

Lemma read_byte_inputs {W : Type} {os : Os W} (fd timeout c : Z)
    (m m' : machine W) :
  read_byte fd timeout m = Done c m' ->
  exists evs : list event, trace m' = trace m ++ evs /\ Forall is_input evs.
Proof.
  unfold read_byte, select, syscall, read, bind. intros H.
  destruct (os_select fd (timeout / ONE_SECOND_US)
              (timeout mod ONE_SECOND_US) (world m)) as [[v|e] w].
  - assert (Hs : exists m1,
               (if v =? 0 then set_errno ETIMEDOUT else ret tt)
                 (Machine w (errno m) (pos m)
                    (trace m ++ [EvSelect fd (timeout / ONE_SECOND_US)
                                   (timeout mod ONE_SECOND_US) v]))
               = Done tt m1 /\
               world m1 = w /\
               trace m1 = trace m ++ [EvSelect fd (timeout / ONE_SECOND_US)
                                        (timeout mod ONE_SECOND_US) v])
      by (destruct (v =? 0); eexists; repeat split).
    destruct Hs as (m1 & Hs & Hw & Ht). rewrite Hs in H.
    destruct (v <? 1).
    + inversion H; subst. eexists. split; [exact Ht |].
      repeat constructor.
    + rewrite Hw in H. destruct (os_read fd 1 w) as [[data|e] w'].
      * unfold assert in H.
        destruct (negb _); [| discriminate].
        destruct (_ <? 0); inversion H; subst; cbn [trace]; rewrite Ht;
          rewrite <- app_assoc; eexists; split; try reflexivity;
          repeat constructor.
      * unfold assert in H. change (negb (-1 =? 0)) with true in H.
        change (-1 <? 0) with true in H. cbv iota in H.
        inversion H; subst; cbn [trace]; rewrite Ht.
        rewrite <- app_assoc. eexists. split; [reflexivity |].
        repeat constructor.
  - change (-1 =? 0) with false in H. change (-1 <? 1) with true in H.
    inversion H; subst. cbn [trace]. eexists. split; [reflexivity |].
    repeat constructor.
Qed.

(** X7: [wait_for_nak] returns 0 or -1 and nothing else; when it returns
    0 it has done nothing but wait and read: no byte was written to the
    line and nothing was printed. *)
Theorem wait_for_nak_outcome {W : Type} {os : Os W} (fd r : Z)
    (m m' : machine W) :
  wait_for_nak fd m = Done r m' ->
  (r = 0 \/ r = -1) /\
  (r = 0 ->
   exists evs : list event,
     trace m' = trace m ++ evs /\ Forall is_input evs).
Proof.
  unfold wait_for_nak. intros H.
  apply bind_inv in H as (c & m1 & Hr1 & H).
  destruct (read_byte_inputs _ _ _ _ _ Hr1) as (evs1 & Ht1 & Hi1).
  destruct (c =? -1).
  { apply bind_inv in H as (e & m2 & _ & H).
    apply bind_inv in H as (u & m3 & _ & H). inversion H; subst.
    split; [auto | discriminate]. }
  apply bind_inv in H as (u & m2 & Ha & H).
  unfold assert in Ha. destruct (_ && _); [| discriminate].
  inversion Ha; subst m2.
  destruct (c =? 67).
  { apply bind_inv in H as (u' & m3 & _ & H). inversion H; subst.
    split; [auto | discriminate]. }
  destruct (c =? NAK).
  { inversion H; subst. split; [auto |]. intros _. exists evs1. auto. }
  destruct (c =? CAN).
  - apply bind_inv in H as (c2 & m3 & Hr2 & H).
    destruct (read_byte_inputs _ _ _ _ _ Hr2) as (evs2 & Ht2 & Hi2).
    destruct (c2 =? CAN).
    + apply bind_inv in H as (w & m4 & _ & H).
      apply bind_inv in H as (u' & m5 & _ & H). inversion H; subst.
      split; [auto | discriminate].
    + inversion H; subst. split; [auto |]. intros _.
      exists (evs1 ++ evs2). rewrite Ht2, Ht1, app_assoc.
      split; [reflexivity | apply Forall_app; auto].
  - apply bind_inv in H as (u' & m3 & _ & H).
    apply bind_inv in H as (u'' & m4 & _ & H). inversion H; subst.
    split; [auto | discriminate].
Qed.

Lemma wait_for_nak_outcome_witness :
  (0 = 0 \/ 0 = -1) /\
  (0 = 0 ->
   exists evs : list event,
     trace confirmed
     = trace (Script.boot [Script.Byte NAK] Script.Silence [65] []) ++ evs /\
     Forall is_input evs).
Proof.
  apply (wait_for_nak_outcome Script.tty_fd 0
           (Script.boot [Script.Byte NAK] Script.Silence [65] []) confirmed).
  vm_compute. reflexivity.
Defined.

(** X8: when the wait for the confirming NAK meets CAN and, within the
    second that follows, CAN again, [wait_for_nak] writes one ACK byte,
    prints that the remote cancelled, and returns -1; unlike the sending
    loop it does not drain after the ACK. *)
Theorem wait_for_nak_double_can {W : Type} {os : Os W} (fd : Z)
    (m m1 m2 : machine W) :
  read_byte fd RECEIVE_TIMEOUT m = Done CAN m1 ->
  read_byte fd ONE_SECOND_US m1 = Done CAN m2 ->
  exists (m3 : machine W) (r : Z),
    wait_for_nak fd m = Done (-1) m3 /\
    trace m3
    = trace m2 ++ [EvWrite fd [ACK] r; EvPrintf "cancelled by remote\n" []].
Proof.
  intros H1 H2. unfold wait_for_nak.
  rewrite (bind_done _ _ _ _ _ H1).
  change (CAN =? -1) with false. cbv iota.
  change ((0 <=? CAN) && (CAN <=? 255)) with true.
  unfold assert at 1. unfold bind at 1.
  change (CAN =? 67) with false. change (CAN =? NAK) with false.
  change (CAN =? CAN) with true. cbv iota.
  rewrite (bind_done _ _ _ _ _ H2).
  change (CAN =? CAN) with true. cbv iota.
  unfold write_byte, write, syscall, printf, emit, bind, ret.
  change (uchar ACK) with ACK.
  destruct (os_write fd [ACK] (world m2)) as [[v|e] w];
    cbn [world errno pos trace]; eexists _, _;
    (split; [reflexivity |]); cbn [trace]; rewrite <- app_assoc; reflexivity.
Qed.

Lemma wait_for_nak_double_can_witness :
  exists (m3 : machine Script.host) (r : Z),
    wait_for_nak Script.tty_fd two_cans = Done (-1) m3 /\
    trace m3
    = trace two_cans_2
        ++ [EvWrite Script.tty_fd [ACK] r;
            EvPrintf "cancelled by remote\n" []].
Proof.
  apply (wait_for_nak_double_can Script.tty_fd two_cans two_cans_1 two_cans_2).
  - vm_compute. reflexivity.
  - vm_compute. reflexivity.
Defined.

(** ** [build_packet] for any packet number *)

Lemma payload_stored (data h : list Z) :
  length data = 128%nat ->
  length h = 134%nat ->
  take 128 (drop 3 (list_inserts 3 data h)) = data.
Proof.
  intros Hd Hh.
  destruct h as [|x0 [|x1 [|x2 rest]]]; try discriminate.
  rewrite !list_inserts_cons.
  change (drop 3 (?a :: ?b :: ?c :: ?l)) with l.
  rewrite <- (take_drop 128 rest).
  rewrite list_inserts_0_r by (rewrite length_take; simpl in Hh; lia).
  apply take_app_length'. lia.
Qed.

(** X9: whatever the packet number, also beyond 255 or negative,
    [build_packet] returns -1, 0 or 1, leaves the array at its size, and
    has stored SOH, the number modulo 256 and 255 minus that; when it
    returns 1 (end of the source) the payload in the array is 128 zeroes,
    and when it returns 0 the 132 bytes to be sent are all byte values. *)
Theorem build_packet_any_number {W : Type} {os : Os W} (fd n r : Z)
    (packet packet' : list Z) (m m' : machine W) :
  length packet = 134%nat ->
  build_packet fd n packet buflen m = Done (r, packet') m' ->
  (r = -1 \/ r = 0 \/ r = 1) /\
  length packet' = 134%nat /\
  packet' !! 0%nat = Some SOH /\
  packet' !! 1%nat = Some (n mod 256) /\
  packet' !! 2%nat = Some (255 - n mod 256) /\
  (r = 1 -> payload packet' = replicate 128 0) /\
  (r = 0 -> Forall is_byte (take 132 packet')).
Proof.
  intros Hp H. unfold build_packet in H. cbv zeta in H.
  apply bind_inv in H as (u & m1 & _ & H).
  apply bind_inv in H as ([got data] & m2 & Hrb & H).
  set (h := <[2%nat := uchar (Z.lnot (uchar n))]>
              (<[1%nat := uchar n]> (<[0%nat := SOH]> packet))) in *.
  assert (Hh : length h = 134%nat) by (unfold h; rewrite !length_insert; lia).
  assert (H0 : h !! 0%nat = Some SOH).
  { unfold h. rewrite !list_lookup_insert_ne by lia.
    apply list_lookup_insert_eq. lia. }
  assert (H1 : h !! 1%nat = Some (n mod 256)).
  { unfold h. rewrite list_lookup_insert_ne by lia.
    apply list_lookup_insert_eq. rewrite length_insert. lia. }
  assert (H2 : h !! 2%nat = Some (255 - n mod 256)).
  { unfold h. rewrite <- complement_byte.
    apply list_lookup_insert_eq. rewrite !length_insert. lia. }
  assert (Hhead : forall j, (j < 3)%nat ->
                    list_inserts 3 data h !! j = h !! j)
    by (intros j Hj; apply list_lookup_inserts_lt; exact Hj).
  destruct (Z.eqb_spec got (-1)) as [->|Hgot].
  { apply bind_inv in H as (e & m3 & _ & H).
    apply bind_inv in H as (u' & m4 & _ & H). inversion H; subst.
    rewrite length_inserts, !Hhead by lia.
    repeat split; auto; intros; discriminate. }
  destruct (read_block_stored fd buflen got data m1 m2)
    as [?|(Hr & Hl & Hz & Hb)];
    [unfold buflen; lia | exact Hrb | contradiction |].
  change (Z.to_nat buflen) with 128%nat in Hl.
  destruct (Z.eqb_spec got 0) as [->|Hgot0].
  { inversion H; subst. rewrite length_inserts, !Hhead by lia.
    repeat split; auto; try (intros; discriminate).
    intros _. unfold payload. change (Z.to_nat buflen) with 128%nat.
    rewrite payload_stored by assumption.
    rewrite drop_0 in Hz. exact Hz. }
  inversion H; subst.
  change (Z.to_nat (buflen + 3)) with 131%nat.
  rewrite length_insert, length_inserts.
  rewrite !list_lookup_insert_ne, !Hhead by lia.
  repeat split; auto; try (intros; discriminate).
  intros _. subst h.
  rewrite (ScriptFacts.built_frame n data packet Hl Hp).
  apply ScriptFacts.frame_bytes. exact Hb.
Qed.

Lemma build_packet_any_number_witness :
  (fst wrapped_packet = -1 \/ fst wrapped_packet = 0 \/ fst wrapped_packet = 1) /\
  length (snd wrapped_packet) = 134%nat /\
  snd wrapped_packet !! 0%nat = Some SOH /\
  snd wrapped_packet !! 1%nat = Some (300 mod 256) /\
  snd wrapped_packet !! 2%nat = Some (255 - 300 mod 256) /\
  (fst wrapped_packet = 1 -> payload (snd wrapped_packet) = replicate 128 0) /\
  (fst wrapped_packet = 0 -> Forall is_byte (take 132 (snd wrapped_packet))).
Proof.
  apply (build_packet_any_number Script.in_fd 300 (fst wrapped_packet)
           (replicate 134 0) (snd wrapped_packet) short_source wrapped_built).
  - reflexivity.
  - vm_compute. reflexivity.
Defined.

(** ** [send_packet] on any operating system *)

Lemma writes_app (fd : Z) (t1 t2 : list event) :
  writes fd (t1 ++ t2) = writes fd t1 ++ writes fd t2.
Proof. unfold writes. apply flat_map_app. Qed.

Lemma timeouts_app (t1 t2 : list event) :
  timeouts (t1 ++ t2) = timeouts t1 ++ timeouts t2.
Proof. unfold timeouts. apply flat_map_app. Qed.

Lemma writes_inputs (fd : Z) (evs : list event) :
  Forall is_input evs -> writes fd evs = [].
Proof.
  induction 1 as [|e evs He _ IH]; [reflexivity |].
  change (e :: evs) with ([e] ++ evs). rewrite writes_app, IH.
  destruct e; try contradiction; reflexivity.
Qed.

(** The bytes go out in order, one for each [write]; the loop stops at
    the first [write] or drain that fails, and never waits for input. *)
Lemma send_bytes_in_order {W : Type} {os : Os W} (fd : Z) (bytes : list Z) :
  forall (i : Z) (m m' : machine W) (e : loop_end unit),
    send_bytes fd bytes i m = Done e m' ->
    exists (k : nat) (evs : list event),
      trace m' = trace m ++ evs /\
      writes fd evs = (fun b => [uchar b]) <$> take k bytes /\
      timeouts evs = [] /\
      (k <= length bytes)%nat /\
      match e with
      | Left _ => k = length bytes
      | Returned v => v = -1
      end.
Proof.
  induction bytes as [|b bytes IH]; intros i m m' e H.
  - cbn [send_bytes] in H. inversion H; subst. exists 0%nat, [].
    rewrite app_nil_r. repeat split; auto.
  - cbn [send_bytes] in H. unfold write_byte, write, syscall in H.
    unfold bind at 1 in H.
    assert (Hw : writes fd [EvWrite fd [uchar b] 0] = [[uchar b]])
      by (cbn; rewrite Z.eqb_refl; reflexivity).
    assert (Hone : forall (v : Z) (rest : list event),
               writes fd rest = [] -> timeouts rest = [] ->
               writes fd (EvWrite fd [uchar b] v :: rest)
               = (fun b => [uchar b]) <$> take 1 (b :: bytes) /\
               timeouts (EvWrite fd [uchar b] v :: rest) = []).
    { intros v rest Hr Ht.
      change (EvWrite fd [uchar b] v :: rest)
        with ([EvWrite fd [uchar b] v] ++ rest).
      rewrite writes_app, timeouts_app, Hr, Ht. cbn.
      rewrite Z.eqb_refl. split; reflexivity. }
    destruct (os_write fd [uchar b] (world m)) as [[v|err] w].
    + destruct (Z.eqb_spec v (-1)) as [->|Hv].
      { inversion H; subst. cbn [trace].
        exists 1%nat, [EvWrite fd [uchar b] (-1)].
        destruct (Hone (-1) [] eq_refl eq_refl) as [Ha Hb].
        repeat split; auto. simpl. lia. }
      destruct (i mod 8 =? 0).
      * unfold tcdrain, syscall in H. unfold bind at 1 in H.
        cbn [world errno pos trace] in H.
        destruct (os_tcdrain fd w) as [[d|err] w1].
        -- destruct (d <? 0).
           { inversion H; subst. cbn [trace].
             exists 1%nat, [EvWrite fd [uchar b] v; EvTcdrain fd d].
             destruct (Hone v [EvTcdrain fd d] eq_refl eq_refl) as [Ha Hb].
             rewrite <- app_assoc.
             repeat split; auto. simpl. lia. }
           apply IH in H as (k & evs & Ht & Hws & Hts & Hk & He).
           cbn [trace] in Ht. rewrite <- !app_assoc in Ht.
           exists (S k), ([EvWrite fd [uchar b] v] ++ [EvTcdrain fd d] ++ evs).
           split; [exact Ht |].
           rewrite !writes_app, !timeouts_app, Hws, Hts. cbn.
           rewrite Z.eqb_refl. repeat split; auto; try (simpl; lia).
           destruct e; [exact He | simpl; f_equal; exact He].
        -- change (-1 <? 0) with true in H. cbv iota in H.
           inversion H; subst. cbn [trace].
           exists 1%nat, [EvWrite fd [uchar b] v; EvTcdrain fd (-1)].
           destruct (Hone v [EvTcdrain fd (-1)] eq_refl eq_refl) as [Ha Hb].
           rewrite <- app_assoc.
           repeat split; auto. simpl. lia.
      * apply IH in H as (k & evs & Ht & Hws & Hts & Hk & He).
        cbn [trace] in Ht. rewrite <- !app_assoc in Ht.
        exists (S k), ([EvWrite fd [uchar b] v] ++ evs).
        split; [exact Ht |].
        rewrite !writes_app, !timeouts_app, Hws, Hts. cbn.
        rewrite Z.eqb_refl. repeat split; auto; try (simpl; lia).
        destruct e; [exact He | simpl; f_equal; exact He].
    + change (-1 =? -1) with true in H. cbv iota in H.
      inversion H; subst. cbn [trace].
      exists 1%nat, [EvWrite fd [uchar b] (-1)].
      destruct (Hone (-1) [] eq_refl eq_refl) as [Ha Hb].
      repeat split; auto. simpl. lia.
Qed.

(** X10: [send_packet] writes the first [len] bytes of the array in
    order, one byte for each [write]; it stops at the first [write] or
    drain that fails and then returns -1 without waiting for an answer;
    only after the last byte does it wait, once and for the receive
    timeout, and it returns -1 or the byte it read. *)
Theorem send_packet_in_order {W : Type} {os : Os W} (fd len c : Z)
    (packet : list Z) (m m' : machine W) :
  send_packet fd packet len m = Done c m' ->
  exists (k : nat) (evs : list event),
    trace m' = trace m ++ evs /\
    writes fd evs
    = (fun b => [uchar b]) <$> take k (take (Z.to_nat len) packet) /\
    (c = -1 \/ 0 <= c <= 255) /\
    ((c = -1 /\ timeouts evs = []) \/
     (k = length (take (Z.to_nat len) packet) /\
      timeouts evs = [(60, 0)])).
Proof.
  intros H. unfold send_packet in H.
  apply bind_inv in H as (e & m1 & Hs & H).
  apply send_bytes_in_order in Hs as (k & evs & Ht & Hws & Hts & Hk & He).
  destruct e as [v|[]].
  - inversion H; subst. exists k, evs. auto 10.
  - pose proof (read_byte_range _ _ _ _ _ H) as Hc.
    destruct (read_byte_calls fd RECEIVE_TIMEOUT c m1 m'
                ltac:(unfold RECEIVE_TIMEOUT; lia) H)
      as (_ & _ & s & us & r & rest & Ht' & Hsum & Hus & Hrest & _).
    assert (Hsu : s = 60 /\ us = 0)
      by (unfold RECEIVE_TIMEOUT, ONE_SECOND_US in *; lia).
    destruct Hsu as [-> ->].
    exists k, (evs ++ EvSelect fd 60 0 r :: rest).
    split; [rewrite Ht', Ht, <- app_assoc; reflexivity |].
    rewrite writes_app, timeouts_app, Hws, Hts, He.
    assert (Hq : writes fd (EvSelect fd 60 0 r :: rest) = [] /\
                 timeouts (EvSelect fd 60 0 r :: rest) = [(60, 0)])
      by (destruct Hrest as [->|(g & d & ->)]; split; reflexivity).
    destruct Hq as [-> ->]. rewrite app_nil_r.
    split; [reflexivity |]. split; [exact Hc |]. right.
    split; reflexivity.
Qed.

Lemma send_packet_in_order_witness :
  exists (k : nat) (evs : list event),
    trace one_packet_sent = trace one_byte ++ evs /\
    writes Script.tty_fd evs
    = (fun b => [uchar b])
        <$> take k (take (Z.to_nat (buflen + 4)) (frame 1 (pad [65]))) /\
    (NAK = -1 \/ 0 <= NAK <= 255) /\
    ((NAK = -1 /\ timeouts evs = []) \/
     (k = length (take (Z.to_nat (buflen + 4)) (frame 1 (pad [65]))) /\
      timeouts evs = [(60, 0)])).
Proof.
  apply (send_packet_in_order Script.tty_fd (buflen + 4) NAK
           (frame 1 (pad [65])) one_byte one_packet_sent).
  vm_compute. reflexivity.
Defined.

(** ** [xmodem_send] on any operating system *)

Lemma next_packet_returns {W : Type} {os : Os W}
    (in_fd packetno lastpacket retry v : Z) (packet : list Z)
    (m m' : machine W) :
  next_packet in_fd packetno lastpacket retry packet m = Done (Return v) m' ->
  v = -1.
Proof.
  unfold next_packet. intros H. destruct (negb _).
  - apply bind_inv in H as ([res p] & m1 & _ & H).
    destruct (res =? -1); [inversion H; reflexivity |].
    destruct (res =? 1); inversion H.
  - apply bind_inv in H as (u & m1 & _ & H). inversion H.
Qed.

Lemma send_loop_returns {W : Type} {os : Os W} (n : nat) :
  forall (tty_fd in_fd : Z) (packet : list Z)
         (packetno lastpacket retry v : Z) (m m' : machine W),
    send_loop n tty_fd in_fd packet packetno lastpacket retry m
      = Done (Returned v) m' ->
    v = -1.
Proof.
  induction n as [|n IH];
    intros tty_fd in_fd packet packetno lastpacket retry v m m' H;
    cbn [send_loop] in H;
    (destruct (retry <? MAX_RETRANS); [| inversion H]);
    [discriminate |].
  apply bind_inv in H as (u & m1 & _ & H).
  apply bind_inv in H as (np & m2 & Hnp & H).
  destruct np as [v' | | [p lp]].
  - apply next_packet_returns in Hnp. inversion H; subst. reflexivity.
  - inversion H.
  - apply bind_inv in H as (c & m3 & _ & H).
    destruct (c =? -1).
    { apply bind_inv in H as (e & m4 & _ & H).
      destruct (e =? ETIMEDOUT); [exact (IH _ _ _ _ _ _ _ _ _ H) |].
      apply bind_inv in H as (u' & m5 & _ & H). inversion H. }
    destruct (c =? ACK); [exact (IH _ _ _ _ _ _ _ _ _ H) |].
    destruct (c =? CAN).
    { apply bind_inv in H as (u' & m4 & _ & H).
      apply bind_inv in H as (c2 & m5 & _ & H).
      destruct (c2 =? CAN); [| exact (IH _ _ _ _ _ _ _ _ _ H)].
      apply bind_inv in H as (w & m6 & _ & H).
      apply bind_inv in H as (d & m7 & _ & H). inversion H. reflexivity. }
    destruct (c =? NAK); [exact (IH _ _ _ _ _ _ _ _ _ H) |].
    apply bind_inv in H as (u' & m4 & _ & H).
    exact (IH _ _ _ _ _ _ _ _ _ H).
Qed.

(** The closing loop comes back with ACK only from a read that returned
    it. *)
Lemma eot_loop_acknowledged {W : Type} {os : Os W} (n : nat) :
  forall (tty_fd retry c : Z) (m m' : machine W),
    c <> ACK ->
    eot_loop n tty_fd retry c m = Done ACK m' ->
    exists (t : list event) (s us rv : Z),
      trace m' = t ++ [EvSelect tty_fd s us rv; EvRead tty_fd 1 1 [ACK]].
Proof.
  induction n as [|n IH]; intros tty_fd retry c m m' Hc H;
    cbn [eot_loop] in H;
    (destruct (retry <? MAX_RETRANS);
     [| inversion H; subst; contradiction]);
    [discriminate |].
  apply bind_inv in H as (w & m1 & _ & H).
  apply bind_inv in H as (d & m2 & _ & H).
  apply bind_inv in H as (c1 & m3 & Hr & H).
  destruct (Z.eqb_spec c1 ACK) as [->|Hne].
  - inversion H; subst.
    destruct (read_byte_calls tty_fd 1 ACK m2 m' ltac:(lia) Hr)
      as (_ & _ & s & us & r & rest & Ht & _ & _ & _ & Hrest).
    rewrite (Hrest ltac:(discriminate)) in Ht.
    exists (trace m2), s, us, r. exact Ht.
  - exact (IH _ _ _ _ _ Hne H).
Qed.

(** X11: [xmodem_send] returns 0 or -1, whatever the line and the source
    do; and it returns 0 only straight after a read in the closing
    exchange has returned ACK, "done" being the last thing it prints. *)
Theorem xmodem_send_status {W : Type} {os : Os W} (fuel : nat)
    (tty_fd in_fd r : Z) (m m' : machine W) :
  xmodem_send fuel tty_fd in_fd m = Done r m' ->
  (r = 0 \/ r = -1) /\
  (r = 0 ->
   exists (t : list event) (s us rv : Z),
     trace m'
     = t ++ [EvSelect tty_fd s us rv; EvRead tty_fd 1 1 [ACK];
             EvPuts "done\n"]).
Proof.
  unfold xmodem_send. intros H.
  apply bind_inv in H as (u & m1 & _ & H).
  apply bind_inv in H as (w & m2 & _ & H).
  destruct (w =? -1); [inversion H; subst; split; [auto | discriminate] |].
  unfold transfer in H. cbv zeta in H.
  apply bind_inv in H as (e & m3 & Hl & H).
  destruct e as [v|retry].
  { apply send_loop_returns in Hl. inversion H; subst.
    split; [auto | discriminate]. }
  destruct (retry =? MAX_RETRANS).
  { apply bind_inv in H as (u1 & m4 & _ & H).
    apply bind_inv in H as (u2 & m5 & _ & H). inversion H; subst.
    split; [auto | discriminate]. }
  apply bind_inv in H as (u1 & m4 & _ & H).
  apply bind_inv in H as (c & m5 & He & H).
  destruct (Z.eqb_spec c ACK) as [->|Hne]; cbn [negb] in H.
  - apply bind_inv in H as (u2 & m6 & Hp & H). inversion H; subst.
    split; [auto |]. intros _.
    apply eot_loop_acknowledged in He as (t & s & us & rv & Ht);
      [| discriminate].
    unfold puts in Hp. inversion Hp; subst. cbn [emit trace].
    rewrite Ht, <- app_assoc. exists t, s, us, rv. reflexivity.
  - apply bind_inv in H as (u2 & m6 & _ & H). inversion H; subst.
    split; [auto | discriminate].
Qed.

Lemma xmodem_send_status_witness :
  (0 = 0 \/ 0 = -1) /\
  (0 = 0 ->
   exists (t : list event) (s us rv : Z),
     trace one_byte_sent
     = t ++ [EvSelect Script.tty_fd s us rv; EvRead Script.tty_fd 1 1 [ACK];
             EvPuts "done\n"]).
Proof.
  apply (xmodem_send_status 2 Script.tty_fd Script.in_fd 0 one_byte
           one_byte_sent).
  vm_compute. reflexivity.
Defined.

(** ** Whole transfers against the scripted remote *)

Lemma packet_count_bound (len : nat) : (len <= 128 * packet_count len)%nat.
Proof.
  unfold packet_count.
  pose proof (Nat.div_mod_eq (len + 127) 128).
  pose proof (Nat.mod_upper_bound (len + 127) 128). lia.
Qed.

Lemma packet_count_step (len : nat) :
  (1 <= len)%nat -> packet_count len = S (packet_count (len - 128)).
Proof.
  intros H. unfold packet_count.
  destruct (Nat.le_gt_cases 128 len) as [Hge|Hlt].
  - replace (len + 127)%nat with ((len - 128 + 127) + 1 * 128)%nat by lia.
    rewrite Nat.div_add by lia. lia.
  - replace (len - 128)%nat with 0%nat by lia.
    replace (len + 127)%nat with ((len - 1) + 1 * 128)%nat by lia.
    rewrite Nat.div_add by lia. rewrite !Nat.div_small by lia. reflexivity.
Qed.

Lemma frames_length (n : nat) :
  forall (packetno : Z) (data : list Z),
    (length data <= 128 * n)%nat ->
    length (frames n packetno data) = packet_count (length data).
Proof.
  induction n as [|n IH]; intros packetno data Hlen.
  - destruct data; [reflexivity | simpl in Hlen; lia].
  - destruct (decide (data = [])) as [->|Hne]; [reflexivity |].
    rewrite ScriptFacts.frames_cons by exact Hne.
    change (Z.to_nat buflen) with 128%nat.
    cbn [length]. rewrite IH by (rewrite length_drop; lia).
    rewrite length_drop. symmetry. apply packet_count_step.
    destruct data; [contradiction | simpl; lia].
Qed.

Lemma frames_lookup (n : nat) :
  forall (packetno : Z) (data : list Z) (k : nat),
    (k < n)%nat ->
    (128 * k < length data)%nat ->
    frames n packetno data !! k
    = Some (frame (packetno + Z.of_nat k)
                  (pad (take 128 (drop (128 * k) data)))).
Proof.
  induction n as [|n IH]; intros packetno data k Hk Hlen; [lia |].
  assert (Hne : data <> []) by (destruct data; [simpl in Hlen; lia | discriminate]).
  rewrite ScriptFacts.frames_cons by exact Hne.
  change (Z.to_nat buflen) with 128%nat.
  destruct k as [|k].
  - cbn [lookup list_lookup]. rewrite Z.add_0_r, Nat.mul_0_r, drop_0.
    reflexivity.
  - rewrite lookup_cons_ne_0 by lia. cbn [Nat.pred].
    rewrite IH by (rewrite ?length_drop; lia).
    rewrite drop_drop. do 2 f_equal; [lia |].
    do 3 f_equal. lia.
Qed.

Lemma accepts_frame (packetno : Z) (data : list Z) :
  length data = 128%nat -> accepts packetno (frame packetno data) = true.
Proof.
  intros Hd. unfold accepts, frame. cbn [app].
  assert (Hl : length (data ++ [sum_bytes data mod 256]) = 129%nat)
    by (rewrite length_app; simpl; lia).
  rewrite Hl.
  rewrite take_app_length' by lia.
  replace (nth 128 (data ++ [sum_bytes data mod 256]) 0)
    with (sum_bytes data mod 256).
  - change (SOH =? SOH) with true. rewrite !Z.eqb_refl.
    replace (packetno mod 256 + (255 - packetno mod 256)) with 255 by lia.
    reflexivity.
  - symmetry. apply nth_lookup_Some.
    rewrite lookup_app_r by lia. rewrite Hd. reflexivity.
Qed.

(** X12: a source of any length, empty or a multiple of 128 included, read
    in pieces of any size and sent to a remote that acknowledges
    everything: [xmodem_send] returns 0; the line carries one packet for
    each block of 128 bytes begun and then EOT, nothing for an empty
    source but the EOT; the k-th packet carries the number k + 1 modulo
    256 and the k-th block padded with zeroes, and passes a receiver's
    check; the payloads put together and cut to the length of the source
    are the source. *)
Theorem transfer_any_source (data : list Z) (chunks : list nat) (fuel : nat) :
  Forall is_byte data ->
  (packet_count (length data) < fuel)%nat ->
  let packets := frames (packet_count (length data)) 1 data in
  exists m' : machine Script.host,
    xmodem_send fuel Script.tty_fd Script.in_fd
      (Script.boot [Script.Byte NAK] (Script.Byte ACK) data chunks)
    = Done 0 m' /\
    wire Script.tty_fd (trace m') = concat packets ++ [EOT] /\
    length packets = packet_count (length data) /\
    (forall (k : nat) (p : list Z),
       packets !! k = Some p ->
       p = frame (1 + Z.of_nat k) (pad (take 128 (drop (128 * k) data))) /\
       accepts (1 + Z.of_nat k) p = true) /\
    take (length data) (concat (payload <$> packets)) = data.
Proof.
  intros Hbytes Hfuel packets.
  pose proof (packet_count_bound (length data)) as Hbound.
  unfold xmodem_send, Script.boot.
  unfold bind at 1. unfold printf at 1. unfold emit. cbn [world errno pos trace].
  rewrite (bind_done _ _ _ _ _ (ScriptFacts.wait_for_nak_script _ _ _ _ _ _ _)).
  change (0 =? -1) with false. cbv iota.
  unfold transfer. cbv zeta.
  match goal with
  | |- context [bind (send_loop _ _ _ _ _ _ _) _ (Machine _ ?e ?p ?t)] =>
      destruct (ScriptFacts.ack_loop (packet_count (length data)) fuel data
                  chunks (replicate 134 0) 1 0 0 e p t)
        as (retry' & e' & p' & ch' & evs & Hl & Hr & Hw);
        [exact Hbound | lia | unfold MAX_RETRANS; lia | reflexivity | lia |]
  end.
  rewrite (bind_done _ _ _ _ _ Hl).
  destruct (Z.eqb_spec retry' MAX_RETRANS) as [?|_]; [lia |].
  unfold bind at 1. unfold printf at 1. unfold emit. cbn [world errno pos trace].
  change (Z.to_nat MAX_RETRANS) with 10%nat.
  rewrite (bind_done _ _ _ _ _ (ScriptFacts.eot_loop_ack _ _ _ _ _ _ _)).
  change (negb (ACK =? ACK)) with false. cbv iota.
  unfold bind at 1. unfold puts at 1. unfold emit, ret.
  cbn [world errno pos trace].
  eexists. split; [reflexivity |]. cbn [trace].
  assert (Hlen : length packets = packet_count (length data))
    by (apply frames_length; exact Hbound).
  split; [| split; [exact Hlen | split]].
  - rewrite !wire_app, Hw, (uchar_bytes data Hbytes).
    wire_quiet. rewrite ?app_nil_r. cbn [app]. reflexivity.
  - intros k p Hk.
    assert (Hkn : (k < packet_count (length data))%nat)
      by (rewrite <- Hlen; apply lookup_lt_Some with p; exact Hk).
    assert (Hkl : (128 * k < length data)%nat).
    { unfold packet_count in Hkn.
      pose proof (Nat.div_mod_eq (length data + 127) 128).
      pose proof (Nat.mod_upper_bound (length data + 127) 128). lia. }
    unfold packets in Hk. rewrite frames_lookup in Hk by assumption.
    inversion Hk; subst. split; [reflexivity |].
    apply accepts_frame. apply ScriptFacts.length_pad.
    rewrite length_take. lia.
  - apply frames_round_trip. exact Hbound.
Qed.

Lemma transfer_any_source_witness :
  let data := replicate 256 7 in
  let packets := frames (packet_count (length data)) 1 data in
  exists m' : machine Script.host,
    xmodem_send 3 Script.tty_fd Script.in_fd
      (Script.boot [Script.Byte NAK] (Script.Byte ACK) data [])
    = Done 0 m' /\
    wire Script.tty_fd (trace m') = concat packets ++ [EOT] /\
    length packets = packet_count (length data) /\
    (forall (k : nat) (p : list Z),
       packets !! k = Some p ->
       p = frame (1 + Z.of_nat k) (pad (take 128 (drop (128 * k) data))) /\
       accepts (1 + Z.of_nat k) p = true) /\
    take (length data) (concat (payload <$> packets)) = data.
Proof.
  apply (transfer_any_source (replicate 256 7) [] 3).
  - apply Forall_replicate. vm_compute. split; [discriminate | reflexivity].
  - vm_compute. lia.
Defined.

Module ScriptRuns.
Import Script ScriptFacts.

(** A packet sent to a remote whose script has the byte [b] next. *)
Lemma send_packet_scripted (b : Z) (rest : list reply) (idl : reply)
    (packet src : list Z) (ch : list nat) (e p : Z) (t : list event) :
  send_packet tty_fd packet (buflen + 4)
    (Machine (Host (Byte b :: rest) idl None src ch) e p t)
  = Done (uchar b)
      (Machine (Host rest idl None src ch) e p
         (t ++ sending (take 132 packet) 0
            ++ [EvSelect tty_fd 60 0 1; EvRead tty_fd 1 1 [uchar b]])).
Proof.
  unfold send_packet. change (Z.to_nat (buflen + 4)) with 132%nat.
  rewrite (bind_done _ _ _ _ _ (send_bytes_script _ _ _ _ _ _)).
  rewrite read_byte_scripted, <- app_assoc. reflexivity.
Qed.

(** The sending loop against a remote whose script acknowledges each
    packet of the source once and has nothing more. *)
Lemma ack_loop_scripted (n : nat) :
  forall (fuel : nat) (idl : reply) (src : list Z) (ch : list nat)
         (packet : list Z) (packetno lastpacket retry e p : Z)
         (t : list event),
    (length src <= 128 * n)%nat ->
    packetno <> lastpacket ->
    retry < MAX_RETRANS ->
    length packet = 134%nat ->
    (n < fuel)%nat ->
    exists (retry' e' p' : Z) (ch' : list nat) (evs : list event),
      send_loop fuel tty_fd in_fd packet packetno lastpacket retry
        (Machine (Host (replicate (packet_count (length src)) (Byte ACK)) idl
                       None src ch) e p t)
      = Done (Left retry') (Machine (Host [] idl None [] ch') e' p' (t ++ evs))
      /\ retry' < MAX_RETRANS
      /\ wire tty_fd evs = concat (frames n packetno (uchar <$> src)).
Proof.
  induction n as [|n IH];
    intros fuel idl src ch packet packetno lastpacket retry e p t
           Hlen Hne Hretry Hp Hfuel;
    (destruct fuel as [|fuel]; [lia |]);
    cbn [send_loop];
    (destruct (Z.ltb_spec retry MAX_RETRANS) as [_|?]; [| lia]);
    rewrite (bind_done _ _ _ _ _ (rotator_done _));
    cbn [world errno pos trace];
    (destruct (decide (src = [])) as [->|Hsrc];
     [ change (replicate (packet_count (length (@nil Z))) (Byte ACK))
         with (@nil reply);
       match goal with
       | |- context [bind (next_packet _ _ _ _ _) _ (Machine _ ?e ?p ?t)] =>
           destruct (next_packet_script_eof packetno lastpacket retry packet
                       [] idl None ch e p t Hne) as (ch' & evs & Hnp & Hw)
       end;
       rewrite (bind_done _ _ _ _ _ Hnp); unfold ret;
       eexists retry, _, _, ch', _;
       (split; [rewrite <- app_assoc; reflexivity |]);
       (split; [exact Hretry |]);
       rewrite wire_app, Hw; reflexivity
     | ]).
  - destruct src; [contradiction | simpl in Hlen; lia].
  - assert (Hl1 : (1 <= length src)%nat)
      by (destruct src; [contradiction | simpl; lia]).
    rewrite (packet_count_step _ Hl1). cbn [replicate].
    match goal with
    | |- context [bind (next_packet _ _ _ _ _) _ (Machine (Host ?rp _ _ _ _) ?e ?p ?t)] =>
        destruct (next_packet_script packetno lastpacket retry packet rp
                    idl None src ch e p t Hne Hsrc Hp)
          as (packet' & ch' & evs0 & Hnp & Hw0 & Hframe & Hlen')
    end.
    rewrite (bind_done _ _ _ _ _ Hnp).
    rewrite (bind_done _ _ _ _ _ (send_packet_scripted _ _ _ _ _ _ _ _ _)).
    change (uchar ACK) with ACK.
    change (ACK =? -1) with false. change (ACK =? ACK) with true.
    cbv iota.
    rewrite <- (length_drop src 128).
    match goal with
    | |- context [send_loop fuel _ _ _ _ _ _ (Machine _ ?e ?p ?t)] =>
        destruct (IH fuel idl (drop 128 src) ch' packet'
                     (packetno + 1) packetno (0 + 1) e p t)
          as (retry' & e' & p' & ch'' & evs & Hl & Hr' & Hw);
          [ rewrite length_drop; lia
          | lia | unfold MAX_RETRANS; lia | exact Hlen' | lia |]
    end.
    change (Z.to_nat buflen) with 128%nat.
    rewrite Hl. eexists retry', e', p', ch'', _. split.
    + rewrite <- !app_assoc. reflexivity.
    + split; [exact Hr' |].
      rewrite !wire_app, Hw0, Hw, wire_sending, Hframe.
      wire_quiet. rewrite ?app_nil_r. cbn [app].
      rewrite uchar_bytes
        by (apply frame_bytes, pad_bytes, fmap_uchar_bytes).
      rewrite frames_cons by (destruct src; [contradiction | discriminate]).
      rewrite fmap_take, fmap_drop. reflexivity.
Qed.

(** The closing loop against a remote that stays silent: an EOT for each
    turn left, each followed by a wait of one microsecond. *)
Lemma eot_loop_silent (j : nat) :
  forall (fuel : nat) (retry c : Z) (src : list Z) (ch : list nat)
         (e p : Z) (t : list event),
    retry + Z.of_nat j = MAX_RETRANS ->
    (j <= fuel)%nat ->
    exists (e' : Z) (evs : list event),
      eot_loop fuel tty_fd retry c
        (Machine (Host [] Silence None src ch) e p t)
      = Done (match j with O => c | S _ => -1 end)
          (Machine (Host [] Silence None src ch) e' p (t ++ evs))
      /\ wire tty_fd evs = replicate j EOT
      /\ timeouts evs = replicate j (0, 1).
Proof.
  induction j as [|j IH]; intros fuel retry c src ch e p t Hj Hf.
  - assert (retry = MAX_RETRANS) by lia. subst retry.
    exists e, []. rewrite app_nil_r.
    destruct fuel; repeat split; reflexivity.
  - destruct fuel as [|fuel]; [lia |].
    cbn [eot_loop].
    destruct (Z.ltb_spec retry MAX_RETRANS) as [_|?]; [| lia].
    unfold write_byte, write, tcdrain, syscall. unfold bind at 1 2.
    cbn [world errno pos trace os_write os_tcdrain host_os].
    change (host_write tty_fd [uchar EOT] ?h) with (Sys 1, h).
    cbv iota beta. cbn [world errno pos trace].
    change (host_tcdrain tty_fd ?h) with (Sys 0, h).
    cbv iota beta.
    rewrite (bind_done _ _ _ _ _ (read_byte_silence _ _ _ _ _ _)).
    change (-1 =? ACK) with false. cbv iota.
    destruct (IH fuel (retry + 1) (-1) src ch ETIMEDOUT p
                (((t ++ [EvWrite tty_fd [uchar EOT] 1])
                    ++ [EvTcdrain tty_fd 0])
                   ++ [EvSelect tty_fd (1 / ONE_SECOND_US)
                                (1 mod ONE_SECOND_US) 0]))
      as (e' & evs & Heq & Hw & Ht); [lia | lia |].
    rewrite Heq. eexists e', _. split; [| split].
    + rewrite <- !app_assoc.
      replace (match j with O => -1 | S _ => -1 end) with (-1)
        by (destruct j; reflexivity).
      reflexivity.
    + rewrite !wire_app, Hw. reflexivity.
    + rewrite !timeouts_app, Ht. reflexivity.
Qed.

(** Repeats of the packet in the array: the remote answers [j] times with
    a byte that is neither ACK nor CAN, then acknowledges.  The loop goes
    on to the next packet with the retry count set back. *)
Lemma resend_until_ack (j : nat) :
  forall (fuel : nat) (b retry packetno : Z) (packet src : list Z)
         (ch : list nat) (e p : Z) (t : list event),
    is_byte b -> b <> ACK -> b <> CAN ->
    retry + Z.of_nat j < MAX_RETRANS ->
    exists (e' p' : Z) (evs : list event),
      send_loop (S j + fuel) tty_fd in_fd packet packetno packetno retry
        (Machine (Host (replicate j (Byte b)) (Byte ACK) None src ch) e p t)
      = send_loop fuel tty_fd in_fd packet (packetno + 1) packetno (0 + 1)
          (Machine (Host [] (Byte ACK) None src ch) e' p' (t ++ evs))
      /\ wire tty_fd evs
         = concat (replicate (S j) (uchar <$> take 132 packet)).
Proof.
  induction j as [|j IH];
    intros fuel b retry packetno packet src ch e p t Hb Hack Hcan Hj;
    rewrite Nat.add_succ_l; cbn [send_loop];
    (destruct (Z.ltb_spec retry MAX_RETRANS) as [_|?]; [| lia]);
    rewrite (bind_done _ _ _ _ _ (rotator_done _));
    cbn [world errno pos trace];
    unfold next_packet; rewrite Z.eqb_refl; cbn [negb];
    unfold bind at 2; unfold printf at 1; unfold bind at 1; unfold ret at 1;
    unfold emit; cbn [world errno pos trace replicate].
  - change (0 + fuel)%nat with fuel.
    rewrite (bind_done _ _ _ _ _ (send_packet_idle _ _ _ _ _ _ _)).
    change (uchar ACK) with ACK.
    change (ACK =? -1) with false. change (ACK =? ACK) with true.
    cbv iota.
    eexists _, _, _. split.
    + rewrite <- !app_assoc. reflexivity.
    + rewrite !wire_app, wire_sending. wire_quiet.
      cbn [app concat replicate]. rewrite ?app_nil_r. reflexivity.
  - rewrite (bind_done _ _ _ _ _ (send_packet_scripted _ _ _ _ _ _ _ _ _)).
    assert (Hu : uchar b = b)
      by (unfold uchar; apply Z.mod_small; exact Hb).
    rewrite Hu.
    destruct (Z.eqb_spec b (-1)) as [?|_]; [unfold is_byte in Hb; lia |].
    destruct (Z.eqb_spec b ACK) as [?|_]; [contradiction |].
    destruct (Z.eqb_spec b CAN) as [?|_]; [contradiction |].
    destruct (b =? NAK).
    + match goal with
      | |- context [send_loop _ _ _ _ _ _ _ (Machine _ ?e ?p ?t)] =>
          destruct (IH fuel b (retry + 1) packetno packet src ch e p t
                       Hb Hack Hcan)
            as (e' & p' & evs & Heq & Hw); [lia |]
      end.
      rewrite Heq. eexists e', p', _. split.
      * rewrite <- !app_assoc. reflexivity.
      * rewrite !wire_app, wire_sending, Hw. wire_quiet.
        cbn [app concat replicate]. rewrite ?app_nil_r. reflexivity.
    + unfold bind at 1. unfold printf at 1. unfold emit.
      cbn [world errno pos trace].
      match goal with
      | |- context [send_loop _ _ _ _ _ _ _ (Machine _ ?e ?p ?t)] =>
          destruct (IH fuel b (retry + 1) packetno packet src ch e p t
                       Hb Hack Hcan)
            as (e' & p' & evs & Heq & Hw); [lia |]
      end.
      rewrite Heq. eexists e', p', _. split.
      * rewrite <- !app_assoc. reflexivity.
      * rewrite !wire_app, wire_sending, Hw. wire_quiet.
        cbn [app concat replicate]. rewrite ?app_nil_r. reflexivity.
Qed.


(** Copies of one list, joined: a further copy goes at either end. *)
Lemma concat_replicate_end {A : Type} (j : nat) (x : list A) :
  concat (replicate j x) ++ x = x ++ concat (replicate j x).
Proof.
  induction j as [|j IH]; cbn [replicate concat].
  - rewrite app_nil_r. reflexivity.
  - rewrite <- app_assoc, IH. reflexivity.
Qed.

(** The whole sending loop when the first packet is answered [k] times
    with a byte that is neither ACK nor CAN before every packet is
    acknowledged. *)
Lemma garbled_loop (k fuel : nat) (b : Z) (data : list Z) (ch : list nat)
    (e p : Z) (t : list event) :
  data <> [] ->
  is_byte b -> b <> ACK -> b <> CAN ->
  Z.of_nat k < MAX_RETRANS ->
  (k + packet_count (length data) < fuel)%nat ->
  exists (retry' e' p' : Z) (ch' : list nat) (evs : list event),
    send_loop fuel tty_fd in_fd (replicate 134 0) 1 0 0
      (Machine (Host (replicate k (Byte b)) (Byte ACK) None data ch) e p t)
    = Done (Left retry')
        (Machine (Host [] (Byte ACK) None [] ch') e' p' (t ++ evs))
    /\ retry' < MAX_RETRANS
    /\ wire tty_fd evs
       = concat (replicate k
                   (frame 1 (pad (uchar <$> take (Z.to_nat buflen) data))))
         ++ concat (frames (packet_count (length data)) 1 (uchar <$> data)).
Proof.
  intros Hdata Hb Hack Hcan Hk Hfuel.
  assert (Hl1 : (1 <= length data)%nat)
    by (destruct data; [contradiction | simpl; lia]).
  pose proof (packet_count_step _ Hl1) as Hstep.
  pose proof (packet_count_bound (length data - 128)) as Hbound.
  rewrite <- length_drop in Hbound.
  assert (Hfr : frames (packet_count (length data)) 1 (uchar <$> data)
                = frame 1 (pad (uchar <$> take (Z.to_nat buflen) data))
                    :: frames (packet_count (length (drop 128 data))) (1 + 1)
                         (uchar <$> drop 128 data)).
  { rewrite Hstep, frames_cons
      by (destruct data; [contradiction | discriminate]).
    rewrite fmap_take, fmap_drop, length_drop. reflexivity. }
  rewrite Hfr. clear Hfr.
  destruct fuel as [|fuel]; [lia |].
  cbn [send_loop]. change (0 <? MAX_RETRANS) with true. cbv iota.
  rewrite (bind_done _ _ _ _ _ (rotator_done _)).
  cbn [world errno pos trace].
  match goal with
  | |- context [bind (next_packet _ _ _ _ _) _ (Machine (Host ?rp _ _ _ _) ?e ?p ?t)] =>
      destruct (next_packet_script 1 0 0 (replicate 134 0) rp (Byte ACK) None
                  data ch e p t)
        as (packet' & ch' & evs0 & Hnp & Hw0 & Hframe & Hlen');
        [lia | exact Hdata | reflexivity |]
  end.
  rewrite (bind_done _ _ _ _ _ Hnp).
  change (Z.to_nat buflen) with 128%nat in *.
  destruct k as [|j].
  - cbn [replicate].
    rewrite (bind_done _ _ _ _ _ (send_packet_idle _ _ _ _ _ _ _)).
    change (uchar ACK) with ACK.
    change (ACK =? -1) with false. change (ACK =? ACK) with true.
    cbv iota.
    match goal with
    | |- context [send_loop fuel _ _ _ _ _ _ (Machine _ ?e ?p ?t)] =>
        destruct (ack_loop (packet_count (length (drop 128 data))) fuel
                    (drop 128 data) ch' packet' (1 + 1) 1 (0 + 1) e p t)
          as (retry' & e' & p' & ch'' & evs & Hl & Hr' & Hw);
          [ exact Hbound | lia | unfold MAX_RETRANS; lia | exact Hlen'
          | rewrite length_drop; lia |]
    end.
    rewrite Hl. eexists retry', e', p', ch'', _. split.
    + rewrite <- !app_assoc. reflexivity.
    + split; [exact Hr' |].
      rewrite !wire_app, Hw0, Hw, wire_sending, Hframe.
      wire_quiet. rewrite ?app_nil_r. cbn [app concat].
      rewrite uchar_bytes
        by (apply frame_bytes, pad_bytes, fmap_uchar_bytes).
      reflexivity.
  - cbn [replicate].
    rewrite (bind_done _ _ _ _ _ (send_packet_scripted _ _ _ _ _ _ _ _ _)).
    assert (Hu : uchar b = b)
      by (unfold uchar; apply Z.mod_small; exact Hb).
    rewrite Hu.
    destruct (Z.eqb_spec b (-1)) as [?|_]; [unfold is_byte in Hb; lia |].
    destruct (Z.eqb_spec b ACK) as [?|_]; [contradiction |].
    destruct (Z.eqb_spec b CAN) as [?|_]; [contradiction |].
    replace fuel with (S j + (fuel - S j))%nat by lia.
    destruct (b =? NAK);
      [| unfold bind at 1; unfold printf at 1; unfold emit;
         cbn [world errno pos trace]];
      match goal with
      | |- context [send_loop _ _ _ _ _ _ _ (Machine _ ?e ?p ?t)] =>
          destruct (resend_until_ack j (fuel - S j) b (0 + 1) 1 packet'
                      (drop 128 data) ch' e p t Hb Hack Hcan)
            as (e1 & p1 & evs1 & Heq & Hw1);
            [unfold MAX_RETRANS in *; lia |];
          destruct (ack_loop (packet_count (length (drop 128 data)))
                      (fuel - S j) (drop 128 data) ch' packet' (1 + 1) 1
                      (0 + 1) e1 p1 (t ++ evs1))
            as (retry' & e' & p' & ch'' & evs & Hl & Hr' & Hw);
            [ exact Hbound | lia | unfold MAX_RETRANS; lia | exact Hlen'
            | rewrite length_drop; lia |]
      end;
      rewrite Heq, Hl; eexists retry', e', p', ch'', _;
      (split; [rewrite <- !app_assoc; reflexivity |]);
      (split; [exact Hr' |]);
      rewrite !wire_app, Hw0, Hw, Hw1, wire_sending, Hframe;
      wire_quiet; rewrite ?app_nil_r; cbn [app concat replicate];
      rewrite uchar_bytes
        by (apply frame_bytes, pad_bytes, fmap_uchar_bytes);
      rewrite <- ?app_assoc;
      rewrite (app_assoc (concat (replicate j _))), concat_replicate_end;
      rewrite <- ?app_assoc; reflexivity.
Qed.


End ScriptRuns.

(** X13: when the remote acknowledges every packet and then never answers
    the EOT, the whole source has gone over the line, and [xmodem_send]
    sends EOT [MAX_RETRANS] = 10 times, waiting one microsecond after
    each, prints "failed" and returns -1. *)
Theorem unacknowledged_eot (data : list Z) (chunks : list nat) (fuel : nat) :
  Forall is_byte data ->
  (packet_count (length data) < fuel)%nat ->
  let packets := frames (packet_count (length data)) 1 data in
  exists (m' : machine Script.host) (t closing : list event),
    xmodem_send fuel Script.tty_fd Script.in_fd
      (Script.boot
         (Script.Byte NAK
            :: replicate (packet_count (length data)) (Script.Byte ACK))
         Script.Silence data chunks)
    = Done (-1) m' /\
    trace m' = t ++ closing ++ [EvPuts "failed\n"] /\
    wire Script.tty_fd closing = replicate (Z.to_nat MAX_RETRANS) EOT /\
    timeouts closing = replicate (Z.to_nat MAX_RETRANS) (0, 1) /\
    wire Script.tty_fd (trace m')
    = concat packets ++ replicate (Z.to_nat MAX_RETRANS) EOT /\
    take (length data) (concat (payload <$> packets)) = data.
Proof.
  intros Hbytes Hfuel packets.
  pose proof (packet_count_bound (length data)) as Hbound.
  unfold xmodem_send, Script.boot.
  unfold bind at 1. unfold printf at 1. unfold emit. cbn [world errno pos trace].
  rewrite (bind_done _ _ _ _ _ (ScriptFacts.wait_for_nak_script _ _ _ _ _ _ _)).
  change (0 =? -1) with false. cbv iota.
  unfold transfer. cbv zeta.
  match goal with
  | |- context [bind (send_loop _ _ _ _ _ _ _) _ (Machine _ ?e ?p ?t)] =>
      destruct (ScriptRuns.ack_loop_scripted (packet_count (length data)) fuel
                  Script.Silence data chunks (replicate 134 0) 1 0 0 e p t)
        as (retry' & e' & p' & ch' & evs & Hl & Hr & Hw);
        [exact Hbound | lia | unfold MAX_RETRANS; lia | reflexivity | lia |]
  end.
  rewrite (bind_done _ _ _ _ _ Hl).
  destruct (Z.eqb_spec retry' MAX_RETRANS) as [?|_]; [lia |].
  unfold bind at 1. unfold printf at 1. unfold emit. cbn [world errno pos trace].
  change (Z.to_nat MAX_RETRANS) with 10%nat.
  match goal with
  | |- context [bind (eot_loop _ _ _ _) _ (Machine _ ?e ?p ?t)] =>
      destruct (ScriptRuns.eot_loop_silent 10 10 0 0 [] ch' e p t)
        as (e'' & evs' & He & Hw' & Ht'); [reflexivity | lia |]
  end.
  rewrite (bind_done _ _ _ _ _ He).
  change (negb (-1 =? ACK)) with true. cbv iota.
  unfold bind at 1. unfold puts at 1. unfold emit, ret.
  cbn [world errno pos trace].
  eexists _, _, evs'. split; [reflexivity |]. cbn [trace].
  split; [rewrite <- app_assoc; reflexivity |].
  split; [exact Hw' |]. split; [exact Ht' |]. split.
  - rewrite !wire_app, Hw, Hw', (uchar_bytes data Hbytes).
    wire_quiet. rewrite ?app_nil_r. cbn [app]. reflexivity.
  - apply frames_round_trip. exact Hbound.
Qed.

Lemma unacknowledged_eot_witness :
  let data := [1; 2; 3] in
  let packets := frames (packet_count (length data)) 1 data in
  exists (m' : machine Script.host) (t closing : list event),
    xmodem_send 2 Script.tty_fd Script.in_fd
      (Script.boot
         (Script.Byte NAK
            :: replicate (packet_count (length data)) (Script.Byte ACK))
         Script.Silence data [])
    = Done (-1) m' /\
    trace m' = t ++ closing ++ [EvPuts "failed\n"] /\
    wire Script.tty_fd closing = replicate (Z.to_nat MAX_RETRANS) EOT /\
    timeouts closing = replicate (Z.to_nat MAX_RETRANS) (0, 1) /\
    wire Script.tty_fd (trace m')
    = concat packets ++ replicate (Z.to_nat MAX_RETRANS) EOT /\
    take (length data) (concat (payload <$> packets)) = data.
Proof.
  apply (unacknowledged_eot [1; 2; 3] [] 2).
  - repeat constructor; vm_compute; discriminate.
  - vm_compute. lia.
Defined.

(** X14: an answer that is neither ACK nor CAN makes [xmodem_send] send
    the same packet again.  When the remote answers the first packet [k]
    times (k below [MAX_RETRANS]) with such a byte and acknowledges from
    then on, the first packet goes over the line [k] more times, unchanged,
    then every packet in order and EOT, and the transfer returns 0. *)
Theorem garbled_answers_are_retried (data : list Z) (chunks : list nat)
    (fuel k : nat) (b : Z) :
  data <> [] ->
  Forall is_byte data ->
  is_byte b -> b <> ACK -> b <> CAN ->
  Z.of_nat k < MAX_RETRANS ->
  (k + packet_count (length data) < fuel)%nat ->
  let first := frame 1 (pad (take 128 data)) in
  let packets := frames (packet_count (length data)) 1 data in
  exists m' : machine Script.host,
    xmodem_send fuel Script.tty_fd Script.in_fd
      (Script.boot (Script.Byte NAK :: replicate k (Script.Byte b))
                   (Script.Byte ACK) data chunks)
    = Done 0 m' /\
    wire Script.tty_fd (trace m')
    = concat (replicate k first) ++ concat packets ++ [EOT].
Proof.
  intros Hdata Hbytes Hb Hack Hcan Hk Hfuel first packets.
  unfold xmodem_send, Script.boot.
  unfold bind at 1. unfold printf at 1. unfold emit. cbn [world errno pos trace].
  rewrite (bind_done _ _ _ _ _ (ScriptFacts.wait_for_nak_script _ _ _ _ _ _ _)).
  change (0 =? -1) with false. cbv iota.
  unfold transfer. cbv zeta.
  match goal with
  | |- context [bind (send_loop _ _ _ _ _ _ _) _ (Machine _ ?e ?p ?t)] =>
      destruct (ScriptRuns.garbled_loop k fuel b data chunks e p t
                  Hdata Hb Hack Hcan Hk Hfuel)
        as (retry' & e' & p' & ch' & evs & Hl & Hr & Hw)
  end.
  rewrite (bind_done _ _ _ _ _ Hl).
  destruct (Z.eqb_spec retry' MAX_RETRANS) as [?|_]; [lia |].
  unfold bind at 1. unfold printf at 1. unfold emit. cbn [world errno pos trace].
  change (Z.to_nat MAX_RETRANS) with 10%nat.
  rewrite (bind_done _ _ _ _ _ (ScriptFacts.eot_loop_ack _ _ _ _ _ _ _)).
  change (negb (ACK =? ACK)) with false. cbv iota.
  unfold bind at 1. unfold puts at 1. unfold emit, ret.
  cbn [world errno pos trace].
  eexists. split; [reflexivity |]. cbn [trace].
  rewrite !wire_app, Hw, fmap_take, (uchar_bytes data Hbytes).
  wire_quiet. rewrite ?app_nil_r. cbn [app].
  rewrite <- !app_assoc. reflexivity.
Qed.

Lemma garbled_answers_are_retried_witness :
  let data := replicate 130 7 in
  let first := frame 1 (pad (take 128 data)) in
  let packets := frames (packet_count (length data)) 1 data in
  exists m' : machine Script.host,
    xmodem_send 12 Script.tty_fd Script.in_fd
      (Script.boot (Script.Byte NAK :: replicate 9 (Script.Byte 0x43))
                   (Script.Byte ACK) data [])
    = Done 0 m' /\
    wire Script.tty_fd (trace m')
    = concat (replicate 9 first) ++ concat packets ++ [EOT].
Proof.
  apply (garbled_answers_are_retried (replicate 130 7) [] 12 9 0x43).
  - discriminate.
  - apply Forall_replicate. vm_compute. split; [discriminate | reflexivity].
  - vm_compute. split; [discriminate | reflexivity].
  - discriminate.
  - discriminate.
  - vm_compute. reflexivity.
  - vm_compute. lia.
Defined.

Lemma printed_app (t1 t2 : list event) :
  printed (t1 ++ t2) = printed t1 ++ printed t2.
Proof. unfold printed. apply flat_map_app. Qed.

Module EchoRuns.
Import Echo EchoFacts.

(** The test for the timeout, on a clock in microseconds: the time is up
    from the first microsecond of second [start + timeout + 1]. *)
Lemma time_up (x start timeout : Z) :
  (x / ONE_SECOND_US - start >? timeout)
  = ((start + timeout + 1) * ONE_SECOND_US <=? x).
Proof.
  unfold ONE_SECOND_US. rewrite Z.gtb_ltb.
  destruct (Z.ltb_spec timeout (x / 1000000 - start)) as [H|H];
    destruct (Z.leb_spec ((start + timeout + 1) * 1000000) x) as [H'|H'];
    try reflexivity; exfalso.
  - assert (x / 1000000 < start + timeout + 1)
      by (apply Z.div_lt_upper_bound; lia).
    lia.
  - assert (start + timeout + 1 <= x / 1000000)
      by (apply Z.div_le_lower_bound; lia).
    lia.
Qed.

Lemma later_eq (clk : Z) : later clk = clk + 50000.
Proof.
  unfold later.
  change (PATTERN_SEND_INTERVAL / ONE_SECOND_US) with 0.
  change (PATTERN_SEND_INTERVAL mod ONE_SECOND_US) with 50000.
  lia.
Qed.

(** What one turn of the outer loop writes and prints. *)
Lemma round_writes (p : Z) (tail : list event) :
  writes tty_fd tail = [] ->
  writes tty_fd (probing tty_fd p ++ taking tty_fd boot_pattern ++ tail)
  = [boot_pattern].
Proof.
  intros H. rewrite !writes_app, H. reflexivity.
Qed.

Lemma round_printed (p : Z) (tail : list event) :
  printed (probing tty_fd p ++ taking tty_fd boot_pattern ++ tail)
  = "%c\b"%string :: printed tail.
Proof.
  rewrite !printed_app. reflexivity.
Qed.

(** Turns that meet no answer, up to the one at whose end the time is
    up. *)
Lemma silent_rounds (j : nat) :
  forall (fuel : nat) (timeout start : Z) (s N : nat) (clk e p : Z)
         (t : list event),
    (N = 0 \/ s + S j < N)%nat ->
    clk + 50000 * Z.of_nat j < (start + timeout + 1) * ONE_SECOND_US
      <= clk + 50000 * Z.of_nat (S j) ->
    (j + 10 <= fuel)%nat ->
    exists (e' p' : Z) (evs : list event),
      pattern_loop fuel tty_fd timeout start false
        (Machine (Link [] s N clk) e p t)
      = Done (Returned 1)
          (Machine (Link [] (s + S j) N (clk + 50000 * Z.of_nat (S j)))
                   e' p' (t ++ evs))
      /\ writes tty_fd evs = replicate (S j) boot_pattern
      /\ printed evs = replicate (S j) "%c\b"%string ++ ["timeout\n"%string]
      /\ reported evs = [].
Proof.
  induction j as [|j IH];
    intros fuel timeout start s N clk e p t HN Hclk Hfuel;
    (destruct fuel as [|fuel]; [lia |]);
    rewrite pattern_round_silent by lia; cbv zeta;
    rewrite time_up, later_eq.
  - destruct (Z.leb_spec ((start + timeout + 1) * ONE_SECOND_US)
                (clk + 50000)) as [_|?]; [| lia].
    replace (s + 1)%nat with (S s) by lia.
    replace (clk + 50000 * Z.of_nat 1) with (clk + 50000) by lia.
    unfold emit. cbn [world errno pos trace].
    eexists _, _, _. split; [| split; [| split]].
    + rewrite <- app_assoc. reflexivity.
    + rewrite writes_app, round_writes by reflexivity. reflexivity.
    + rewrite printed_app, round_printed. reflexivity.
    + reflexivity.
  - destruct (Z.leb_spec ((start + timeout + 1) * ONE_SECOND_US)
                (clk + 50000)) as [?|_]; [lia |].
    match goal with
    | |- context [pattern_loop _ _ _ _ _ (Machine _ ?e ?p ?t)] =>
        destruct (IH fuel timeout start (S s) N (clk + 50000) e p t)
          as (e' & p' & evs & Heq & Hw & Hp & Hrep); [lia | lia | lia |]
    end.
    rewrite Heq.
    replace (S s + S j)%nat with (s + S (S j))%nat by lia.
    replace (clk + 50000 + 50000 * Z.of_nat (S j))
      with (clk + 50000 * Z.of_nat (S (S j))) by lia.
    eexists e', p', _. split; [| split; [| split]].
    + rewrite <- app_assoc. reflexivity.
    + rewrite writes_app, round_writes by reflexivity.
      rewrite Hw. reflexivity.
    + rewrite printed_app, round_printed, Hp. reflexivity.
    + unfold reported in *. rewrite !flat_map_app, Hrep. reflexivity.
Qed.

(** Turns that meet no answer, then the one that meets the NAK, all
    before the time is up. *)
Lemma answered_rounds (j : nat) :
  forall (fuel : nat) (timeout start : Z) (s N : nat) (clk e p : Z)
         (t : list event),
    (S s + j = N)%nat ->
    clk + 50000 * Z.of_nat j < (start + timeout + 1) * ONE_SECOND_US ->
    (j + 10 <= fuel)%nat ->
    exists (e' p' : Z) (evs : list event),
      pattern_loop fuel tty_fd timeout start false
        (Machine (Link [] s N clk) e p t)
      = Done (Left tt)
          (Machine (Link [] N N (clk + 50000 * Z.of_nat j)) e' p' (t ++ evs))
      /\ writes tty_fd evs = replicate (S j) boot_pattern
      /\ printed evs = replicate (S j) "%c\b"%string.
Proof.
  induction j as [|j IH];
    intros fuel timeout start s N clk e p t HN Hclk Hfuel;
    (destruct fuel as [|fuel]; [lia |]).
  - rewrite pattern_round_nak by lia. cbv zeta. rewrite time_up.
    destruct (Z.leb_spec ((start + timeout + 1) * ONE_SECOND_US) clk)
      as [?|_]; [lia |].
    replace (S s) with N by lia.
    replace (clk + 50000 * Z.of_nat 0) with clk by lia.
    eexists _, _, _. split; [reflexivity | split].
    + rewrite round_writes by reflexivity. reflexivity.
    + rewrite round_printed. reflexivity.
  - rewrite pattern_round_silent by lia. cbv zeta.
    rewrite time_up, later_eq.
    destruct (Z.leb_spec ((start + timeout + 1) * ONE_SECOND_US)
                (clk + 50000)) as [?|_]; [lia |].
    match goal with
    | |- context [pattern_loop _ _ _ _ _ (Machine _ ?e ?p ?t)] =>
        destruct (IH fuel timeout start (S s) N (clk + 50000) e p t)
          as (e' & p' & evs & Heq & Hw & Hp); [lia | lia | lia |]
    end.
    rewrite Heq.
    replace (clk + 50000 + 50000 * Z.of_nat j)
      with (clk + 50000 * Z.of_nat (S j)) by lia.
    eexists e', p', _. split; [| split].
    + rewrite <- app_assoc. reflexivity.
    + rewrite writes_app, round_writes by reflexivity.
      rewrite Hw. reflexivity.
    + rewrite printed_app, round_printed, Hp. reflexivity.
Qed.

End EchoRuns.

(** The handshake on an echoing line that gives no answer in time. *)
Lemma handshake_gives_up (t0 timeout : Z) (N fuel : nat) :
  0 <= timeout ->
  N = 0%nat \/ 20 * timeout + 20 < Z.of_nat N ->
  20 * timeout + 30 <= Z.of_nat fuel ->
  exists (K : nat) (e' p' : Z) (evs : list event),
    send_boot_pattern fuel Echo.tty_fd timeout (Echo.boot N t0)
    = Done 1
        (Machine (Echo.Link [] K N (t0 + 50000 * Z.of_nat K)) e' p' evs) /\
    writes Echo.tty_fd evs = replicate K boot_pattern /\
    printed evs
    = "Sending boot pattern: power on or reset now..."%string
        :: replicate K "%c\b"%string ++ ["timeout\n"%string] /\
    reported evs = [] /\
    20 * timeout < Z.of_nat K <= 20 * timeout + 20.
Proof.
  intros Ht HN Hf.
  pose proof (Z.div_mod t0 ONE_SECOND_US ltac:(discriminate)) as Hdm.
  pose proof (Z.mod_pos_bound t0 ONE_SECOND_US ltac:(reflexivity)) as Hr.
  set (q := t0 / ONE_SECOND_US) in *.
  set (r := t0 mod ONE_SECOND_US) in *.
  set (D := (q + timeout + 1) * ONE_SECOND_US).
  set (kz := (D - t0 + 49999) / 50000).
  pose proof (Z.div_mod (D - t0 + 49999) 50000 ltac:(discriminate)) as Hk.
  pose proof (Z.mod_pos_bound (D - t0 + 49999) 50000 ltac:(reflexivity)) as Hkr.
  fold kz in Hk.
  assert (HD : D = (q + timeout + 1) * 1000000) by reflexivity.
  unfold ONE_SECOND_US in Hdm, Hr.
  assert (Hkz : 20 * timeout < kz <= 20 * timeout + 20) by lia.
  assert (Hwin : t0 + 50000 * (kz - 1) < D <= t0 + 50000 * kz) by lia.
  unfold send_boot_pattern, Echo.boot.
  unfold bind at 1. unfold time at 1.
  cbn [world errno pos trace os_time Echo.link_os Echo.clock].
  unfold bind at 1. unfold tcflush at 1. unfold syscall.
  cbn [world errno pos trace os_tcflush Echo.link_os Echo.link_tcflush
       Echo.sent Echo.nak_after Echo.clock].
  unfold bind at 1. unfold printf at 1. unfold emit.
  cbn [world errno pos trace].
  fold q.
  match goal with
  | |- context [bind (pattern_loop _ _ _ _ _) _ (Machine _ ?e ?p ?t)] =>
      destruct (EchoRuns.silent_rounds (Z.to_nat (kz - 1)) fuel timeout q
                  0 N t0 e p t)
        as (e' & p' & evs & Heq & Hw & Hp & Hrep);
        [ lia
        | fold D; rewrite Nat2Z.inj_succ, Z2Nat.id by lia; lia
        | lia |]
  end.
  rewrite (bind_done _ _ _ _ _ Heq). unfold ret.
  eexists (S (Z.to_nat (kz - 1))), e', p', _.
  split; [reflexivity |].
  split; [rewrite writes_app, Hw; reflexivity |].
  split; [rewrite printed_app, Hp; reflexivity |].
  split; [unfold reported in *; rewrite flat_map_app, Hrep; reflexivity |].
  rewrite Nat2Z.inj_succ, Z2Nat.id by lia. lia.
Qed.

(** X15: on a line that echoes the boot pattern and whose remote answers
    nothing (or only after more than 20 * timeout + 20 transmissions),
    [send_boot_pattern] gives up: it prints "timeout" and returns 1, having
    written the pattern K times, one every [PATTERN_SEND_INTERVAL]
    microseconds, with 20 * timeout < K <= 20 * timeout + 20.  The time is
    compared in whole seconds with [>], so the handshake lasts longer than
    [timeout] seconds, by up to one second. *)
Theorem silent_line_times_out (t0 timeout : Z) (N fuel : nat) :
  0 <= timeout ->
  N = 0%nat \/ 20 * timeout + 20 < Z.of_nat N ->
  20 * timeout + 30 <= Z.of_nat fuel ->
  exists (m' : machine Echo.link) (K : nat),
    send_boot_pattern fuel Echo.tty_fd timeout (Echo.boot N t0) = Done 1 m' /\
    writes Echo.tty_fd (trace m') = replicate K boot_pattern /\
    printed (trace m')
    = "Sending boot pattern: power on or reset now..."%string
        :: replicate K "%c\b"%string ++ ["timeout\n"%string] /\
    20 * timeout < Z.of_nat K <= 20 * timeout + 20 /\
    Echo.clock (world m') = t0 + PATTERN_SEND_INTERVAL * Z.of_nat K /\
    timeout * ONE_SECOND_US < PATTERN_SEND_INTERVAL * Z.of_nat K
      <= (timeout + 1) * ONE_SECOND_US.
Proof.
  intros Ht HN Hf.
  destruct (handshake_gives_up t0 timeout N fuel Ht HN Hf)
    as (K & e' & p' & evs & Heq & Hw & Hp & _ & HK).
  eexists _, K. split; [exact Heq |]. cbn [trace world Echo.clock].
  split; [exact Hw |]. split; [exact Hp |]. split; [exact HK |].
  unfold PATTERN_SEND_INTERVAL, ONE_SECOND_US. lia.
Qed.

Lemma silent_line_times_out_witness :
  exists (m' : machine Echo.link) (K : nat),
    send_boot_pattern 430 Echo.tty_fd PATTERN_SEND_TIMEOUT
      (Echo.boot 0 1700000000123456) = Done 1 m' /\
    writes Echo.tty_fd (trace m') = replicate K boot_pattern /\
    printed (trace m')
    = "Sending boot pattern: power on or reset now..."%string
        :: replicate K "%c\b"%string ++ ["timeout\n"%string] /\
    20 * PATTERN_SEND_TIMEOUT < Z.of_nat K <= 20 * PATTERN_SEND_TIMEOUT + 20 /\
    Echo.clock (world m') = 1700000000123456 + PATTERN_SEND_INTERVAL * Z.of_nat K /\
    PATTERN_SEND_TIMEOUT * ONE_SECOND_US < PATTERN_SEND_INTERVAL * Z.of_nat K
      <= (PATTERN_SEND_TIMEOUT + 1) * ONE_SECOND_US.
Proof.
  apply (silent_line_times_out 1700000000123456 PATTERN_SEND_TIMEOUT 0 430).
  - discriminate.
  - left. reflexivity.
  - vm_compute. discriminate.
Defined.

(** X16: on a line that echoes the boot pattern and whose remote answers
    transmission number N with a NAK, [send_boot_pattern] returns 0 after
    exactly N transmissions and prints "done", provided the N - 1
    unanswered waits of [PATTERN_SEND_INTERVAL] fit within [timeout]
    seconds. *)
Theorem handshake_answered (t0 timeout : Z) (N fuel : nat) :
  (1 <= N)%nat ->
  PATTERN_SEND_INTERVAL * (Z.of_nat N - 1) <= timeout * ONE_SECOND_US ->
  (N + 9 <= fuel)%nat ->
  exists m' : machine Echo.link,
    send_boot_pattern fuel Echo.tty_fd timeout (Echo.boot N t0) = Done 0 m' /\
    writes Echo.tty_fd (trace m') = replicate N boot_pattern /\
    printed (trace m')
    = "Sending boot pattern: power on or reset now..."%string
        :: replicate N "%c\b"%string ++ ["done\n"%string] /\
    Echo.clock (world m')
    = t0 + PATTERN_SEND_INTERVAL * (Z.of_nat N - 1).
Proof.
  intros HN Ht Hf.
  pose proof (Z.div_mod t0 ONE_SECOND_US ltac:(discriminate)) as Hdm.
  pose proof (Z.mod_pos_bound t0 ONE_SECOND_US ltac:(reflexivity)) as Hr.
  set (q := t0 / ONE_SECOND_US) in *.
  unfold PATTERN_SEND_INTERVAL, ONE_SECOND_US in Ht, Hdm, Hr.
  unfold send_boot_pattern, Echo.boot.
  unfold bind at 1. unfold time at 1.
  cbn [world errno pos trace os_time Echo.link_os Echo.clock].
  unfold bind at 1. unfold tcflush at 1. unfold syscall.
  cbn [world errno pos trace os_tcflush Echo.link_os Echo.link_tcflush
       Echo.sent Echo.nak_after Echo.clock].
  unfold bind at 1. unfold printf at 1. unfold emit.
  cbn [world errno pos trace].
  fold q.
  destruct N as [|j]; [lia |].
  match goal with
  | |- context [bind (pattern_loop _ _ _ _ _) _ (Machine _ ?e ?p ?t)] =>
      destruct (EchoRuns.answered_rounds j fuel timeout q 0 (S j) t0 e p t)
        as (e' & p' & evs & Heq & Hw & Hp);
        [ reflexivity
        | unfold ONE_SECOND_US; lia
        | lia |]
  end.
  rewrite (bind_done _ _ _ _ _ Heq).
  unfold bind at 1. unfold printf at 1. unfold emit, ret.
  cbn [world errno pos trace].
  eexists. split; [reflexivity |]. cbn [trace world Echo.clock].
  split.
  { rewrite !writes_app, Hw. cbn [writes flat_map app].
    rewrite ?app_nil_r. reflexivity. }
  split.
  - rewrite !printed_app, Hp. reflexivity.
  - unfold PATTERN_SEND_INTERVAL. lia.
Qed.

Lemma handshake_answered_witness :
  exists m' : machine Echo.link,
    send_boot_pattern 50 Echo.tty_fd PATTERN_SEND_TIMEOUT
      (Echo.boot 40 999999) = Done 0 m' /\
    writes Echo.tty_fd (trace m') = replicate 40 boot_pattern /\
    printed (trace m')
    = "Sending boot pattern: power on or reset now..."%string
        :: replicate 40 "%c\b"%string ++ ["done\n"%string] /\
    Echo.clock (world m')
    = 999999 + PATTERN_SEND_INTERVAL * (Z.of_nat 40 - 1).
Proof.
  apply (handshake_answered 999999 PATTERN_SEND_TIMEOUT 40 50).
  - lia.
  - vm_compute. discriminate.
  - lia.
Defined.

(** ** [main] on any operating system *)

Lemma quiet_call_trace {W : Type} (call : W -> sysret * W) (v : Z)
    (m m' : machine W) :
  quiet_call call m = Done v m' -> trace m' = trace m.
Proof.
  unfold quiet_call. destruct (call (world m)) as [[x|e] w];
    intros H; inversion H; reflexivity.
Qed.

(** X17: the exit status of [main] is 0 or 1, and it is 1 only when the
    process has ended early, on a wrong number of arguments or on an
    [open] that failed, with its message as the one thing done that shows
    in the trace.  A run that gets as far as the handshake ends with
    status 0, whatever [send_boot_pattern] and [xmodem_send] return. *)
Theorem main_exit_status {W : Type} {os : Os W} {fs : Files W} (fuel : nat)
    (argv : list string) (v : Z) (m m' : machine W) :
  main fuel argv m = Done v m' ->
  (v = 0 \/ v = 1) /\
  (v = 1 ->
   exists (fmt : string) (args : list Z),
     trace m' = trace m ++ [EvStderr fmt args] /\ early_exit fmt).
Proof.
  unfold main. intros H.
  destruct (Z.of_nat (length argv) =? 3); cbn [negb] in H.
  - apply bind_inv in H as (tty & m1 & Ho & H).
    apply quiet_call_trace in Ho.
    destruct (tty <? 0).
    + unfold bind, get_errno, fprintf_stderr, emit, ret in H.
      inversion H; subst. cbn [trace]. rewrite Ho.
      split; [right; reflexivity |]. intros _.
      eexists _, _. split; [reflexivity | right; reflexivity].
    + apply bind_inv in H as (r & m2 & Hs & H).
      apply quiet_call_trace in Hs.
      apply bind_inv in H as (file & m3 & Hf & H).
      apply quiet_call_trace in Hf.
      destruct (file <? 0).
      * unfold bind, get_errno, fprintf_stderr, emit, ret in H.
        inversion H; subst. cbn [trace]. rewrite Hf, Hs, Ho.
        split; [right; reflexivity |]. intros _.
        eexists _, _. split; [reflexivity | right; reflexivity].
      * apply bind_inv in H as (res & m4 & _ & H).
        apply bind_inv in H as (u & m5 & _ & H).
        apply bind_inv in H as (c1 & m6 & _ & H).
        apply bind_inv in H as (c2 & m7 & _ & H).
        inversion H; subst.
        split; [left; reflexivity | discriminate].
  - unfold usage, bind, fprintf_stderr, emit, ret in H.
    inversion H; subst. cbn [trace].
    split; [right; reflexivity |]. intros _.
    eexists _, _. split; [reflexivity | left; reflexivity].
Qed.

Lemma main_exit_status_witness :
  (1 = 0 \/ 1 = 1) /\
  (1 = 1 ->
   exists (fmt : string) (args : list Z),
     trace no_file_run = trace one_byte ++ [EvStderr fmt args] /\
     early_exit fmt).
Proof.
  apply (main_exit_status 3 no_file_line 1 one_byte no_file_run).
  vm_compute. reflexivity.
Defined.

Module ScriptMain.
Import Script ScriptFacts ScriptFiles.

(** The inner loop of the handshake when a NAK is next in the script. *)
Lemma read_replies_script (n : nat) (done : bool) (rest : list reply)
    (idl : reply) (src : list Z) (ch : list nat) (e p : Z) (t : list event) :
  read_replies (S n) tty_fd done
    (Machine (Host (Byte NAK :: rest) idl None src ch) e p t)
  = Done (Left true)
      (Machine (Host rest idl None src ch) e p
         (t ++ [EvSelect tty_fd 0 50000 1; EvRead tty_fd 1 1 [NAK]])).
Proof.
  cbn [read_replies].
  rewrite (bind_done _ _ _ _ _ (read_byte_scripted _ _ _ _ _ _ _ _ _)).
  reflexivity.
Qed.

(** The turn of the handshake that meets a NAK next in the script. *)
Lemma pattern_round_script (n : nat) (timeout start : Z) (rest : list reply)
    (idl : reply) (src : list Z) (ch : list nat) (e p : Z) (t : list event) :
  (1 <= n)%nat ->
  (0 - start >? timeout) = false ->
  pattern_loop (S n) tty_fd timeout start false
    (Machine (Host (Byte NAK :: rest) idl None src ch) e p t)
  = Done (Left tt)
      (Machine (Host rest idl None src ch) e ((p + 1) mod 4)
         (t ++ [EvPrintf "%c\b" [nth (Z.to_nat p) rotator_chars 0]; EvFflush;
                EvWrite tty_fd boot_pattern 8; EvTcdrain tty_fd 0;
                EvSelect tty_fd 0 50000 1; EvRead tty_fd 1 1 [NAK];
                EvTime 0])).
Proof.
  intros Hn Ht. cbn [pattern_loop].
  rewrite (bind_done _ _ _ _ _ (rotator_done _)).
  cbn [world errno pos trace].
  unfold write, tcdrain, syscall. unfold bind at 1.
  cbn [world errno pos trace os_write os_tcdrain host_os].
  change (host_write tty_fd boot_pattern ?h) with (Sys 8, h).
  cbv iota beta.
  change (Z.of_nat (length boot_pattern)) with 8.
  change (8 =? -1) with false. change (8 =? 8) with true.
  cbv iota. unfold assert at 1. unfold bind at 1 2.
  cbn [world errno pos trace].
  change (host_tcdrain tty_fd ?h) with (Sys 0, h).
  cbv iota beta. change (0 <? 0) with false. cbv iota.
  destruct n as [|n]; [lia |].
  rewrite (bind_done _ _ _ _ _ (read_replies_script _ _ _ _ _ _ _ _ _)).
  unfold bind at 1. unfold time at 1.
  cbn [world errno pos trace os_time host_os].
  rewrite Ht. cbn [pattern_loop]. unfold ret.
  rewrite <- !app_assoc. reflexivity.
Qed.

(** The handshake against a remote whose script has a NAK next. *)
Lemma handshake_script (n : nat) (rest : list reply) (idl : reply)
    (src : list Z) (ch : list nat) (e p : Z) (t : list event) :
  (2 <= n)%nat ->
  exists evs : list event,
    send_boot_pattern n tty_fd PATTERN_SEND_TIMEOUT
      (Machine (Host (Byte NAK :: rest) idl None src ch) e p t)
    = Done 0 (Machine (Host rest idl None src ch) e ((p + 1) mod 4)
                (t ++ evs))
    /\ wire tty_fd evs = boot_pattern
    /\ reported evs = [].
Proof.
  intros Hn. destruct n as [|n]; [lia |].
  unfold send_boot_pattern.
  unfold bind at 1. unfold time at 1.
  cbn [world errno pos trace os_time host_os].
  unfold bind at 1. unfold tcflush at 1. unfold syscall.
  cbn [world errno pos trace os_tcflush host_os].
  change (host_tcflush tty_fd ?h)
    with (Sys 0, Host (replies h) (idle h) None (source h) (chunks h)).
  cbv iota beta. cbn [replies idle source chunks world errno pos trace].
  unfold bind at 1. unfold printf at 1. unfold emit.
  cbn [world errno pos trace].
  rewrite (bind_done _ _ _ _ _
             (pattern_round_script n PATTERN_SEND_TIMEOUT 0 _ _ _ _ _ _ _
                ltac:(lia) eq_refl)).
  unfold bind, printf, emit, ret. cbn [world errno pos trace].
  eexists. split; [rewrite <- !app_assoc; reflexivity |].
  split; reflexivity.
Qed.


(** [main] up to the handshake, the device and the file both there. *)
Lemma main_opens (fuel : nat) (a0 dev fname : string) (h : host) (e p : Z)
    (t : list event) :
  dev <> EmptyString ->
  fname <> EmptyString ->
  main fuel [a0; dev; fname] (Machine h e p t)
  = (res <- send_boot_pattern fuel tty_fd PATTERN_SEND_TIMEOUT ;;
     (if res =? 0 then xmodem_send fuel tty_fd in_fd ;; ret tt
      else if res =? -1 then
        e <- get_errno ;;
        fprintf_stderr "%s: failed to send boot pattern: %m\n" [e]
      else ret tt) ;;
     close tty_fd ;;
     close in_fd ;;
     ret 0) (Machine h e p t).
Proof.
  intros Hdev Hfname.
  destruct dev as [|c dev]; [contradiction |].
  destruct fname as [|c' fname]; [contradiction |].
  reflexivity.
Qed.

(** The two calls of [close] and the return. *)
Lemma main_closes (h : host) (e p : Z) (t : list event) :
  (close tty_fd ;; close in_fd ;; ret 0) (Machine h e p t)
  = Done 0 (Machine h e p t).
Proof. reflexivity. Qed.

(** [xmodem_send] against a remote that asks for the file and
    acknowledges everything. *)
Lemma xmodem_send_acked (fuel : nat) (data : list Z) (ch : list nat)
    (e p : Z) (t : list event) :
  (packet_count (length data) < fuel)%nat ->
  exists (e' p' : Z) (ch' : list nat) (evs : list event),
    xmodem_send fuel tty_fd in_fd
      (Machine (Host [Byte NAK] (Byte ACK) None data ch) e p t)
    = Done 0 (Machine (Host [] (Byte ACK) None [] ch') e' p' (t ++ evs))
    /\ wire tty_fd evs
       = concat (frames (packet_count (length data)) 1 (uchar <$> data))
           ++ [EOT].
Proof.
  intros Hfuel.
  pose proof (packet_count_bound (length data)) as Hbound.
  unfold xmodem_send.
  unfold bind at 1. unfold printf at 1. unfold emit. cbn [world errno pos trace].
  rewrite (bind_done _ _ _ _ _ (wait_for_nak_script _ _ _ _ _ _ _)).
  change (0 =? -1) with false. cbv iota.
  unfold transfer. cbv zeta.
  match goal with
  | |- context [bind (send_loop _ _ _ _ _ _ _) _ (Machine _ ?e ?p ?t)] =>
      destruct (ack_loop (packet_count (length data)) fuel data
                  ch (replicate 134 0) 1 0 0 e p t)
        as (retry' & e' & p' & ch' & evs & Hl & Hr & Hw);
        [exact Hbound | lia | unfold MAX_RETRANS; lia | reflexivity | lia |]
  end.
  rewrite (bind_done _ _ _ _ _ Hl).
  destruct (Z.eqb_spec retry' MAX_RETRANS) as [?|_]; [lia |].
  unfold bind at 1. unfold printf at 1. unfold emit. cbn [world errno pos trace].
  change (Z.to_nat MAX_RETRANS) with 10%nat.
  rewrite (bind_done _ _ _ _ _ (eot_loop_ack _ _ _ _ _ _ _)).
  change (negb (ACK =? ACK)) with false. cbv iota.
  unfold bind at 1. unfold puts at 1. unfold emit, ret.
  cbn [world errno pos trace].
  eexists _, _, _, _. split.
  - rewrite <- !app_assoc. reflexivity.
  - rewrite !wire_app, Hw. wire_quiet. rewrite ?app_nil_r. cbn [app].
    reflexivity.
Qed.


(** A wait on the line that fails with [errno] [x]. *)
Lemma read_byte_fault (timeout x : Z) (rest : list reply) (idl : reply)
    (src : list Z) (ch : list nat) (e p : Z) (t : list event) :
  read_byte tty_fd timeout
    (Machine (Host (Fault x :: rest) idl None src ch) e p t)
  = Done (-1)
      (Machine (Host rest idl None src ch) x p
         (t ++ [EvSelect tty_fd (timeout / ONE_SECOND_US)
                         (timeout mod ONE_SECOND_US) (-1)])).
Proof. reflexivity. Qed.

(** The handshake when the first wait for an answer fails. *)
Lemma handshake_fault (n : nat) (x : Z) (rest : list reply) (idl : reply)
    (src : list Z) (ch : list nat) (e p : Z) (t : list event) :
  (2 <= n)%nat ->
  x <> ETIMEDOUT ->
  send_boot_pattern n tty_fd PATTERN_SEND_TIMEOUT
    (Machine (Host (Fault x :: rest) idl None src ch) e p t)
  = Done (-1)
      (Machine (Host rest idl None src ch) x ((p + 1) mod 4)
         (t ++ [EvTime 0; EvTcflush tty_fd 0;
                EvPrintf "Sending boot pattern: power on or reset now..." [];
                EvPrintf "%c\b" [nth (Z.to_nat p) rotator_chars 0]; EvFflush;
                EvWrite tty_fd boot_pattern 8; EvTcdrain tty_fd 0;
                EvSelect tty_fd 0 50000 (-1)])).
Proof.
  intros Hn Hx. destruct n as [|n]; [lia |].
  unfold send_boot_pattern.
  unfold bind at 1. unfold time at 1.
  cbn [world errno pos trace os_time host_os].
  unfold bind at 1. unfold tcflush at 1. unfold syscall.
  cbn [world errno pos trace os_tcflush host_os].
  change (host_tcflush tty_fd ?h)
    with (Sys 0, Host (replies h) (idle h) None (source h) (chunks h)).
  cbv iota beta. cbn [replies idle source chunks world errno pos trace].
  unfold bind at 1. unfold printf at 1. unfold emit.
  cbn [world errno pos trace].
  unfold bind at 1. cbn [pattern_loop].
  rewrite (bind_done _ _ _ _ _ (rotator_done _)).
  cbn [world errno pos trace].
  unfold write, tcdrain, syscall. unfold bind at 1.
  cbn [world errno pos trace os_write os_tcdrain host_os].
  change (host_write tty_fd boot_pattern ?h) with (Sys 8, h).
  cbv iota beta.
  change (Z.of_nat (length boot_pattern)) with 8.
  change (8 =? -1) with false. change (8 =? 8) with true.
  cbv iota. unfold assert at 1. unfold bind at 1 2.
  cbn [world errno pos trace].
  change (host_tcdrain tty_fd ?h) with (Sys 0, h).
  cbv iota beta. change (0 <? 0) with false. cbv iota.
  destruct n as [|n]; [lia |].
  unfold bind at 1. cbn [read_replies].
  rewrite (bind_done _ _ _ _ _ (read_byte_fault _ _ _ _ _ _ _ _ _)).
  change (-1 =? -1) with true. cbv iota.
  unfold bind at 1. unfold get_errno at 1. cbn [errno].
  destruct (Z.eqb_spec x ETIMEDOUT) as [?|_]; [contradiction |].
  unfold ret. rewrite <- !app_assoc. reflexivity.
Qed.


(** [xmodem_send] on a line that stays silent. *)
Lemma xmodem_send_unasked (fuel : nat) (src : list Z) (ch : list nat)
    (e p : Z) (t : list event) :
  xmodem_send fuel tty_fd in_fd (Machine (Host [] Silence None src ch) e p t)
  = Done (-1)
      (Machine (Host [] Silence None src ch) ETIMEDOUT p
         (t ++ [EvPrintf "Sending file..." []; EvSelect tty_fd 60 0 0;
                EvStderr "%s: error reading from serial port: %m\n"
                         [ETIMEDOUT]])).
Proof.
  unfold xmodem_send.
  unfold bind at 1. unfold printf at 1. unfold emit. cbn [world errno pos trace].
  unfold wait_for_nak.
  unfold bind at 1.
  rewrite (bind_done _ _ _ _ _ (read_byte_silence _ _ _ _ _ _)).
  change (-1 =? -1) with true. cbv iota.
  unfold bind, get_errno, fprintf_stderr, emit, ret.
  cbn [world errno pos trace].
  change (-1 =? -1) with true. cbv iota.
  rewrite <- !app_assoc. reflexivity.
Qed.


End ScriptMain.

(** X18: the whole program against a remote that answers the first boot
    pattern with a NAK, asks for the file with a second NAK and
    acknowledges everything.  [main] opens the device and the file, and
    what goes over the line is the boot pattern once, then every packet of
    the file in order, then EOT; the source is read to its end and the
    exit status is 0. *)
Theorem main_sends_file (a0 dev fname : string) (data : list Z)
    (chunks : list nat) (fuel : nat) :
  dev <> EmptyString ->
  fname <> EmptyString ->
  Forall is_byte data ->
  (2 <= fuel)%nat ->
  (packet_count (length data) < fuel)%nat ->
  let packets := frames (packet_count (length data)) 1 data in
  exists m' : machine Script.host,
    main fuel [a0; dev; fname]
      (Script.boot [Script.Byte NAK; Script.Byte NAK] (Script.Byte ACK)
                   data chunks)
    = Done 0 m' /\
    wire Script.tty_fd (trace m') = boot_pattern ++ concat packets ++ [EOT] /\
    Script.source (world m') = [] /\
    take (length data) (concat (payload <$> packets)) = data.
Proof.
  intros Hdev Hfname Hbytes Hf2 Hfuel packets.
  unfold Script.boot.
  rewrite ScriptMain.main_opens by assumption.
  destruct (ScriptMain.handshake_script fuel [Script.Byte NAK]
              (Script.Byte ACK) data chunks 0 0 [] Hf2)
    as (evs0 & Hh & Hw0 & _).
  rewrite (bind_done _ _ _ _ _ Hh).
  change (0 =? 0) with true. cbv iota.
  destruct (ScriptMain.xmodem_send_acked fuel data chunks 0 ((0 + 1) mod 4)
              ([] ++ evs0) Hfuel)
    as (e' & p' & ch' & evs & Hx & Hw).
  unfold bind at 1. unfold bind at 1.
  rewrite Hx. unfold ret at 1.
  rewrite ScriptMain.main_closes.
  eexists. split; [reflexivity |]. cbn [trace world Script.source].
  split; [| split; [reflexivity |]].
  - rewrite !wire_app, Hw0, Hw, (uchar_bytes data Hbytes). reflexivity.
  - apply frames_round_trip. apply packet_count_bound.
Qed.

Lemma main_sends_file_witness :
  let data := replicate 300 255 in
  let packets := frames (packet_count (length data)) 1 data in
  exists m' : machine Script.host,
    main 4 ["kwuartboot"; "/dev/ttyUSB0"; "uboot.kwb"]%string
      (Script.boot [Script.Byte NAK; Script.Byte NAK] (Script.Byte ACK)
                   data [0%nat; 5%nat])
    = Done 0 m' /\
    wire Script.tty_fd (trace m') = boot_pattern ++ concat packets ++ [EOT] /\
    Script.source (world m') = [] /\
    take (length data) (concat (payload <$> packets)) = data.
Proof.
  apply (main_sends_file "kwuartboot" "/dev/ttyUSB0" "uboot.kwb"
           (replicate 300 255) [0%nat; 5%nat] 4).
  - discriminate.
  - discriminate.
  - apply Forall_replicate. vm_compute. split; [discriminate | reflexivity].
  - lia.
  - vm_compute. lia.
Defined.

(** X19: when the first wait for an answer to the boot pattern fails with
    an error other than a timeout, [main] reports that the boot pattern
    could not be sent, with that error, and ends with status 0.
    [xmodem_send] is not called: nothing but the boot pattern has gone
    over the line, and the source and the rest of the remote's answers
    are untouched. *)
Theorem main_failed_handshake (a0 dev fname : string) (x : Z)
    (rest : list Script.reply) (idl : Script.reply) (data : list Z)
    (chunks : list nat) (fuel : nat) :
  dev <> EmptyString ->
  fname <> EmptyString ->
  x <> ETIMEDOUT ->
  (2 <= fuel)%nat ->
  exists m' : machine Script.host,
    main fuel [a0; dev; fname]
      (Script.boot (Script.Fault x :: rest) idl data chunks)
    = Done 0 m' /\
    reported (trace m')
    = [("%s: failed to send boot pattern: %m\n"%string, [x])] /\
    wire Script.tty_fd (trace m') = boot_pattern /\
    printed (trace m')
    = ["Sending boot pattern: power on or reset now..."; "%c\b"]%string /\
    world m' = Script.Host rest idl None data chunks.
Proof.
  intros Hdev Hfname Hx Hf.
  unfold Script.boot.
  rewrite ScriptMain.main_opens by assumption.
  rewrite (bind_done _ _ _ _ _
             (ScriptMain.handshake_fault fuel x rest idl data chunks 0 0 []
                Hf Hx)).
  change (-1 =? 0) with false. change (-1 =? -1) with true. cbv iota.
  unfold bind at 1. unfold bind at 1. unfold get_errno at 1.
  unfold fprintf_stderr at 1. unfold emit. cbn [world errno pos trace].
  rewrite ScriptMain.main_closes.
  eexists. split; [reflexivity |]. cbn [trace world].
  repeat split; reflexivity.
Qed.

Lemma main_failed_handshake_witness :
  exists m' : machine Script.host,
    main 2 ["kwuartboot"; "/dev/ttyUSB0"; "uboot.kwb"]%string
      (Script.boot (Script.Fault Script.EIO :: [Script.Byte NAK])
                   (Script.Byte ACK) [1; 2; 3] [])
    = Done 0 m' /\
    reported (trace m')
    = [("%s: failed to send boot pattern: %m\n"%string, [Script.EIO])] /\
    wire Script.tty_fd (trace m') = boot_pattern /\
    printed (trace m')
    = ["Sending boot pattern: power on or reset now..."; "%c\b"]%string /\
    world m'
    = Script.Host [Script.Byte NAK] (Script.Byte ACK) None [1; 2; 3] [].
Proof.
  apply (main_failed_handshake "kwuartboot" "/dev/ttyUSB0" "uboot.kwb"
           Script.EIO [Script.Byte NAK] (Script.Byte ACK) [1; 2; 3] [] 2).
  - discriminate.
  - discriminate.
  - discriminate.
  - lia.
Defined.

(** X20: when the remote answers the boot pattern but then never asks for
    the file, [xmodem_send] gives up after its wait of 60 seconds and
    reports the error; [main] still ends with status 0.  No packet has
    gone over the line and the source has not been read. *)
Theorem main_status_hides_failure (a0 dev fname : string) (data : list Z)
    (chunks : list nat) (fuel : nat) :
  dev <> EmptyString ->
  fname <> EmptyString ->
  (2 <= fuel)%nat ->
  exists m' : machine Script.host,
    main fuel [a0; dev; fname]
      (Script.boot [Script.Byte NAK] Script.Silence data chunks)
    = Done 0 m' /\
    reported (trace m')
    = [("%s: error reading from serial port: %m\n"%string, [ETIMEDOUT])] /\
    wire Script.tty_fd (trace m') = boot_pattern /\
    world m' = Script.Host [] Script.Silence None data chunks.
Proof.
  intros Hdev Hfname Hf.
  unfold Script.boot.
  rewrite ScriptMain.main_opens by assumption.
  destruct (ScriptMain.handshake_script fuel [] Script.Silence data chunks
              0 0 [] Hf)
    as (evs0 & Hh & Hw0 & Hr0).
  rewrite (bind_done _ _ _ _ _ Hh).
  change (0 =? 0) with true. cbv iota.
  unfold bind at 1. unfold bind at 1.
  rewrite ScriptMain.xmodem_send_unasked. unfold ret at 1.
  rewrite ScriptMain.main_closes.
  eexists. split; [reflexivity |]. cbn [trace world].
  split; [| split; [| reflexivity]].
  - unfold reported in *. rewrite !flat_map_app, Hr0. reflexivity.
  - rewrite !wire_app, Hw0. reflexivity.
Qed.

Lemma main_status_hides_failure_witness :
  exists m' : machine Script.host,
    main 2 ["kwuartboot"; "/dev/ttyUSB0"; "uboot.kwb"]%string
      (Script.boot [Script.Byte NAK] Script.Silence [1; 2; 3] [])
    = Done 0 m' /\
    reported (trace m')
    = [("%s: error reading from serial port: %m\n"%string, [ETIMEDOUT])] /\
    wire Script.tty_fd (trace m') = boot_pattern /\
    world m' = Script.Host [] Script.Silence None [1; 2; 3] [].
Proof.
  apply (main_status_hides_failure "kwuartboot" "/dev/ttyUSB0" "uboot.kwb"
           [1; 2; 3] [] 2).
  - discriminate.
  - discriminate.
  - lia.
Defined.

Module EchoMain.
Import Echo EchoFiles.


End EchoMain.


